(* ===== verification/_CoqProject ===== *)
-Q . S2P
Prelude.v
PyStr.v
PySorted.v
Score.v
Matcher.v
Provider.v
Roster.v
Format.v
CsvRead.v
Writer.v
Session.v
Enroll.v
Gui.v
Reentrant.v
Examples.v
