(* ===== verification/Prelude.v ===== *)
(** * Verification of the face-recognition attendance generator

    The program is one Python file, [src/Attendance using python/main.py]
    (221 lines).  It has five parts that matter for correctness, and a
    Tkinter front end that drives them:

    - the roster store, [load_known_faces] (lines 23-35): lists the
      directory [known_faces], sorts the file names by the integer after
      the first underscore, and for every [.jpg]/[.png] file asks the face
      model for faces, keeping the first face's embedding and the
      [(name, roll)] pair parsed from the file name;
    - the similarity score, [cosine_similarity] (lines 38-39);
    - the matcher, the inner loop of [mark_attendance] (lines 51-63):
      arg-max of the score over the roster with a strict [>] starting
      from [-1], then the threshold test [best_score > 0.5];
    - the attendance session and writer, the rest of [mark_attendance]
      (lines 42-80): a Python [set] of recognised [(name, roll)] pairs,
      a progress value after every face, and a CSV file
      [Attendance/Attendance_<date>.csv] written with rows sorted by
      [int(roll)];
    - enrolment, [add_face] (lines 83-125): saves the chosen picture as
      [known_faces/<name>_<roll>.jpg];
    - the GUI handlers [browse_image] and [reset_gui] (lines 128-199),
      which enable and disable the two buttons.

    They interact through the file system: [add_face] writes the
    directory that [load_known_faces] reads at the start of every
    [mark_attendance], and [mark_attendance] overwrites the attendance
    file of the day.  They also interact through Tk's event loop
    ([root.mainloop()], line 221): [add_face] calls [root.update()] and
    [mark_attendance] calls [progress_bar.update()], and inside these
    calls Tk runs the command of any enabled button that is clicked,
    nested inside the running one.

    ** Files of the development (in [_CoqProject] order)

    - [Prelude] (this file): Python exceptions [py_exc], the [result]
      error monad with its notation [x <- c ;; k] in [py_scope],
      [map_result] (a key function applied to every element, the first
      exception winning), Python list indexing [py_index] with negative
      indices, the [pyattend] hint databases, the [simpl_result] tactic
      and the shared lemmas on results.
    - [PyStr]: the string built-ins the code calls: [str.split('_')],
      [os.path.splitext] (as [genericpath._splitext]), [str.endswith],
      and [int(str)] with CPython's grammar (whitespace, sign, digits
      with single underscores, the 4300-digit limit).
    - [PySorted]: [sorted(xs, key=k)]: keys evaluated first, then the
      stable insertion sort [sort_by]; permutation, sortedness,
      stability, and uniqueness of a stable sort.
    - [Score]: [cosine_similarity] (line 39) on integer embeddings: the
      exact score [Cos d n] (meaning [d / sqrt n]) or [NaN] for a zero
      vector, [ValueError] on a length mismatch, and Python's [>]
      decided exactly ([score_gt]); refined to the real numbers.
    - [Matcher]: the scan of lines 52-59 ([best_match_loop]) and the
      decision of lines 61-63 ([match_face]); the abstract predicate
      [is_best] (maximal, beats [-1], first occurrence, NaN never wins).
    - [Provider]: type classes for what the code uses of its libraries:
      [ImageCodec] (cv2.imread, cv2.imwrite, Image.open), [FaceAnalysis]
      (model.get), [OsListdir] and [SetIter] (orders Python leaves
      unspecified, as permutations); [FixedDimension] and
      [embeddings_dim], the spec's fixed embedding dimension; concrete
      providers for running, one of them of fixed dimension 2.
    - [Roster]: [load_known_faces] (lines 23-35) on the [known_faces]
      directory, a [gmap] from file names to file contents.
    - [Format]: [strftime('%Y-%m-%d')], [strftime('%H:%M:%S')], the file
      name [Attendance_<date>.csv] and [csv.writer]'s QUOTE_MINIMAL rows
      with CRLF line ends; reading a padded date back ([dec_value]),
      so that two valid dates share a file name exactly when they are
      the same day.
    - [CsvRead]: a reader for the [excel] dialect of Python's [csv]
      module (a specification, with fuel the length of the text), and
      the round trip: it reads back exactly the rows the writer wrote.
    - [Writer]: lines 68-78, the day's file replaced in the [Attendance]
      directory; the header, then the students sorted by [int(roll)].
    - [Session]: [mark_attendance] (lines 42-80) over the file-system
      state [fs_state] (both directories), returning the count and the
      progress values, or the exception; [startup] models the two
      [os.makedirs(..., exist_ok=True)] calls (lines 15-16).
    - [Enroll]: the file write of [add_face] (lines 113-117).
    - [Gui]: [browse_image], [add_face] and [reset_gui] (lines 83-199) as
      functions on a [world] (file system and widget state), [handle]
      dispatching a button click (a disabled button ignores it), and the
      step relation [step]/[steps] of the window, one command at a time.
    - [Reentrant]: the same handlers with their [update()] calls, as
      resumptions ([proc]: a run either ends or yields to Tk with its
      continuation) in a small state monad ([mbind], [update]), and
      Tk's event loop as the step relation [tk_step] on the window and
      the stack of commands suspended in [update()]; Hoare triples
      ([triple], [sat]) over resumptions carry the invariants.
    - [Examples]: concrete runs on a two-student roster, and a witness
      for every theorem with hypotheses.

    ** What the theorems show

    - Similarity ([Score]): the exact score is the real cosine of line
      39 ([cosine_similarity_refines]), NaN for a zero vector, and a
      length mismatch raises.  The lemmas of [Score] on exact values
      (the bound [-1, 1], the value 1 on equal vectors, scale
      invariance) are facts of the exact model only: in float32 the
      code's values can exceed 1 by a rounding step.
    - Matching ([Matcher]): the scan implements [is_best]
      ([best_match_spec]), always returns when the dimensions agree, and
      a face is matched exactly when the best score is above 0.5, never
      through index [-1]; these depend on the order of the scores, not
      on their exact values.
    - Roster and enrolment ([Roster], [Enroll], [Gui]): a load returns
      lists of equal length sorted by roll; a stray file makes it
      raise; a well-formed enrolment is seen by the next load; an
      enrolment with a roll that is not an integer shows the success
      box and then makes every attendance run fail
      ([enrol_breaks_attendance]); a name or roll with a ['/'] shows
      the success box and saves nothing ([add_face_slash_unsaved]);
      the order is independent of [os.listdir] for distinct rolls.
    - Session and writer ([Session], [Writer]): the complete functional
      behaviour of a run, the day's file replaced (last run wins), no
      change on error, count bounds, idempotence, the header-only file
      for a photo without faces, the abort on a dimension mismatch, and
      progress values increasing to exactly 100; one file per calendar
      day, never touching another day's file; the day's file of a
      successful run, read back with the [csv] module, gives the header
      and exactly the sorted rows of the recognised students
      ([mark_attendance_file_reads_back]); under the fixed
      dimension a run raises only in the load or on an undecodable
      picture ([mark_attendance_errors_typed]); on a fresh installation
      ([startup], [makedirs]) a run recognises nobody and writes a
      header-only file.
    - Window ([Gui]): the two buttons always agree; an upload with a file
      always ends with the window reset; a cancelled upload dialog
      leaves both buttons disabled and the window stuck for ever; the
      handlers compose: Add New Face then Upload Photo with that face
      reports the enrolment and a count of at least one
      ([enrol_then_upload], through [Enroll], [Roster], [Matcher] and
      [Session]).
    - Event loop ([Reentrant]): run alone, each re-entrant command is
      the atomic one ([run_alone_handle_r]), so every atomic run is a
      run under the event loop ([atomic_runs_are_app_runs]); these
      relate the two models of the handlers, and carry the proofs.  The
      two
      buttons agree in every state of the event loop, with commands
      nested to any depth ([app_buttons_agree]); [browse_image] cannot
      be interrupted, because it disables both buttons before it
      yields ([upload_uninterruptible]); [add_face] can: an upload
      clicked during its progress loop runs nested, clears the
      enrolment's picture, counts against the roster without the
      student being enrolled, and its box comes first
      ([upload_during_enrol]); a cancelled upload dialog freezes the
      window only at the top level: nested in an enrolment, the
      enrolment's [reset_gui] recovers it
      ([cancel_during_enrol_recovers]).

    ** Bounds and fuel

    No definition of the program uses fuel: every loop of the source
    runs over a finite list (directory listing, roster, faces, set
    elements, [range(1, 11)]) and is a structural [Fixpoint].  A
    resumption is an inductive tree, so every command yields finitely
    often and [run_alone] is structural; the event loop itself need not
    stop (the user may click for ever), and is a relation.  Only the CSV reader of
    [CsvRead], a specification, takes fuel; [read_csv] gives it the
    length of the text, enough because every step of the reader
    consumes at least one character, and [read_csv_csv_file] proves it
    returns the rows (not only that a returned value is right).  Python integers are unbounded, so [Z] is
    used without wrap-around; the only bound is CPython's limit of 4300
    digits in [int(str)] ([max_str_digits]), kept because a longer roll
    raises [ValueError].

    ** Modelling choices

    - Python strings are [string]s whose characters are the code points
      below 256.
    - Embeddings are [list Z].  The model returns float32 vectors; every
      float32 is a dyadic rational, and cosine similarity is invariant
      under positive scaling in exact arithmetic
      ([cosine_similarity_scale]; scaling by a power of two is also
      exact in floating point), so a common power of two turns the
      embeddings into integers.  Scores are computed and compared
      exactly: the float32 rounding of numpy is not modelled, so the
      theorems that matter are those on the order of the scores and on
      the decisions taken from them, not on their exact values.
    - [known_faces] holds only picture files: a file name with a ['/']
      names a file in a missing subdirectory (or, for a name starting
      with ['/'], outside [known_faces]), where [cv2.imwrite] returns
      [False] and writes nothing.
    - Exceptions are values [Err e] of [result]; every operation that can
      raise in the source returns a [result], and [browse_image] and
      [add_face] catch them as the source's [except Exception] does.
    - Orders that Python leaves unspecified ([os.listdir], iteration of a
      [set]) are instances of [OsListdir] and [SetIter], whose laws only
      say the order is a permutation, so the theorems hold for every
      order the runtime may choose.
    - The progress bar is an exact rational ([Q]).

    ** Not modelled

    Face detection and embedding (insightface) and image decoding and
    encoding (cv2, PIL) are the abstract operations of [Provider];
    loading the model (lines 19-20) is that provider's construction.
    Thumbnails, widget geometry, packing, fonts and colours (lines
    138-167 and the options of lines 201-219) are pure presentation;
    [root.after(50)] only sleeps; the clock is an input
    ([datetime.now] is an argument of [mark_attendance]).  The message
    boxes and dialogs are modal and modelled as the answers a command
    receives.  Closing the window is not modelled: Tk destroys the
    widgets inside the [update()] call that delivers it, and each
    suspended command then goes on until its next widget access raises
    [TclError] ([progress_bar['value']] in both loops), so what it
    still writes (the day's file after the last face, the enrolment
    picture after the tenth step) depends on how Tk and tkinter behave
    on a destroyed application ([after], [messagebox], the callback
    wrapper), which neither the source nor the spec states.  Other
    window events (resizing, redrawing) change no state the code
    reads.  The imports (lines 1-10), the button frame (lines
    166-167) and the packing calls hold no state the program reads,
    so nothing of them is left to model. *)

From Stdlib Require Import ZArith Lia.
From stdpp Require Import base list.

(** ** Python exceptions and the result monad *)

(** The exceptions the modelled code can raise. *)
Inductive py_exc : Type :=
  | IndexError       (** list index out of range *)
  | ValueError       (** bad [int] literal, wrong unpack count, shape mismatch *)
  | AttributeError   (** [model.get(None)] on an unreadable image *)
  | CvError          (** [cv2.imwrite] of an empty image *)
  | OSError.         (** file-system failure *)

#[export] Instance py_exc_eq_dec : EqDecision py_exc.
Proof. solve_decision. Defined.

(** A computation that returns a value or raises an exception. *)
Inductive result (A : Type) : Type :=
  | Ok (a : A)
  | Err (e : py_exc).
Arguments Ok {A} a.
Arguments Err {A} e.

Definition rbind {A B : Type} (r : result A) (k : A -> result B) : result B :=
  match r with
  | Ok a => k a
  | Err e => Err e
  end.

Definition rmap {A B : Type} (f : A -> B) (r : result A) : result B :=
  rbind r (fun a => Ok (f a)).

Definition is_ok {A : Type} (r : result A) : bool :=
  match r with Ok _ => true | Err _ => false end.

Declare Scope py_scope.
Delimit Scope py_scope with py.
Notation "x <- c ;; k" := (rbind c (fun x => k))
  (at level 100, c at next level, right associativity) : py_scope.
Open Scope py_scope.

(** [[f(x) for x in xs]]: every element in order, the first exception
    aborts the whole list. *)
Fixpoint map_result {A B : Type} (f : A -> result B) (xs : list A) : result (list B) :=
  match xs with
  | [] => Ok []
  | x :: xs' => y <- f x ;; ys <- map_result f xs' ;; Ok (y :: ys)
  end.

(** Python's [xs[i]]: negative indices count from the end, anything
    else out of range raises [IndexError]. *)
Definition py_index {A : Type} (xs : list A) (i : Z) : result A :=
  let n := Z.of_nat (length xs) in
  let j := if (i <? 0)%Z then (n + i)%Z else i in
  if ((0 <=? j) && (j <? n))%Z then
    match xs !! Z.to_nat j with Some x => Ok x | None => Err IndexError end
  else Err IndexError.

(** The values of the [Some] entries, in order. *)
Fixpoint somes {A : Type} (l : list (option A)) : list A :=
  match l with
  | [] => []
  | Some x :: l' => x :: somes l'
  | None :: l' => somes l'
  end.

(** ** Shared lemmas *)

Create HintDb pyattend.
Create Rewrite HintDb pyattend_rw.

Lemma rbind_Ok_inv {A B : Type} (r : result A) (k : A -> result B) (b : B) :
  rbind r k = Ok b -> exists a, r = Ok a /\ k a = Ok b.
Proof. destruct r; simpl; [eauto | discriminate]. Qed.

Lemma rbind_Err_inv {A B : Type} (r : result A) (k : A -> result B) (e : py_exc) :
  rbind r k = Err e -> r = Err e \/ exists a, r = Ok a /\ k a = Err e.
Proof. destruct r as [a|e']; simpl; intros H; [right; eauto | left; congruence]. Qed.

Lemma rbind_Ok {A B : Type} (a : A) (k : A -> result B) : rbind (Ok a) k = k a.
Proof. reflexivity. Qed.

Lemma rbind_Err {A B : Type} (e : py_exc) (k : A -> result B) : rbind (Err e) k = Err e.
Proof. reflexivity. Qed.

#[export] Hint Rewrite @rbind_Ok @rbind_Err : pyattend_rw.

(** Break every [rbind ... = Ok _] hypothesis into its two steps. *)
Ltac simpl_result :=
  repeat match goal with
  | H : rbind _ _ = Ok _ |- _ =>
      let a := fresh "a" in let Ha := fresh "Ha" in
      apply rbind_Ok_inv in H as (a & Ha & H)
  | H : Ok _ = Ok _ |- _ => injection H as H
  | H : Err _ = Ok _ |- _ => discriminate H
  | H : Ok _ = Err _ |- _ => discriminate H
  end.

Lemma map_result_Ok {A B : Type} (f : A -> result B) (xs : list A) (ys : list B) :
  map_result f xs = Ok ys <-> Forall2 (fun x y => f x = Ok y) xs ys.
Proof.
  revert ys; induction xs as [|x xs IH]; intros ys; simpl.
  - split; [intros [= <-]; constructor | intros H; inversion H; reflexivity].
  - split.
    + intros H. simpl_result. subst. constructor; [done | by apply IH].
    + intros H. inversion H as [|? y ? ys' Hf Hr]; subst.
      rewrite Hf. simpl. apply IH in Hr. by rewrite Hr.
Qed.

Lemma map_result_length {A B : Type} (f : A -> result B) xs ys :
  map_result f xs = Ok ys -> length ys = length xs.
Proof. intros H%map_result_Ok. symmetry. by eapply Forall2_length. Qed.

(** When no element raises, [map_result] succeeds. *)
Lemma map_result_total {A B : Type} (f : A -> result B) (xs : list A) :
  Forall (fun x => is_ok (f x) = true) xs -> is_ok (map_result f xs) = true.
Proof.
  induction 1 as [|x xs Hx _ IH]; [done|]. simpl.
  destruct (f x); [|done]. simpl. by destruct (map_result f xs).
Qed.

(** One element that raises makes the whole list raise. *)
Lemma map_result_Err_elem {A B : Type} (f : A -> result B) (xs : list A) (x : A) :
  x ∈ xs -> is_ok (f x) = false -> exists e, map_result f xs = Err e.
Proof.
  induction xs as [|y xs IH]; simpl; [by intros ?%elem_of_nil|].
  intros [<-|Hin]%elem_of_cons Hx.
  - destruct (f x); [done|]. by eexists.
  - destruct (f y); simpl; [|by eexists].
    destruct (IH Hin Hx) as [e ->]. by eexists.
Qed.

(** A non-negative index below the length is read from the list. *)
Lemma py_index_nat {A : Type} (xs : list A) (i : nat) :
  i < length xs -> exists x, xs !! i = Some x /\ py_index xs (Z.of_nat i) = Ok x.
Proof.
  intros Hi. destruct (lookup_lt_is_Some_2 xs i Hi) as [x Hx].
  exists x. split; [done|]. unfold py_index.
  replace (Z.of_nat i <? 0)%Z with false by lia.
  replace ((0 <=? Z.of_nat i) && (Z.of_nat i <? Z.of_nat (length xs)))%Z with true by lia.
  by rewrite Nat2Z.id, Hx.
Qed.

(** A non-negative index that reads a value reads the list lookup. *)
Lemma py_index_nat_Ok {A : Type} (xs : list A) (i : nat) (x : A) :
  py_index xs (Z.of_nat i) = Ok x -> xs !! i = Some x.
Proof.
  unfold py_index. rewrite (proj2 (Z.ltb_ge _ _)) by lia.
  destruct (_ && _)%Z; [|discriminate]. rewrite Nat2Z.id.
  destruct (xs !! i); congruence.
Qed.

(** [py_index] raises exactly outside [-len, len). *)
Lemma py_index_Err {A : Type} (xs : list A) (i : Z) :
  is_ok (py_index xs i) = false <->
  (i < - Z.of_nat (length xs) \/ Z.of_nat (length xs) <= i)%Z.
Proof.
  unfold py_index. set (n := Z.of_nat (length xs)).
  destruct (i <? 0)%Z eqn:Hneg;
  (destruct (_ && _)%Z eqn:Hr;
   [ destruct (xs !! _) eqn:Hl; simpl;
     [ split; [discriminate|]; lia
     | apply lookup_ge_None in Hl; lia ]
   | simpl; split; [intros _|done]; lia ]).
Qed.

Lemma length_somes {A : Type} (l : list (option A)) : length (somes l) <= length l.
Proof. induction l as [|[x|] l IH]; simpl; lia. Qed.

Lemma elem_of_somes {A : Type} (x : A) (l : list (option A)) : Some x ∈ l -> x ∈ somes l.
Proof.
  induction l as [|[y|] l IH]; simpl; intros Hx; [by apply elem_of_nil in Hx| |].
  - apply elem_of_cons in Hx as [[= ->]|Hx]; apply elem_of_cons; [by left | right; auto].
  - apply elem_of_cons in Hx as [Hx|Hx]; [discriminate | auto].
Qed.
