(* ===== verification/PyStr.v ===== *)
(** The Python string built-ins that [main.py] applies to file names and
    roll numbers: [str.split('_')], [os.path.splitext], [str.endswith],
    the f-string [f"{name}_{roll}.jpg"] and [int(str)].  Each is written
    after CPython's own algorithm (Objects/unicodeobject.c,
    Lib/genericpath.py, Objects/longobject.c); indices are [Z] because
    [str.rfind] returns [-1]. *)

From Stdlib Require Import ZArith Lia Ascii String.
From stdpp Require Import base list.
From S2P Require Import Prelude.

Local Open Scope string_scope.
Local Open Scope Z_scope.

(** ** Character classes *)

Definition code (c : ascii) : Z := Z.of_nat (nat_of_ascii c).

(** [int()] skips ASCII [Py_ISSPACE] characters (9-13, 32); code points
    above 126 that are Unicode white space (U+0085, U+00A0) are first
    turned into a space by [_PyUnicode_TransformDecimalAndSpaceToASCII]. *)
Definition is_int_space (c : ascii) : bool :=
  let n := code c in ((9 <=? n) && (n <=? 13)) || (n =? 32) || (n =? 133) || (n =? 160).

Definition is_digit (c : ascii) : bool := let n := code c in (48 <=? n) && (n <=? 57).

Definition digit_val (c : ascii) : Z := code c - 48.

(** ** Slices *)

(** [s[:n]] *)
Fixpoint str_take (n : nat) (s : string) : string :=
  match n, s with
  | O, _ | _, EmptyString => EmptyString
  | S n', String c r => String c (str_take n' r)
  end.

(** [s[n:]] *)
Fixpoint str_drop (n : nat) (s : string) : string :=
  match n, s with
  | O, _ => s
  | _, EmptyString => EmptyString
  | S n', String _ r => str_drop n' r
  end.

Fixpoint str_existsb (f : ascii -> bool) (s : string) : bool :=
  match s with
  | EmptyString => false
  | String c r => f c || str_existsb f r
  end.

Definition str_mem (c : ascii) (s : string) : bool := str_existsb (fun d => Ascii.eqb c d) s.

(** ** [str.split(sep)] for a one-character separator *)

(** ["a_b".split('_') = ['a', 'b']], ["".split('_') = ['']],
    ["a__b".split('_') = ['a', '', 'b']]. *)
Fixpoint str_split (sep : ascii) (s : string) : list string :=
  match s with
  | EmptyString => [EmptyString]
  | String c r =>
      let parts := str_split sep r in
      if Ascii.eqb c sep then EmptyString :: parts
      else match parts with
           | p :: ps => String c p :: ps
           | [] => [String c EmptyString]
           end
  end.

(** [sep.join(parts)] *)
Fixpoint str_join (sep : ascii) (parts : list string) : string :=
  match parts with
  | [] => EmptyString
  | [p] => p
  | p :: ps => p ++ String sep (str_join sep ps)
  end.

(** ** [str.rfind(c)] and [os.path.splitext] *)

(** The highest index of [c] in [s], or [-1]. *)
Fixpoint rfind (c : ascii) (s : string) : Z :=
  match s with
  | EmptyString => -1
  | String d r =>
      let k := rfind c r in
      if 0 <=? k then k + 1 else if Ascii.eqb c d then 0 else -1
  end.

(** [posixpath.splitext] = [genericpath._splitext(p, '/', None, '.')]:
    split at the last dot if it comes after the last slash and some
    character between the slash and that dot is not a dot (leading dots
    of a file name are not an extension). *)
Definition splitext (p : string) : string * string :=
  let sepIndex := rfind "/"%char p in
  let dotIndex := rfind "."%char p in
  if sepIndex <? dotIndex then
    let filename := str_take (Z.to_nat (dotIndex - (sepIndex + 1)))
                             (str_drop (Z.to_nat (sepIndex + 1)) p) in
    if str_existsb (fun c => negb (Ascii.eqb c "."%char)) filename
    then (str_take (Z.to_nat dotIndex) p, str_drop (Z.to_nat dotIndex) p)
    else (p, EmptyString)
  else (p, EmptyString).

(** ** [str.endswith(suffix)] and [str.endswith((s1, s2, ...))] *)

Definition endswith (s suf : string) : bool :=
  let n := String.length s in
  let m := String.length suf in
  Nat.leb m n && String.eqb (str_drop (n - m) s) suf.

Definition endswith_any (s : string) (sufs : list string) : bool :=
  existsb (endswith s) sufs.

(** ** [int(s)] for a [str] argument, base 10 *)

Fixpoint lstrip_int (s : string) : string :=
  match s with
  | EmptyString => EmptyString
  | String c r => if is_int_space c then lstrip_int r else s
  end.

Fixpoint all_int_space (s : string) : bool :=
  match s with
  | EmptyString => true
  | String c r => is_int_space c && all_int_space r
  end.

(** The digit loop of [PyLong_FromString] after the first digit: single
    underscores may separate digits; an underscore not followed by a
    digit (doubled or trailing) is an error.  Returns the value, the
    number of digits read and the rest of the string. *)
Fixpoint digits_loop (s : string) (acc : Z) (n : nat) : option (Z * nat * string) :=
  match s with
  | EmptyString => Some (acc, n, EmptyString)
  | String c r =>
      if is_digit c then digits_loop r (10 * acc + digit_val c) (S n)
      else if Ascii.eqb c "_"%char then
        match r with
        | String d r' =>
            if is_digit d then digits_loop r' (10 * acc + digit_val d) (S n) else None
        | EmptyString => None
        end
      else Some (acc, n, s)
  end.

(** [sys.get_int_max_str_digits()] by default (Python 3.11 and later). *)
Definition max_str_digits : nat := 4300.

Definition py_int (s : string) : result Z :=
  let s1 := lstrip_int s in
  let '(sign, s2) :=
    match s1 with
    | String c r =>
        if Ascii.eqb c "-"%char then (-1, r)
        else if Ascii.eqb c "+"%char then (1, r) else (1, s1)
    | EmptyString => (1, s1)
    end in
  match s2 with
  | String c r =>
      if is_digit c then
        match digits_loop r (digit_val c) 1 with
        | Some (v, n, rest) =>
            if Nat.ltb max_str_digits n then Err ValueError
            else if all_int_space rest then Ok (sign * v) else Err ValueError
        | None => Err ValueError
        end
      else Err ValueError
  | EmptyString => Err ValueError
  end.

(** ** Lemmas on slices, search and split *)

Lemma str_length_app (s1 s2 : string) :
  String.length (s1 ++ s2) = (String.length s1 + String.length s2)%nat.
Proof. induction s1; simpl; congruence. Qed.

Lemma str_take_app (s1 s2 : string) : str_take (String.length s1) (s1 ++ s2) = s1.
Proof. induction s1; simpl; congruence. Qed.

Lemma str_drop_app (s1 s2 : string) : str_drop (String.length s1) (s1 ++ s2) = s2.
Proof. induction s1; simpl; done. Qed.

Lemma str_take_length (s : string) : str_take (String.length s) s = s.
Proof. induction s; simpl; congruence. Qed.

Lemma rfind_nomem (c : ascii) (s : string) : str_mem c s = false -> rfind c s = -1.
Proof.
  induction s as [|d r IH]; simpl; [done|].
  intros [Hd Hr]%orb_false_iff. rewrite IH by done. simpl.
  by rewrite Hd.
Qed.

Lemma rfind_bounds (c : ascii) (s : string) :
  -1 <= rfind c s < Z.of_nat (String.length s).
Proof.
  induction s as [|d r IH]; simpl; [lia|].
  destruct (0 <=? rfind c r) eqn:E; [lia|].
  destruct (Ascii.eqb c d); lia.
Qed.

Lemma rfind_app (c : ascii) (s1 s2 : string) :
  rfind c (s1 ++ s2) =
  if 0 <=? rfind c s2 then Z.of_nat (String.length s1) + rfind c s2 else rfind c s1.
Proof.
  induction s1 as [|d r IH]; simpl.
  - destruct (0 <=? rfind c s2) eqn:E; [lia|].
    pose proof (rfind_bounds c s2). lia.
  - rewrite IH. pose proof (rfind_bounds c r).
    destruct (0 <=? rfind c s2) eqn:E.
    + replace (0 <=? _) with true by lia. lia.
    + reflexivity.
Qed.

Lemma str_join_cons (sep c : ascii) (p : string) (ps : list string) :
  str_join sep (String c p :: ps) = String c (str_join sep (p :: ps)).
Proof. by destruct ps. Qed.

Lemma str_split_nonnil (sep : ascii) (s : string) : str_split sep s <> [].
Proof.
  destruct s as [|c r]; simpl; [done|].
  destruct (Ascii.eqb c sep); [done|]. by destruct (str_split sep r).
Qed.

(** Python's [str.split] with a separator is inverted by [str.join]:
    [sep.join(s.split(sep)) == s] for every string, so the parts the
    roster load unpacks are exactly the pieces of the file name. *)
Lemma str_split_join (sep : ascii) (s : string) : str_join sep (str_split sep s) = s.
Proof.
  induction s as [|c r IH]; simpl; [done|].
  destruct (Ascii.eqb c sep) eqn:E.
  - apply Ascii.eqb_eq in E as ->.
    destruct (str_split sep r) eqn:Hs; [by apply str_split_nonnil in Hs|].
    rewrite <- IH. reflexivity.
  - destruct (str_split sep r) as [|p ps] eqn:Hs; [by apply str_split_nonnil in Hs|].
    by rewrite str_join_cons, IH.
Qed.

(** A string without the separator is one part. *)
Lemma str_split_nosep (sep : ascii) (s : string) :
  str_mem sep s = false -> str_split sep s = [s].
Proof.
  induction s as [|c r IH]; simpl; [done|].
  intros [Hc Hr]%orb_false_iff. rewrite Ascii.eqb_sym, Hc, IH by done. done.
Qed.

Lemma str_split_app_sep (sep : ascii) (s1 s2 : string) :
  str_mem sep s1 = false -> str_split sep (s1 ++ String sep s2) = s1 :: str_split sep s2.
Proof.
  induction s1 as [|c r IH]; simpl; intros H.
  - by rewrite Ascii.eqb_refl.
  - apply orb_false_iff in H as [Hc Hr]. rewrite Ascii.eqb_sym, Hc, IH by done. done.
Qed.

(** [f"{a}_{b}".split('_') == [a, b]] when neither part holds ['_']. *)
Lemma str_split_two (sep : ascii) (a b : string) :
  str_mem sep a = false -> str_mem sep b = false ->
  str_split sep (a ++ String sep b) = [a; b].
Proof. intros Ha Hb. by rewrite str_split_app_sep, str_split_nosep. Qed.

(** [os.path.splitext(stem + "." + ext) == (stem, "." + ext)] when the
    extension holds no dot and no slash, the stem no slash, and the stem
    is not made of dots only. *)
Lemma splitext_ext (stem ext : string) :
  str_mem "/"%char stem = false -> str_mem "/"%char ext = false ->
  str_mem "."%char ext = false ->
  str_existsb (fun c => negb (Ascii.eqb c "."%char)) stem = true ->
  splitext (stem ++ String "."%char ext) = (stem, String "."%char ext).
Proof.
  intros Hs He Hd Hn. unfold splitext.
  assert (Hsl : str_mem "/"%char (String "."%char ext) = false) by (simpl; done).
  rewrite !rfind_app, (rfind_nomem "/"%char (String _ ext)) by done.
  rewrite (rfind_nomem "/"%char stem) by done. simpl.
  rewrite (rfind_nomem "."%char ext) by done. simpl.
  rewrite (proj2 (Z.ltb_lt _ _)) by lia.
  replace (Z.to_nat (Z.of_nat (String.length stem) + 0 - (-1 + 1)))
    with (String.length stem) by lia.
  replace (Z.to_nat (Z.of_nat (String.length stem) + 0)) with (String.length stem) by lia.
  simpl. by rewrite str_take_app, Hn, str_drop_app.
Qed.

Lemma endswith_app (s suf : string) : endswith (s ++ suf) suf = true.
Proof.
  unfold endswith. rewrite str_length_app.
  replace (String.length s + String.length suf - String.length suf)%nat
    with (String.length s) by lia.
  rewrite str_drop_app, String.eqb_refl, andb_true_r. apply Nat.leb_le. lia.
Qed.

Lemma str_app_assoc (s1 s2 s3 : string) : (s1 ++ s2) ++ s3 = s1 ++ s2 ++ s3.
Proof. induction s1; simpl; congruence. Qed.

Lemma str_existsb_app (f : ascii -> bool) (s1 s2 : string) :
  str_existsb f (s1 ++ s2) = str_existsb f s1 || str_existsb f s2.
Proof. induction s1 as [|c s IH]; simpl; [reflexivity|]. rewrite IH. apply orb_assoc. Qed.

Lemma str_mem_app (c : ascii) (s1 s2 : string) :
  str_mem c (s1 ++ s2) = str_mem c s1 || str_mem c s2.
Proof. apply str_existsb_app. Qed.


(** The enrolment file name [f"{a}_{b}.jpg"] of a name and a roll with
    no underscore and no slash splits back into [a] and [b]:
    [os.path.splitext] removes exactly [".jpg"] and [split('_')] gives
    [[a, b]]. *)
Lemma split_enrolled_name (a b : string) :
  str_mem "_"%char a = false -> str_mem "_"%char b = false ->
  str_mem "/"%char a = false -> str_mem "/"%char b = false ->
  splitext (a ++ "_" ++ b ++ ".jpg") = (a ++ "_" ++ b, ".jpg") /\
  str_split "_"%char (a ++ "_" ++ b) = [a; b] /\
  endswith (a ++ "_" ++ b ++ ".jpg") ".jpg" = true.
Proof.
  intros Ha Hb Sa Sb.
  replace (a ++ "_" ++ b ++ ".jpg") with ((a ++ String "_"%char b) ++ String "."%char "jpg")
    by (rewrite str_app_assoc; reflexivity).
  split; [|split].
  - apply splitext_ext; try reflexivity.
    + rewrite str_mem_app. simpl. rewrite Sa. exact Sb.
    + rewrite str_existsb_app. simpl. apply orb_true_r.
  - apply str_split_two; assumption.
  - apply endswith_app.
Qed.

Example e1 : py_int " -0012 " = Ok (-12). Proof. reflexivity. Qed.
Example e2 : py_int "1_000" = Ok 1000. Proof. reflexivity. Qed.
Example e3 : py_int "1__0" = Err ValueError. Proof. reflexivity. Qed.
Example e5 : splitext "Alice_12.jpg" = ("Alice_12", ".jpg"). Proof. reflexivity. Qed.
Example e8 : splitext "..x.tar.gz" = ("..x.tar", ".gz"). Proof. reflexivity. Qed.
