(* ===== verification/PySorted.v ===== *)
(** Python's [sorted(xs, key=k)] with an [int]-valued key, used at
    main.py line 26 (file names by roll number) and line 77 (recognised
    students by roll number).  CPython's [list.sort] first calls the key
    on every element in order (an exception aborts the sort), then runs
    a stable sort on the keys (timsort, comparing with [<] only).

    The sort itself is modelled by a stable insertion sort [sort_by].
    Its specification is: the output is a permutation of the input,
    sorted by key, and for each key value the elements with that key
    keep their input order.  [stable_sort_unique] shows the specification
    has exactly one solution, so every stable sort, timsort included,
    returns [sort_by]'s output. *)

From Stdlib Require Import ZArith Lia Sorted.
From stdpp Require Import base list sets.
From S2P Require Import Prelude.

Section SortBy.
Context {B : Type} (k : B -> Z).

(** [x] goes after every element whose key is strictly smaller, hence
    before the elements with an equal key: the sort is stable. *)
Fixpoint insert_by (x : B) (l : list B) : list B :=
  match l with
  | [] => [x]
  | y :: ys => if (k y <? k x)%Z then y :: insert_by x ys else x :: y :: ys
  end.

Fixpoint sort_by (l : list B) : list B :=
  match l with
  | [] => []
  | x :: l' => insert_by x (sort_by l')
  end.

Definition key_le (x y : B) : Prop := (k x <= k y)%Z.

(** The elements of [l] whose key is [z], in their order. *)
Definition key_class (z : Z) (l : list B) : list B := filter (fun y => k y = z) l.

Lemma insert_by_perm (x : B) (l : list B) : insert_by x l ≡ₚ x :: l.
Proof.
  induction l as [|y ys IH]; simpl; [done|].
  destruct (k y <? k x)%Z; [|done].
  rewrite IH. apply Permutation_swap.
Qed.

Lemma sort_by_perm (l : list B) : sort_by l ≡ₚ l.
Proof.
  induction l as [|x l IH]; simpl; [done|].
  by rewrite insert_by_perm, IH.
Qed.

Lemma insert_by_sorted (x : B) (l : list B) :
  Sorted key_le l -> Sorted key_le (insert_by x l).
Proof.
  induction 1 as [|y ys Hs IH Hhd]; simpl; [repeat constructor|].
  destruct (Z.ltb_spec (k y) (k x)).
  - constructor; [done|].
    destruct ys as [|y' ys']; simpl in *; [constructor; unfold key_le; lia|].
    inversion Hhd; subst.
    destruct (k y' <? k x)%Z; constructor; unfold key_le in *; lia.
  - constructor; [by constructor|]. constructor. unfold key_le; lia.
Qed.

Lemma sort_by_sorted (l : list B) : Sorted key_le (sort_by l).
Proof. induction l; simpl; [constructor | by apply insert_by_sorted]. Qed.

Lemma key_le_trans : Transitive key_le.
Proof. unfold key_le. intros ???; lia. Qed.

Lemma sort_by_strongly_sorted (l : list B) : StronglySorted key_le (sort_by l).
Proof. apply Sorted_StronglySorted; [apply key_le_trans | apply sort_by_sorted]. Qed.

(** Moving an element past one with a strictly smaller key does not
    change any key class. *)
Lemma key_class_swap (z : Z) (x y : B) (l : list B) :
  (k y < k x)%Z -> key_class z (y :: x :: l) = key_class z (x :: y :: l).
Proof.
  intros Hlt. unfold key_class. rewrite !filter_cons.
  repeat case_decide; subst; try done; lia.
Qed.

Lemma insert_by_stable (z : Z) (x : B) (l : list B) :
  key_class z (insert_by x l) = key_class z (x :: l).
Proof.
  induction l as [|y ys IH]; simpl; [done|].
  destruct (Z.ltb_spec (k y) (k x)); [|done].
  rewrite <- key_class_swap by done.
  unfold key_class in *. rewrite !(filter_cons _ y). by rewrite IH.
Qed.

Lemma sort_by_stable (z : Z) (l : list B) : key_class z (sort_by l) = key_class z l.
Proof.
  induction l as [|x l IH]; simpl; [done|].
  rewrite insert_by_stable. unfold key_class in *. by rewrite !filter_cons, IH.
Qed.

Lemma key_class_above (z : Z) (l : list B) :
  Forall (fun y => z < k y)%Z l -> key_class z l = [].
Proof.
  induction 1 as [|y l Hy _ IH]; [done|]. unfold key_class in *.
  rewrite filter_cons_False; [done | lia].
Qed.

Lemma key_class_head (x : B) (l : list B) :
  key_class (k x) (x :: l) = x :: key_class (k x) l.
Proof. unfold key_class. by rewrite filter_cons_True. Qed.

Lemma key_class_cons_ne (z : Z) (y : B) (l : list B) :
  k y <> z -> key_class z (y :: l) = key_class z l.
Proof. intros Hne. unfold key_class. by rewrite filter_cons_False. Qed.

(** Two sorted lists with the same key classes are equal. *)
Lemma sorted_key_classes_eq (l1 l2 : list B) :
  StronglySorted key_le l1 -> StronglySorted key_le l2 ->
  (forall z, key_class z l1 = key_class z l2) -> l1 = l2.
Proof.
  revert l2. induction l1 as [|x r1 IH]; intros [|y r2] H1 H2 Hc; try done.
  - specialize (Hc (k y)). by rewrite key_class_head in Hc.
  - specialize (Hc (k x)). by rewrite key_class_head in Hc.
  - apply StronglySorted_inv in H1 as [H1 F1], H2 as [H2 F2].
    assert (k x = k y) as Hxy.
    { destruct (Z.lt_trichotomy (k x) (k y)) as [Hlt|[?|Hlt]]; [|done|].
      - assert (Forall (fun w => k x < k w)%Z r2) as Fa
          by (eapply Forall_impl; [exact F2|]; unfold key_le; simpl; lia).
        specialize (Hc (k x)).
        by rewrite key_class_head, (key_class_cons_ne _ y), (key_class_above _ r2 Fa)
          in Hc by lia.
      - assert (Forall (fun w => k y < k w)%Z r1) as Fa
          by (eapply Forall_impl; [exact F1|]; unfold key_le; simpl; lia).
        specialize (Hc (k y)).
        by rewrite key_class_head, (key_class_cons_ne _ x), (key_class_above _ r1 Fa)
          in Hc by lia. }
    pose proof (Hc (k x)) as Hx. rewrite key_class_head, Hxy, key_class_head in Hx.
    injection Hx as -> _. f_equal. apply IH; [done|done|].
    intros z. specialize (Hc z). unfold key_class in *.
    rewrite !filter_cons in Hc. case_decide; [by injection Hc | done].
Qed.

Lemma stable_sort_unique (l l' : list B) :
  StronglySorted key_le l' -> (forall z, key_class z l' = key_class z l) ->
  l' = sort_by l.
Proof.
  intros Hs Hc. apply sorted_key_classes_eq; [done | apply sort_by_strongly_sorted |].
  intros z. by rewrite Hc, sort_by_stable.
Qed.

(** When the key is injective on [l], the order of [l] does not matter. *)
Lemma sort_by_perm_inj (l1 l2 : list B) :
  l1 ≡ₚ l2 -> NoDup l1 -> (forall x y, x ∈ l1 -> y ∈ l1 -> k x = k y -> x = y) ->
  sort_by l1 = sort_by l2.
Proof.
  intros Hp Hnd Hinj. apply stable_sort_unique; [apply sort_by_strongly_sorted|].
  intros z. rewrite sort_by_stable. unfold key_class.
  assert (Hnd2 : NoDup l2) by (by rewrite <- Hp).
  assert (forall l, NoDup l -> (forall x y, x ∈ l -> y ∈ l -> k x = k y -> x = y) ->
            length (filter (fun y => k y = z) l) <= 1) as Hle.
  { intros l Hl Hi. destruct (filter (fun y => k y = z) l) as [|a [|b r]] eqn:E;
      simpl; [lia|lia|].
    assert (a ∈ filter (fun y => k y = z) l) as Ha by (rewrite E; set_solver).
    assert (b ∈ filter (fun y => k y = z) l) as Hb by (rewrite E; set_solver).
    apply list_elem_of_filter in Ha as [Ha Ha'], Hb as [Hb Hb'].
    assert (a = b) as -> by (apply Hi; congruence).
    assert (NoDup (filter (fun y => k y = z) l)) as Hf by (by apply NoDup_filter).
    rewrite E in Hf. apply NoDup_cons in Hf as [Hf _]. set_solver. }
  assert (Hfp : filter (fun y => k y = z) l1 ≡ₚ filter (fun y => k y = z) l2)
    by (by rewrite Hp).
  pose proof (Hle l1 Hnd Hinj) as H1.
  destruct (filter (fun y => k y = z) l1) as [|a [|b r]] eqn:E1; [| |simpl in H1; lia];
    symmetry; [by apply Permutation_nil_r | by apply Permutation_singleton_l in Hfp].
Qed.
End SortBy.

Lemma StronglySorted_sublist {B : Type} (R : B -> B -> Prop) (l1 l2 : list B) :
  l1 `sublist_of` l2 -> StronglySorted R l2 -> StronglySorted R l1.
Proof.
  induction 1 as [|x l1 l2 Hs IH|x l1 l2 Hs IH]; intros H2; [constructor| |];
    apply StronglySorted_inv in H2 as [H2 F2].
  - constructor; [by apply IH|]. rewrite Forall_forall in F2 |- *.
    intros y Hy. apply F2. by eapply elem_of_sublist.
  - by apply IH.
Qed.

Lemma StronglySorted_map {B C : Type} (R : C -> C -> Prop) (f : B -> C) (l : list B) :
  StronglySorted (fun x y => R (f x) (f y)) l -> StronglySorted R (map f l).
Proof.
  induction 1 as [|x l _ IH HF]; simpl; constructor; [done|].
  apply Forall_map. exact HF.
Qed.

(** ** [sorted(xs, key=key)] *)

Section PySorted.
Context {A : Type}.

Definition py_sorted (key : A -> result Z) (xs : list A) : result (list A) :=
  ks <- map_result key xs ;;
  Ok (map snd (sort_by fst (zip ks xs))).

Lemma sort_by_map {C : Type} (f : A -> C) (kc : C -> Z) (l : list A) :
  sort_by kc (map f l) = map f (sort_by (fun x => kc (f x)) l).
Proof.
  induction l as [|x l IH]; simpl; [done|]. rewrite IH.
  generalize (sort_by (fun x => kc (f x)) l) as s. induction s as [|y s IHs]; simpl; [done|].
  destruct (kc (f y) <? kc (f x))%Z; simpl; [by rewrite IHs | done].
Qed.

(** When every key is computed without an exception, [sorted] is the
    stable sort by that key. *)
Lemma py_sorted_Ok (key : A -> result Z) (kf : A -> Z) (xs : list A) :
  Forall (fun x => key x = Ok (kf x)) xs -> py_sorted key xs = Ok (sort_by kf xs).
Proof.
  intros Hk. unfold py_sorted.
  assert (map_result key xs = Ok (map kf xs)) as ->.
  { apply map_result_Ok. induction Hk; simpl; by constructor. }
  simpl. f_equal.
  assert (zip (map kf xs) xs = map (fun x => (kf x, x)) xs) as ->.
  { clear Hk. induction xs; simpl; by f_equal. }
  rewrite sort_by_map, map_map. simpl. apply map_id.
Qed.

(** A successful [sorted] evaluated every key and sorted by it. *)
Lemma py_sorted_Ok_inv (key : A -> result Z) (xs ys : list A) :
  py_sorted key xs = Ok ys ->
  exists kf : A -> Z, Forall (fun x => key x = Ok (kf x)) xs /\ ys = sort_by kf xs.
Proof.
  intros H. set (kf x := match key x with Ok z => z | Err _ => 0%Z end).
  assert (Forall (fun x => key x = Ok (kf x)) xs) as Hk.
  { unfold py_sorted in H. simpl_result. apply map_result_Ok in Ha.
    clear H. induction Ha as [|x y xs' ys' Hxy _ IH]; constructor; [|done].
    unfold kf. by rewrite Hxy. }
  exists kf. split; [done|]. rewrite (py_sorted_Ok key kf xs Hk) in H. by injection H.
Qed.

(** [sorted] raises exactly when computing some key raises, and then
    with the exception of the first such element. *)
Lemma py_sorted_Err (key : A -> result Z) (xs : list A) (e : py_exc) :
  py_sorted key xs = Err e <-> map_result key xs = Err e.
Proof. unfold py_sorted. destruct (map_result key xs); simpl; split; congruence. Qed.
End PySorted.
