(* ===== verification/Score.v ===== *)
(** [cosine_similarity(a, b)] (main.py lines 38-39):
    [np.dot(a, b) / (np.linalg.norm(a) * np.linalg.norm(b))].

    Embeddings are integer vectors (see the root file for why this loses
    no generality).  A score is kept exactly as [Cos d n], standing for
    the real number [d / sqrt n] with [d = dot a b] and
    [n = |a|^2 * |b|^2 > 0]; numpy's [0/0 = nan] for a zero vector is
    [NaN].  Python's [>] on scores, [score_gt], is decided exactly on
    integers.  The refinement theorems relate [score_gt] to [<] on the
    reals and [cosine_similarity] to the real-number formula of the code.
    The lemmas on exact values (Cauchy-Schwarz bounds every exact score
    to [-1, 1], scale invariance) hold of the exact model; numpy's
    float32 values may leave [-1, 1] by one rounding step. *)

From Stdlib Require Import ZArith Lia List Reals Lra Psatz.
From S2P Require Import Prelude.
Import ListNotations.

Local Open Scope Z_scope.

Definition embedding := list Z.

(** [np.dot] of two vectors of the same length. *)
Fixpoint dot (a b : embedding) : Z :=
  match a, b with
  | x :: a', y :: b' => x * y + dot a' b'
  | _, _ => 0
  end.

(** [np.linalg.norm(a) ** 2] *)
Definition norm2 (a : embedding) : Z := dot a a.

(** A value compared by the matcher: the integer [-1] of line 53, the
    literal [0.5] of line 61, or a similarity.  [Cos d n] is [d / sqrt n]
    with [n > 0]. *)
Inductive score : Type :=
  | Cos (d n : Z)
  | NaN.

(** [best_score = -1] *)
Definition minus_one : score := Cos (-1) 1.

(** [0.5 = 1 / sqrt 4] *)
Definition threshold : score := Cos 1 4.

(** Python's [s > t]: exact comparison of [d1 / sqrt n1] and
    [d2 / sqrt n2] through the signs and the squares
    [d1^2 * n2] and [d2^2 * n1]; any comparison with NaN is [False]. *)
Definition score_gt (s t : score) : bool :=
  match s, t with
  | Cos d1 n1, Cos d2 n2 =>
      if 0 <=? d1 then (d2 <? 0) || (d2 * d2 * n1 <? d1 * d1 * n2)
      else (d2 <? 0) && (d1 * d1 * n2 <? d2 * d2 * n1)
  | _, _ => false
  end.

(** [np.dot] raises [ValueError] on vectors of different lengths; a
    zero vector gives [0 / 0 = nan]. *)
Definition cosine_similarity (a b : embedding) : result score :=
  if Nat.eqb (length a) (length b) then
    let n := norm2 a * norm2 b in
    if n =? 0 then Ok NaN else Ok (Cos (dot a b) n)
  else Err ValueError.

(** ** Real-number semantics *)

Definition score_R (s : score) : option R :=
  match s with
  | Cos d n => Some (IZR d / sqrt (IZR n))%R
  | NaN => None
  end.

(** Python's [>] on floats: false as soon as one side is nan. *)
Definition gt_R (x y : option R) : Prop :=
  match x, y with
  | Some u, Some v => (v < u)%R
  | _, _ => False
  end.

Definition score_wf (s : score) : Prop :=
  match s with Cos _ n => 0 < n | NaN => True end.

(** The formula of line 39 over the reals. *)
Definition cosine_R (a b : embedding) : R :=
  (IZR (dot a b) / (sqrt (IZR (norm2 a)) * sqrt (IZR (norm2 b))))%R.

(** ** Lemmas on [dot] *)

Lemma dot_comm (a b : embedding) : dot a b = dot b a.
Proof.
  revert b; induction a as [|x a IH]; intros [|y b]; simpl; try lia.
  rewrite IH. lia.
Qed.

Lemma norm2_nonneg (a : embedding) : 0 <= norm2 a.
Proof. unfold norm2. induction a; simpl; nia. Qed.

Lemma dot_scale_l (c : Z) (a b : embedding) : dot (map (Z.mul c) a) b = c * dot a b.
Proof.
  revert b; induction a as [|x a IH]; intros [|y b]; simpl; try lia.
  rewrite IH. lia.
Qed.

(** The induction step of Cauchy-Schwarz: from [D^2 <= A B] with
    [A, B >= 0], [(x y + D)^2 <= (x^2 + A)(y^2 + B)]. *)
Lemma cs_step (x y A B D : Z) :
  0 <= A -> 0 <= B -> D * D <= A * B ->
  (x * y + D) * (x * y + D) <= (x * x + A) * (y * y + B).
Proof.
  intros HA HB HD.
  assert (0 <= x * x * B + y * y * A) as Hp by nia.
  assert ((2 * x * y * D) * (2 * x * y * D) <=
          (x * x * B + y * y * A) * (x * x * B + y * y * A)) as Hsq.
  { pose proof (Z.square_nonneg (x * x * B - y * y * A)).
    assert (0 <= (x * y) * (x * y) * (A * B - D * D))
      by (apply Z.mul_nonneg_nonneg; [apply Z.square_nonneg | lia]).
    lia. }
  assert (2 * x * y * D <= x * x * B + y * y * A) by nia.
  nia.
Qed.

(** Cauchy-Schwarz on integer vectors of the same length. *)
Lemma cauchy_schwarz (a b : embedding) :
  length a = length b -> dot a b * dot a b <= norm2 a * norm2 b.
Proof.
  unfold norm2. revert b; induction a as [|x a IH]; intros [|y b] Hl; simpl in *; try lia.
  apply cs_step; [apply norm2_nonneg | apply norm2_nonneg | apply IH; lia].
Qed.

(** ** Lemmas on the reals *)

Lemma sq_lt_iff (u v : R) : (0 <= u)%R -> (0 <= v)%R -> (u < v <-> u * u < v * v)%R.
Proof. intros Hu Hv. split; intros H; nra. Qed.

Lemma div_lt_iff (a b r1 r2 : R) :
  (0 < r1)%R -> (0 < r2)%R -> (a / r2 < b / r1 <-> a * r1 < b * r2)%R.
Proof.
  intros H1 H2.
  assert (a / r2 * (r1 * r2) = a * r1)%R as Ea by (field; lra).
  assert (b / r1 * (r1 * r2) = b * r2)%R as Eb by (field; lra).
  split; intros H.
  - rewrite <- Ea, <- Eb. apply Rmult_lt_compat_r; [nra | exact H].
  - apply (Rmult_lt_reg_r (r1 * r2)); [nra|]. now rewrite Ea, Eb.
Qed.

Lemma sqrt_sq_IZR (d n : Z) : 0 < n ->
  (IZR d * sqrt (IZR n) * (IZR d * sqrt (IZR n)) = IZR (d * d * n))%R.
Proof.
  intros Hn. rewrite !mult_IZR.
  assert (sqrt (IZR n) * sqrt (IZR n) = IZR n)%R
    by (apply sqrt_sqrt, IZR_le; lia).
  nra.
Qed.

Lemma Zltb_R (x y : Z) : (x <? y) = true <-> (IZR x < IZR y)%R.
Proof. rewrite Z.ltb_lt. split; [apply IZR_lt | apply lt_IZR]. Qed.

Lemma sqrt_IZR_pos (n : Z) : 0 < n -> (0 < sqrt (IZR n))%R.
Proof. intros Hn. apply sqrt_lt_R0, IZR_lt. lia. Qed.

Lemma IZR_mul_sqrt_nonneg (d n : Z) : 0 <= d -> 0 < n -> (0 <= IZR d * sqrt (IZR n))%R.
Proof.
  intros Hd Hn. apply Rmult_le_pos; [apply IZR_le; lia | left; now apply sqrt_IZR_pos].
Qed.

Lemma IZR_mul_sqrt_neg (d n : Z) : d < 0 -> 0 < n -> (IZR d * sqrt (IZR n) < 0)%R.
Proof.
  intros Hd Hn. pose proof (sqrt_IZR_pos n Hn).
  assert (IZR d < 0)%R by (apply IZR_lt; lia). nra.
Qed.

(** ** Refinement: [score_gt] is [>] on the real values *)

Lemma score_gt_real (s t : score) :
  score_wf s -> score_wf t -> score_gt s t = true <-> gt_R (score_R s) (score_R t).
Proof.
  destruct s as [d1 n1|], t as [d2 n2|]; simpl; try (split; [discriminate | tauto]).
  intros H1 H2.
  rewrite (div_lt_iff _ _ _ _ (sqrt_IZR_pos n1 H1) (sqrt_IZR_pos n2 H2)).
  pose proof (sqrt_sq_IZR d1 n2 H2) as S1. pose proof (sqrt_sq_IZR d2 n1 H1) as S2.
  destruct (Z.leb_spec 0 d1), (Z.ltb_spec d2 0); simpl.
  - pose proof (IZR_mul_sqrt_nonneg d1 n2 ltac:(lia) H2).
    pose proof (IZR_mul_sqrt_neg d2 n1 ltac:(lia) H1). split; [intros _; lra | reflexivity].
  - rewrite Zltb_R, <- S1, <- S2. symmetry. apply sq_lt_iff.
    + apply IZR_mul_sqrt_nonneg; lia.
    + apply IZR_mul_sqrt_nonneg; lia.
  - pose proof (IZR_mul_sqrt_neg d1 n2 ltac:(lia) H2).
    pose proof (IZR_mul_sqrt_neg d2 n1 ltac:(lia) H1).
    rewrite Zltb_R, <- S1, <- S2. split; intros; nra.
  - pose proof (IZR_mul_sqrt_neg d1 n2 ltac:(lia) H2).
    pose proof (IZR_mul_sqrt_nonneg d2 n1 ltac:(lia) H1).
    split; [discriminate | intros; lra].
Qed.

(** ** [cosine_similarity] *)

Lemma norm2_prod_pos (a b : embedding) :
  norm2 a <> 0 -> norm2 b <> 0 -> 0 < norm2 a * norm2 b.
Proof. pose proof (norm2_nonneg a). pose proof (norm2_nonneg b). nia. Qed.

Lemma sqrt_IZR_mul (x y : Z) : 0 <= x -> 0 <= y ->
  sqrt (IZR (x * y)) = (sqrt (IZR x) * sqrt (IZR y))%R.
Proof. intros Hx Hy. rewrite mult_IZR. apply sqrt_mult; apply IZR_le; lia. Qed.

Lemma cosine_similarity_real (a b : embedding) :
  length a = length b -> norm2 a <> 0 -> norm2 b <> 0 ->
  exists s, cosine_similarity a b = Ok s /\ score_wf s /\ score_R s = Some (cosine_R a b).
Proof.
  intros Hl Ha Hb. pose proof (norm2_prod_pos a b Ha Hb) as Hn.
  unfold cosine_similarity. rewrite Hl, Nat.eqb_refl.
  rewrite (proj2 (Z.eqb_neq _ 0)) by lia.
  eexists. split; [reflexivity|]. split; [exact Hn|]. simpl. unfold cosine_R.
  rewrite sqrt_IZR_mul by apply norm2_nonneg. reflexivity.
Qed.

(** C4: For two non-zero vectors of the same length the code computes a
    well-formed score whose real value is the formula of line 39. *)
Theorem cosine_similarity_refines (a b : embedding) :
  length a = length b -> norm2 a <> 0 -> norm2 b <> 0 ->
  exists s, cosine_similarity a b = Ok s /\ score_wf s /\ score_R s = Some (cosine_R a b).
Proof. intros; eapply cosine_similarity_real; eassumption. Qed.

(** A zero vector (numpy norm 0) gives [0 / 0 = nan]. *)
Lemma cosine_similarity_nan (a b : embedding) :
  length a = length b -> norm2 a = 0 \/ norm2 b = 0 -> cosine_similarity a b = Ok NaN.
Proof.
  intros Hl Hz. unfold cosine_similarity. rewrite Hl, Nat.eqb_refl.
  rewrite (proj2 (Z.eqb_eq _ 0)) by (destruct Hz as [-> | ->]; lia). reflexivity.
Qed.

Lemma cosine_similarity_len_Err (a b : embedding) (e : py_exc) :
  cosine_similarity a b = Err e <-> length a <> length b /\ e = ValueError.
Proof.
  unfold cosine_similarity. destruct (Nat.eqb_spec (length a) (length b)).
  - destruct (_ =? 0); split; (discriminate || tauto).
  - split; [intros [= <-]; tauto | intros [_ ->]; reflexivity].
Qed.

(** [cosine_similarity] raises exactly on a length mismatch, with
    [ValueError]. *)
Theorem cosine_similarity_Err (a b : embedding) (e : py_exc) :
  cosine_similarity a b = Err e <-> length a <> length b /\ e = ValueError.
Proof. intros; eapply cosine_similarity_len_Err; eassumption. Qed.

Lemma cosine_similarity_wf (a b : embedding) (s : score) :
  cosine_similarity a b = Ok s -> score_wf s.
Proof.
  unfold cosine_similarity. destruct (Nat.eqb _ _); [|discriminate].
  destruct (Z.eqb_spec (norm2 a * norm2 b) 0); intros [= <-]; simpl; [exact I|].
  pose proof (norm2_nonneg a). pose proof (norm2_nonneg b). nia.
Qed.

Lemma cosine_similarity_range (a b : embedding) (s : score) :
  cosine_similarity a b = Ok s ->
  s = NaN \/ exists x, score_R s = Some x /\ (-1 <= x <= 1)%R.
Proof.
  unfold cosine_similarity. destruct (Nat.eqb_spec (length a) (length b)) as [Hl|];
    [|discriminate].
  destruct (Z.eqb_spec (norm2 a * norm2 b) 0) as [|Hn]; intros [= <-]; [now left|].
  right. eexists. split; [reflexivity|].
  pose proof (cauchy_schwarz a b Hl) as Hcs.
  assert (0 < norm2 a * norm2 b) as Hp
    by (pose proof (norm2_nonneg a); pose proof (norm2_nonneg b); nia).
  pose proof (sqrt_IZR_pos _ Hp) as Hr.
  assert (sqrt (IZR (norm2 a * norm2 b)) * sqrt (IZR (norm2 a * norm2 b))
          = IZR (norm2 a * norm2 b))%R as Hs by (apply sqrt_sqrt, IZR_le; lia).
  apply IZR_le in Hcs. rewrite mult_IZR in Hcs.
  set (r := sqrt (IZR (norm2 a * norm2 b))) in *.
  set (d := IZR (dot a b)) in *.
  assert (-r <= d <= r)%R by nra.
  split.
  - apply (Rmult_le_reg_r r); [exact Hr|]. unfold Rdiv. rewrite Rmult_assoc, Rinv_l by lra. lra.
  - apply (Rmult_le_reg_r r); [exact Hr|]. unfold Rdiv. rewrite Rmult_assoc, Rinv_l by lra. lra.
Qed.

(** The similarity of a non-zero embedding with itself is [1]. *)
Lemma cosine_similarity_one (a : embedding) :
  norm2 a <> 0 -> exists s, cosine_similarity a a = Ok s /\ score_R s = Some 1%R.
Proof.
  intros Ha. destruct (cosine_similarity_real a a eq_refl Ha Ha) as (s & Hs & _ & HR).
  exists s. split; [exact Hs|]. rewrite HR. f_equal. unfold cosine_R.
  rewrite sqrt_sqrt by (apply IZR_le, norm2_nonneg). unfold norm2.
  field. apply not_0_IZR. exact Ha.
Qed.


(** Orthogonal non-zero embeddings have similarity [0]. *)
Theorem cosine_similarity_orthogonal (a b : embedding) :
  length a = length b -> norm2 a <> 0 -> norm2 b <> 0 -> dot a b = 0 ->
  exists s, cosine_similarity a b = Ok s /\ score_R s = Some 0%R.
Proof.
  intros Hl Ha Hb Hd. destruct (cosine_similarity_real a b Hl Ha Hb) as (s & Hs & _ & HR).
  exists s. split; [exact Hs|]. rewrite HR. unfold cosine_R. rewrite Hd. f_equal.
  unfold Rdiv. apply Rmult_0_l.
Qed.

Lemma norm2_scale (c : Z) (a : embedding) : norm2 (map (Z.mul c) a) = c * c * norm2 a.
Proof.
  unfold norm2. rewrite dot_scale_l, (dot_comm a), dot_scale_l. lia.
Qed.

(** Scaling an embedding by a positive integer changes no score: the
    integer model of float32 embeddings (scaled by a common power of
    two) computes the same similarities, NaN included. *)
Theorem cosine_similarity_scale (c : Z) (a b : embedding) :
  0 < c ->
  rmap score_R (cosine_similarity (map (Z.mul c) a) b) = rmap score_R (cosine_similarity a b).
Proof.
  intros Hc. unfold cosine_similarity. rewrite length_map, norm2_scale, dot_scale_l.
  destruct (Nat.eqb _ _); [|reflexivity].
  pose proof (norm2_nonneg a). pose proof (norm2_nonneg b).
  destruct (Z.eqb_spec (norm2 a * norm2 b) 0) as [Hz|Hz].
  - rewrite (proj2 (Z.eqb_eq _ 0)) by nia. reflexivity.
  - rewrite (proj2 (Z.eqb_neq _ 0)) by nia. simpl. f_equal. f_equal.
    replace (c * c * norm2 a * norm2 b) with ((c * c) * (norm2 a * norm2 b)) by ring.
    rewrite (sqrt_IZR_mul (c * c)) by nia.
    rewrite (mult_IZR c c), sqrt_square by (apply IZR_le; lia).
    rewrite (mult_IZR c (dot a b)).
    assert (0 < sqrt (IZR (norm2 a * norm2 b)))%R by (apply sqrt_IZR_pos; nia).
    assert (IZR c <> 0)%R by (apply not_0_IZR; lia).
    field. lra.
Qed.

(** ** [score_gt] is a strict order on well-formed scores *)

Lemma score_gt_irrefl (s : score) : score_gt s s = false.
Proof.
  destruct s as [d n|]; [|reflexivity]. simpl. rewrite Z.ltb_irrefl.
  destruct (Z.leb_spec 0 d), (Z.ltb_spec d 0); simpl; reflexivity || lia.
Qed.

Lemma score_gt_nan_l (t : score) : score_gt NaN t = false.
Proof. reflexivity. Qed.

Lemma score_gt_nan_r (s : score) : score_gt s NaN = false.
Proof. destruct s; reflexivity. Qed.

Lemma score_R_Cos (s : score) : s <> NaN -> exists u, score_R s = Some u.
Proof. destruct s; [eexists; reflexivity | contradiction]. Qed.

Lemma score_gt_R (s t : score) (u v : R) :
  score_wf s -> score_wf t -> score_R s = Some u -> score_R t = Some v ->
  score_gt s t = true <-> (v < u)%R.
Proof.
  intros Hs Ht Hu Hv. rewrite (score_gt_real s t Hs Ht), Hu, Hv. reflexivity.
Qed.

Lemma score_gt_not_nan (s t : score) :
  score_gt s t = true -> s <> NaN /\ t <> NaN.
Proof. destruct s, t; simpl; try discriminate; split; discriminate. Qed.

Lemma score_gt_trans (a b c : score) :
  score_wf a -> score_wf b -> score_wf c ->
  score_gt a b = true -> score_gt b c = true -> score_gt a c = true.
Proof.
  intros Ha Hb Hc Hab Hbc.
  destruct (score_gt_not_nan _ _ Hab) as [Na Nb], (score_gt_not_nan _ _ Hbc) as [_ Nc].
  destruct (score_R_Cos a Na) as [x Hx], (score_R_Cos b Nb) as [y Hy],
    (score_R_Cos c Nc) as [z Hz].
  rewrite (score_gt_R _ _ _ _ Ha Hb Hx Hy) in Hab.
  rewrite (score_gt_R _ _ _ _ Hb Hc Hy Hz) in Hbc.
  rewrite (score_gt_R _ _ _ _ Ha Hc Hx Hz). lra.
Qed.

(** If [x > b] and not [y > b], then [x > y] (for [y] not NaN). *)
Lemma score_gt_not_gt (x b y : score) :
  score_wf x -> score_wf b -> score_wf y -> y <> NaN ->
  score_gt x b = true -> score_gt y b = false -> score_gt x y = true.
Proof.
  intros Hx Hb Hy Ny Hxb Hyb.
  destruct (score_gt_not_nan _ _ Hxb) as [Nx Nb].
  destruct (score_R_Cos x Nx) as [u Hu], (score_R_Cos b Nb) as [v Hv],
    (score_R_Cos y Ny) as [w Hw].
  rewrite (score_gt_R _ _ _ _ Hx Hb Hu Hv) in Hxb.
  assert (~ (v < w)%R) as Hn
    by (rewrite <- (score_gt_R _ _ _ _ Hy Hb Hw Hv); congruence).
  rewrite (score_gt_R _ _ _ _ Hx Hy Hu Hw). lra.
Qed.

Lemma minus_one_wf : score_wf minus_one.
Proof. simpl. lia. Qed.

Lemma threshold_wf : score_wf threshold.
Proof. simpl. lia. Qed.

Lemma score_R_threshold : score_R threshold = Some (1 / 2)%R.
Proof.
  simpl. f_equal. replace (IZR 4) with (2 * 2)%R by (simpl; lra).
  rewrite sqrt_square by lra. reflexivity.
Qed.

Lemma score_R_minus_one : score_R minus_one = Some (-1)%R.
Proof. simpl. rewrite sqrt_1. f_equal. field. Qed.
