(* ===== verification/Matcher.v ===== *)
(** The matcher: the body of the [for i, face in enumerate(faces)] loop
    of [mark_attendance] (main.py lines 52-63).  For one probe embedding
    it scans the roster in order, keeps the first index whose similarity
    is strictly greater than the best so far (starting from index [-1]
    and score [-1]), and accepts the match when the best score is
    strictly greater than [0.5].

    [is_best] is the abstract specification of the scan: the chosen
    index holds a score that no entry beats, that beats [-1], and that
    beats every earlier non-NaN entry (ties go to the first occurrence);
    index [-1] is chosen when no entry beats [-1].  [best_match_spec]
    proves the loop implements it.  The other theorems give the
    threshold decision, the index safety of [student_details[i]], the
    error on a length mismatch, and (in the exact model) the outcome for
    a probe equal to an enrolled embedding. *)

From Stdlib Require Import ZArith Lia Reals Lra.
From stdpp Require Import base list.
From S2P Require Import Prelude Score.

Local Open Scope Z_scope.

#[export] Instance score_eq_dec : EqDecision score.
Proof. solve_decision. Defined.

(** ** The scan of lines 52-59 *)

(** [for idx, known_embedding in enumerate(known_embeddings)]: the
    similarity is computed for every entry, so a length mismatch anywhere
    raises; [best_match_index] and [best_score] change on a strict [>]. *)
Fixpoint best_match_loop (probe : embedding) (known : list embedding)
    (idx best_match_index : Z) (best_score : score) : result (Z * score) :=
  match known with
  | [] => Ok (best_match_index, best_score)
  | known_embedding :: rest =>
      similarity <- cosine_similarity probe known_embedding ;;
      if score_gt similarity best_score
      then best_match_loop probe rest (idx + 1) idx similarity
      else best_match_loop probe rest (idx + 1) best_match_index best_score
  end.

(** [best_match_index = -1; best_score = -1] *)
Definition best_match (probe : embedding) (known : list embedding) : result (Z * score) :=
  best_match_loop probe known 0 (-1) minus_one.

(** ** The decision of lines 61-63 *)

(** [if best_score > 0.5: name, roll = student_details[best_match_index]]:
    the recognised student, or [None]. *)
Definition match_face {A : Type} (probe : embedding) (known : list embedding)
    (student_details : list A) : result (option A) :=
  best <- best_match probe known ;;
  let '(best_match_index, best_score) := best in
  if score_gt best_score threshold
  then student <- py_index student_details best_match_index ;; Ok (Some student)
  else Ok None.

(** ** Specification of the scan *)

(** The similarities of [probe] to every roster entry, in order. *)
Definition similarities (probe : embedding) (known : list embedding) : result (list score) :=
  map_result (cosine_similarity probe) known.

Definition is_best (sims : list score) (i : Z) (s : score) : Prop :=
  (i = -1 /\ s = minus_one /\ Forall (fun x => score_gt x minus_one = false) sims) \/
  (exists n : nat, i = Z.of_nat n /\ sims !! n = Some s /\
     score_gt s minus_one = true /\
     Forall (fun x => score_gt x s = false) sims /\
     (forall m x, (m < n)%nat -> sims !! m = Some x -> score_gt s x = true \/ x = NaN)).

(** ** The scan implements [is_best] *)

Lemma is_best_nil : is_best [] (-1) minus_one.
Proof. left. repeat split; constructor. Qed.

(** What every state of the scan knows about its best score. *)
Lemma is_best_bound (sims : list score) (i : Z) (b : score) :
  Forall score_wf sims -> is_best sims i b ->
  score_wf b /\ Forall (fun y => score_gt y b = false) sims.
Proof.
  intros Hw [(_ & -> & Hf) | (n & _ & Hn & _ & Hf & _)].
  - split; [apply minus_one_wf | exact Hf].
  - split; [|exact Hf]. rewrite Forall_lookup in Hw. by apply (Hw n).
Qed.

Lemma is_best_beats_minus_one (sims : list score) (i : Z) (b x : score) :
  Forall score_wf sims -> score_wf x -> is_best sims i b ->
  score_gt x b = true -> score_gt x minus_one = true.
Proof.
  intros Hw Hx Hb Hxb. destruct Hb as [(_ & -> & _) | (n & _ & Hn & Hm & _)]; [done|].
  apply (score_gt_trans x b minus_one Hx); [| apply minus_one_wf | exact Hxb | exact Hm].
  rewrite Forall_lookup in Hw. by apply (Hw n).
Qed.

(** A new entry that does not beat the best leaves the choice alone. *)
Lemma is_best_snoc_not_gt (pre : list score) (i : Z) (b x : score) :
  is_best pre i b -> score_gt x b = false -> is_best (pre ++ [x]) i b.
Proof.
  intros [(-> & -> & Hf) | (n & -> & Hn & Hm & Hf & Hlt)] Hx.
  - left. repeat split. apply Forall_app. by split; [|constructor].
  - right. exists n. repeat split; [by apply lookup_app_l_Some | done | |].
    + apply Forall_app. by split; [|constructor].
    + intros m y Hmn Hy. apply (Hlt m y Hmn).
      rewrite lookup_app_l in Hy; [done|].
      apply lookup_lt_Some in Hn. lia.
Qed.

(** A new entry that beats the best becomes the choice. *)
Lemma is_best_snoc_gt (pre : list score) (i : Z) (b x : score) :
  Forall score_wf pre -> score_wf x -> is_best pre i b -> score_gt x b = true ->
  is_best (pre ++ [x]) (Z.of_nat (length pre)) x.
Proof.
  intros Hw Hx Hb Hxb.
  destruct (is_best_bound pre i b Hw Hb) as [Hbw Hf].
  right. exists (length pre). repeat split.
  - by rewrite lookup_app_r, Nat.sub_diag by lia.
  - by apply (is_best_beats_minus_one pre i b).
  - apply Forall_app. split; [|constructor; [apply score_gt_irrefl | constructor]].
    apply Forall_forall. intros y Hy.
    rewrite Forall_forall in Hw, Hf. specialize (Hw y Hy). specialize (Hf y Hy).
    destruct (score_gt y x) eqn:Hyx; [|done].
    rewrite (score_gt_trans y x b) in Hf; done.
  - intros m y Hm Hy. rewrite lookup_app_l in Hy by done.
    destruct (decide (y = NaN)) as [->|Ny]; [by right|left].
    rewrite Forall_lookup in Hw, Hf.
    apply (score_gt_not_gt x b y); [done|done|by eapply Hw|done|done|by eapply Hf].
Qed.

Lemma best_match_loop_spec (probe : embedding) (known : list embedding) :
  forall (pre : list score) (idx bi : Z) (b : score) (i : Z) (s : score),
  Forall score_wf pre -> idx = Z.of_nat (length pre) -> is_best pre bi b ->
  best_match_loop probe known idx bi b = Ok (i, s) ->
  exists sims, similarities probe known = Ok sims /\ is_best (pre ++ sims) i s.
Proof.
  induction known as [|k rest IH]; intros pre idx bi b i s Hw Hidx Hb Hrun; simpl in Hrun.
  - injection Hrun as -> ->. exists []. by rewrite app_nil_r.
  - simpl_result. pose proof (cosine_similarity_wf _ _ _ Ha) as Hxw.
    assert (Hw' : Forall score_wf (pre ++ [a])) by (apply Forall_app; auto).
    assert (Hidx' : idx + 1 = Z.of_nat (length (pre ++ [a])))
      by (rewrite length_app; simpl; lia).
    destruct (score_gt a b) eqn:Hgt.
    + eapply IH in Hrun as (sims & Hs & Hbest);
        [| exact Hw' | exact Hidx' | subst idx; by eapply is_best_snoc_gt].
      exists (a :: sims). unfold similarities. simpl. rewrite Ha. simpl.
      unfold similarities in Hs. rewrite Hs. split; [done|]. by rewrite <- app_assoc in Hbest.
    + eapply IH in Hrun as (sims & Hs & Hbest);
        [| exact Hw' | exact Hidx' | by apply is_best_snoc_not_gt].
      exists (a :: sims). unfold similarities. simpl. rewrite Ha. simpl.
      unfold similarities in Hs. rewrite Hs. split; [done|]. by rewrite <- app_assoc in Hbest.
Qed.

Lemma best_match_sound (probe : embedding) (known : list embedding) (i : Z) (s : score) :
  best_match probe known = Ok (i, s) ->
  exists sims, similarities probe known = Ok sims /\ is_best sims i s.
Proof.
  intros H.
  destruct (best_match_loop_spec probe known [] 0 (-1) minus_one i s) as (sims & Hs & Hb);
    [constructor | reflexivity | apply is_best_nil | exact H |].
  eauto.
Qed.

(** C2: Refinement: what the scan returns satisfies [is_best] on the list of
    similarities. *)
Theorem best_match_spec (probe : embedding) (known : list embedding) (i : Z) (s : score) :
  best_match probe known = Ok (i, s) ->
  exists sims, similarities probe known = Ok sims /\ is_best sims i s.
Proof. intros; eapply best_match_sound; eassumption. Qed.

(** The scan raises exactly when some similarity raises. *)
Lemma best_match_loop_Err (probe : embedding) (known : list embedding) (e : py_exc) :
  forall idx bi b, best_match_loop probe known idx bi b = Err e <->
                   similarities probe known = Err e.
Proof.
  unfold similarities. induction known as [|k rest IH]; intros idx bi b; simpl;
    [split; discriminate|].
  destruct (cosine_similarity probe k) as [x|e']; simpl; [|split; congruence].
  destruct (score_gt x b); rewrite IH; destruct (map_result _ rest); simpl; split; congruence.
Qed.

Lemma similarities_wf (probe : embedding) (known : list embedding) (sims : list score) :
  similarities probe known = Ok sims -> Forall score_wf sims.
Proof.
  intros H%map_result_Ok. induction H; constructor; [|done].
  by eapply cosine_similarity_wf.
Qed.

(** [is_best] has one solution: the specification determines the
    choice of the scan completely. *)
Lemma is_best_unique (sims : list score) (i i' : Z) (s s' : score) :
  is_best sims i s -> is_best sims i' s' -> i = i' /\ s = s'.
Proof.
  intros [(-> & -> & Hf) | (n & -> & Hn & Hm & Hf & Hlt)]
         [(-> & -> & Hf') | (n' & -> & Hn' & Hm' & Hf' & Hlt')].
  - done.
  - rewrite Forall_lookup in Hf. by rewrite (Hf n' s') in Hm'.
  - rewrite Forall_lookup in Hf'. by rewrite (Hf' n s) in Hm.
  - rewrite Forall_lookup in Hf, Hf'.
    destruct (Nat.lt_total n n') as [Hl|[->|Hl]].
    + destruct (Hlt' n s Hl Hn) as [Hg | ->]; [by rewrite (Hf n' s') in Hg | done].
    + split; [done|]. congruence.
    + destruct (Hlt n' s' Hl Hn') as [Hg | ->]; [by rewrite (Hf' n s) in Hg | done].
Qed.

Lemma best_match_exists (probe : embedding) (known : list embedding) :
  Forall (fun k => length k = length probe) known ->
  exists sims i s, similarities probe known = Ok sims /\ is_best sims i s /\
                   best_match probe known = Ok (i, s).
Proof.
  intros Hl. destruct (best_match probe known) as [[i s]|e] eqn:Hb.
  - destruct (best_match_sound _ _ _ _ Hb) as (sims & Hs & Hbest). by exists sims, i, s.
  - apply best_match_loop_Err in Hb.
    assert (is_ok (similarities probe known) = true) as Hok.
    { apply map_result_total. eapply Forall_impl; [exact Hl|]. intros k Hk.
      unfold cosine_similarity. rewrite Hk, Nat.eqb_refl. by destruct (_ =? 0). }
    by rewrite Hb in Hok.
Qed.

(** C21: The scan always returns when every roster embedding has the probe's
    length, with the unique [is_best] choice. *)
Theorem best_match_total (probe : embedding) (known : list embedding) :
  Forall (fun k => length k = length probe) known ->
  exists sims i s, similarities probe known = Ok sims /\ is_best sims i s /\
                   best_match probe known = Ok (i, s).
Proof. intros; eapply best_match_exists; eassumption. Qed.

(** ** The threshold decision *)

Lemma minus_one_below_threshold : score_gt minus_one threshold = false.
Proof. reflexivity. Qed.

Lemma similarities_length (probe : embedding) (known : list embedding) (sims : list score) :
  similarities probe known = Ok sims -> length sims = length known.
Proof. apply map_result_length. Qed.

Lemma similarities_lookup (probe : embedding) (known : list embedding) (sims : list score)
    (j : nat) (k : embedding) :
  similarities probe known = Ok sims -> known !! j = Some k ->
  exists x, sims !! j = Some x /\ cosine_similarity probe k = Ok x.
Proof.
  intros Hs%map_result_Ok Hk.
  destruct (Forall2_lookup_l _ _ _ _ _ Hs Hk) as (x & Hx & Hc). eauto.
Qed.

(** The scan's result is read off [is_best] whenever [is_best] holds. *)
Lemma best_match_is_best (probe : embedding) (known : list embedding) (sims : list score)
    (i : Z) (s : score) :
  similarities probe known = Ok sims -> is_best sims i s -> best_match probe known = Ok (i, s).
Proof.
  intros Hs Hb. destruct (best_match probe known) as [[i' s']|e] eqn:Hm.
  - destruct (best_match_sound _ _ _ _ Hm) as (sims' & Hs' & Hb').
    rewrite Hs in Hs'. injection Hs' as <-.
    by destruct (is_best_unique _ _ _ _ _ Hb Hb') as [-> ->].
  - apply best_match_loop_Err in Hm. congruence.
Qed.

Lemma match_face_decides {A : Type} (probe : embedding) (known : list embedding)
    (details : list A) (sims : list score) (i : Z) (s : score) :
  length details = length known -> similarities probe known = Ok sims -> is_best sims i s ->
  match_face probe known details =
    Ok (if score_gt s threshold then details !! Z.to_nat i else None).
Proof.
  intros Hl Hs Hb. unfold match_face. rewrite (best_match_is_best _ _ _ _ _ Hs Hb). simpl.
  destruct (score_gt s threshold) eqn:Ht; [|done].
  destruct Hb as [(-> & -> & _) | (n & -> & Hn & _)]; [done|].
  apply lookup_lt_Some in Hn. rewrite (similarities_length _ _ _ Hs), <- Hl in Hn.
  destruct (py_index_nat details n Hn) as (x & Hx & ->). simpl.
  by rewrite Nat2Z.id, Hx.
Qed.

(** C3: The match of one face: when the best score passes [0.5] the student
    at the best index is returned, otherwise [None]; with a roster whose
    two lists have the same length the lookup never raises. *)
Theorem match_face_correct {A : Type} (probe : embedding) (known : list embedding)
    (details : list A) (sims : list score) (i : Z) (s : score) :
  length details = length known -> similarities probe known = Ok sims -> is_best sims i s ->
  match_face probe known details =
    Ok (if score_gt s threshold then details !! Z.to_nat i else None).
Proof. intros; eapply match_face_decides; eassumption. Qed.

Lemma match_face_above {A : Type} (probe : embedding) (known : list embedding)
    (details : list A) (st : A) :
  match_face probe known details = Ok (Some st) ->
  exists sims (n : nat) s v, similarities probe known = Ok sims /\ is_best sims (Z.of_nat n) s /\
    details !! n = Some st /\ score_R s = Some v /\ (1 / 2 < v)%R.
Proof.
  unfold match_face. intros H. simpl_result. destruct a as [i s].
  destruct (best_match_sound _ _ _ _ Ha) as (sims & Hs & Hb).
  destruct (score_gt s threshold) eqn:Ht; [|discriminate]. simpl_result. subst.
  destruct Hb as [(-> & -> & _) | (n & -> & Hn & Hrest)]; [discriminate|].
  pose proof (similarities_wf _ _ _ Hs) as Hw. rewrite Forall_lookup in Hw.
  destruct (score_gt_not_nan _ _ Ht) as [Ns _].
  destruct (score_R_Cos s Ns) as [v Hv].
  exists sims, n, s, v. repeat split; [done | by right; exists n | by apply py_index_nat_Ok | done |].
  by rewrite <- (score_gt_R s threshold v (1 / 2) (Hw n s Hn) threshold_wf Hv score_R_threshold).
Qed.

(** C7: A face is never matched to a student whose similarity is at most
    [0.5], and never through Python's index [-1] (the last student). *)
Theorem match_face_threshold {A : Type} (probe : embedding) (known : list embedding)
    (details : list A) (st : A) :
  match_face probe known details = Ok (Some st) ->
  exists sims (n : nat) s v, similarities probe known = Ok sims /\ is_best sims (Z.of_nat n) s /\
    details !! n = Some st /\ score_R s = Some v /\ (1 / 2 < v)%R.
Proof. intros; eapply match_face_above; eassumption. Qed.

(** When no roster entry scores above [0.5], the face is not matched. *)
Theorem match_face_below {A : Type} (probe : embedding) (known : list embedding)
    (details : list A) (sims : list score) :
  similarities probe known = Ok sims -> Forall (fun x => score_gt x threshold = false) sims ->
  match_face probe known details = Ok None.
Proof.
  intros Hs Hf. unfold match_face.
  destruct (best_match probe known) as [[i s]|e] eqn:Hm.
  - destruct (best_match_sound _ _ _ _ Hm) as (sims' & Hs' & Hb).
    rewrite Hs in Hs'. injection Hs' as <-. simpl.
    destruct Hb as [(_ & -> & _) | (n & _ & Hn & _)]; [done|].
    rewrite Forall_lookup in Hf. by rewrite (Hf n s Hn).
  - apply best_match_loop_Err in Hm. congruence.
Qed.

Lemma similarities_bounds (probe : embedding) (known : list embedding) (sims : list score)
    (n : nat) (x : score) :
  similarities probe known = Ok sims -> sims !! n = Some x ->
  x = NaN \/ exists v, score_R x = Some v /\ (-1 <= v <= 1)%R.
Proof.
  intros Hs%map_result_Ok Hx.
  destruct (Forall2_lookup_r _ _ _ _ _ Hs Hx) as (k & _ & Hc).
  by eapply cosine_similarity_range.
Qed.

Lemma match_face_equal_probe {A : Type} (probe : embedding) (known : list embedding)
    (details : list A) (j : nat) :
  known !! j = Some probe -> norm2 probe <> 0 ->
  Forall (fun k => length k = length probe) known -> length details = length known ->
  exists (n : nat) st sims s, match_face probe known details = Ok (Some st) /\
    details !! n = Some st /\ (n <= j)%nat /\ similarities probe known = Ok sims /\
    sims !! n = Some s /\ score_R s = Some 1%R.
Proof.
  intros Hj Hnz Hlen Hdl.
  destruct (best_match_exists probe known Hlen) as (sims & i & s & Hs & Hb & _).
  destruct (similarities_lookup _ _ _ _ _ Hs Hj) as (sj & Hsj & Hcj).
  destruct (cosine_similarity_one probe Hnz) as (s1 & Hc1 & Hv1).
  rewrite Hcj in Hc1. injection Hc1 as <-.
  pose proof (similarities_wf _ _ _ Hs) as Hw. rewrite Forall_lookup in Hw.
  assert (score_gt sj minus_one = true) as Hsj1.
  { rewrite (score_gt_R _ _ 1 (-1) (Hw j sj Hsj) minus_one_wf Hv1 score_R_minus_one). lra. }
  destruct Hb as [(-> & -> & Hf) | (n & -> & Hn & Hm & Hf & Hlt)].
  { rewrite Forall_lookup in Hf. by rewrite (Hf j sj Hsj) in Hsj1. }
  destruct (score_gt_not_nan _ _ Hm) as [Ns _].
  destruct (similarities_bounds _ _ _ _ _ Hs Hn) as [->|(v & Hv & Hv1')]; [done|].
  rewrite Forall_lookup in Hf. pose proof (Hf j sj Hsj) as Hnot.
  assert (v = 1)%R as ->.
  { assert (~ (v < 1)%R) as Hge
      by (rewrite <- (score_gt_R sj s 1 v (Hw j sj Hsj) (Hw n s Hn) Hv1 Hv); congruence).
    lra. }
  assert (score_gt s threshold = true) as Ht.
  { rewrite (score_gt_R _ _ 1 (1 / 2) (Hw n s Hn) threshold_wf Hv score_R_threshold). lra. }
  pose proof (match_face_decides probe known details sims (Z.of_nat n) s Hdl Hs) as Hmf.
  rewrite Ht, Nat2Z.id in Hmf.
  assert (n < length details)%nat as Hnl
    by (apply lookup_lt_Some in Hn; rewrite (similarities_length _ _ _ Hs) in Hn; lia).
  destruct (lookup_lt_is_Some_2 details n Hnl) as [st Hst].
  exists n, st, sims, s. repeat split; try done.
  - rewrite Hmf, Hst; [done|]. right. exists n. repeat split; try done.
    by rewrite Forall_lookup.
  - destruct (Nat.le_gt_cases n j) as [|Hgt]; [done|].
    destruct (Hlt j sj Hgt Hsj) as [Hg | ->]; [|done].
    rewrite (score_gt_R _ _ 1 1 (Hw n s Hn) (Hw j sj Hsj) Hv Hv1) in Hg. lra.
Qed.

Lemma cosine_similarity_Err_len (a b : embedding) :
  length a <> length b -> cosine_similarity a b = Err ValueError.
Proof. intros Hne. by apply cosine_similarity_Err. Qed.

(** The similarities raise exactly when some roster embedding has
    another length than the probe, and then with [ValueError]. *)
Lemma similarities_Err (probe : embedding) (known : list embedding) (e : py_exc) :
  similarities probe known = Err e <->
  (exists k, k ∈ known /\ length k <> length probe) /\ e = ValueError.
Proof.
  unfold similarities. revert e. induction known as [|k rest IH]; intros e; simpl.
  { split; [discriminate | intros [(k & Hk & _) _]; by apply elem_of_nil in Hk]. }
  destruct (cosine_similarity probe k) as [x|e'] eqn:Hc; simpl.
  - assert (length probe = length k) as Hlk.
    { unfold cosine_similarity in Hc. by destruct (Nat.eqb_spec (length probe) (length k)). }
    destruct (map_result _ rest) as [xs|e''] eqn:Hr; simpl.
    + split; [discriminate|]. intros [(k' & Hk' & Hne) ->].
      apply elem_of_cons in Hk' as [->|Hk']; [lia|].
      pose proof (proj2 (IH ValueError) (conj (ex_intro _ k' (conj Hk' Hne)) eq_refl)) as Hc'.
      simpl in Hc'. congruence.
    + destruct (proj1 (IH e'') eq_refl) as [(k' & Hk' & Hne) ->]. split.
      * intros [= <-]. split; [|done]. exists k'. split; [by apply elem_of_cons; right | done].
      * by intros [_ ->].
  - apply cosine_similarity_Err in Hc as [Hne ->]. split.
    + intros [= <-]. split; [|done]. exists k. split; [apply elem_of_cons; by left | lia].
    + by intros [_ ->].
Qed.

Lemma match_face_raises {A : Type} (probe : embedding) (known : list embedding)
    (details : list A) (e : py_exc) :
  length details = length known ->
  match_face probe known details = Err e <->
  (exists k, k ∈ known /\ length k <> length probe) /\ e = ValueError.
Proof.
  intros Hl. rewrite <- similarities_Err. split.
  - intros He. destruct (best_match probe known) as [[i s]|e'] eqn:Hm.
    + destruct (best_match_sound _ _ _ _ Hm) as (sims & Hs & Hb).
      by rewrite (match_face_decides probe known details sims i s Hl Hs Hb) in He.
    + unfold match_face in He. rewrite Hm in He. injection He as <-.
      by apply best_match_loop_Err in Hm.
  - intros He. apply (best_match_loop_Err probe known e 0 (-1) minus_one) in He.
    unfold match_face, best_match. by rewrite He.
Qed.

(** C29: With a roster whose two lists have the same length, matching a face
    raises exactly when some roster embedding has another length than
    the probe, and then with [ValueError]: [student_details[i]] never
    raises. *)
Theorem match_face_Err {A : Type} (probe : embedding) (known : list embedding)
    (details : list A) (e : py_exc) :
  length details = length known ->
  match_face probe known details = Err e <->
  (exists k, k ∈ known /\ length k <> length probe) /\ e = ValueError.
Proof. intros; eapply match_face_raises; eassumption. Qed.
