(* ===== verification/Provider.v ===== *)
(** The libraries [main.py] only calls, as type classes: what the code
    relies on from each, and nothing else.

    - [ImageCodec]: [cv2.imread] (bytes to an image, [None] when the file
      does not decode), [cv2.imwrite] to a [.jpg] path, and whether
      [PIL.Image.open] accepts the bytes.
    - [FaceAnalysis]: insightface's [model.get(img)], the embeddings of the
      detected faces in detection order.  [FixedDimension] is the
      spec's promise that every embedding has the same length.
    - [OsListdir]: [os.listdir] returns the names of a directory in an
      order Python does not specify; the law says it is some permutation.
    - [SetIter]: iterating a Python [set] visits its elements once each,
      in an unspecified order.

    The concrete instances at the end (an image is the list of its
    faces' embeddings) are used by the examples that run the model. *)

From stdpp Require Import base list gmap sets strings.
From S2P Require Import Prelude Score.

Class ImageCodec (Blob Img : Type) := {
  imread : Blob -> option Img;
  imwrite_jpg : Img -> Blob;
  pil_open : Blob -> bool
}.

Class FaceAnalysis (Img : Type) := {
  model_get : Img -> list embedding
}.

(** Every embedding of a list has [D] components. *)
Definition embeddings_dim (D : nat) (es : list embedding) : Prop :=
  Forall (fun e => length e = D) es.

Class FixedDimension (Img : Type) `{FaceAnalysis Img} (D : nat) := {
  model_get_dim : forall img e, e ∈ model_get img -> length e = D
}.

Class OsListdir (Blob : Type) := {
  listdir : gmap string Blob -> list string;
  listdir_perm : forall d, listdir d ≡ₚ elements (dom d)
}.

Class SetIter (A : Type) `{Countable A} := {
  set_iter : gset A -> list A;
  set_iter_perm : forall s, set_iter s ≡ₚ elements s
}.

(** ** Concrete instances for running the model *)

(** An image is the list of the embeddings of its faces; a stored file
    either decodes to an image or not. *)
Definition faces_image := list embedding.

#[export] Instance faces_codec : ImageCodec (option faces_image) faces_image := {
  imread b := b;
  imwrite_jpg i := Some i;
  pil_open b := bool_decide (is_Some b)
}.

#[export] Instance faces_analysis : FaceAnalysis faces_image := {
  model_get i := i
}.

#[export] Instance sorted_listdir {B : Type} : OsListdir B := {
  listdir d := elements (dom d);
  listdir_perm d := reflexivity _
}.

#[export] Instance elements_set_iter {A : Type} `{Countable A} : SetIter A := {
  set_iter s := elements s;
  set_iter_perm s := reflexivity _
}.

(** Another iteration order, for showing what depends on it. *)
Definition rev_set_iter {A : Type} `{Countable A} : SetIter A := {|
  set_iter s := reverse (elements s);
  set_iter_perm s := reverse_Permutation _
|}.

(** Another directory order, for showing what depends on it. *)
Definition rev_listdir {B : Type} : OsListdir B := {|
  listdir d := reverse (elements (dom d));
  listdir_perm d := reverse_Permutation _
|}.

(** A model with a fixed dimension: an image is the list of its faces,
    each a point of the plane, so every embedding has two components. *)
Definition pairs_image := list (Z * Z).

Definition pairs_codec : ImageCodec (option pairs_image) pairs_image := {|
  imread b := b;
  imwrite_jpg i := Some i;
  pil_open b := bool_decide (is_Some b)
|}.

Definition pairs_analysis : FaceAnalysis pairs_image := {|
  model_get i := map (fun p => [p.1; p.2]) i
|}.

Lemma pairs_dim : @FixedDimension pairs_image pairs_analysis 2.
Proof.
  split. intros img e He. simpl in He.
  apply list_elem_of_fmap in He as (p & -> & _). reflexivity.
Qed.
