(* ===== verification/Roster.v ===== *)
(** The roster store: [load_known_faces] (main.py lines 23-35).

    The directory [known_faces] is a finite map from file names to file
    contents; [os.listdir] gives its names in an unspecified order
    ([OsListdir]).  The names are sorted by
    [int(os.path.splitext(x)[0].split('_')[1])] -- every name, before
    the [.jpg]/[.png] filter -- and then, for each image file in that
    order, the image is decoded and given to the face model; when a face
    is found the first face's embedding and the pair
    [name, roll = os.path.splitext(filename)[0].split('_')] are appended
    to the two result lists.

    The theorems: the two lists stay the same length (the invariant the
    matcher's index relies on); every loaded roll parses as an [int] and
    the roster is sorted by it; which files make the load raise (a
    single stray file in the directory aborts every attendance run); the
    enrolment file name [f"{name}_{roll}.jpg"] parses back to
    [(name, roll)]; and when the rolls are distinct integers the roster
    does not depend on the order of [os.listdir]; an empty directory
    loads as the empty roster; and with a face model of fixed dimension
    [D] every loaded embedding has dimension [D] (used by the typed
    session theorems). *)

From Stdlib Require Import ZArith Lia Sorted Ascii.
From stdpp Require Import base list gmap sets strings.
From S2P Require Import Prelude PyStr PySorted Score Provider.

Local Open Scope string_scope.

(** A recognised student, [(name, roll)]; both stay strings. *)
Definition student := (string * string)%type.

Definition KNOWN_FACES_DIR : string := "known_faces".

(** [os.path.splitext(x)[0].split('_')] *)
Definition name_parts (filename : string) : list string :=
  str_split "_"%char (splitext filename).1.

(** The sort key of line 26:
    [int(os.path.splitext(x)[0].split('_')[1])]. *)
Definition roll_key (filename : string) : result Z :=
  part <- py_index (name_parts filename) 1 ;;
  py_int part.

(** [name, roll = parts]: unpacking raises [ValueError] unless there are
    exactly two parts. *)
Definition unpack2 (parts : list string) : result student :=
  match parts with
  | [name; roll] => Ok (name, roll)
  | _ => Err ValueError
  end.

(** The name [add_face] saves a picture under (line 114):
    [f"{name}_{roll}.jpg"]. *)
Definition face_filename (name roll : string) : string := name ++ "_" ++ roll ++ ".jpg".

(** [filename.endswith(('.jpg', '.png'))] *)
Definition is_image_file (filename : string) : bool :=
  endswith_any filename [".jpg"; ".png"].

Section Load.
Context {Blob Img : Type} `{ImageCodec Blob Img} `{FaceAnalysis Img} `{OsListdir Blob}.

(** The body of the [for] loop (lines 27-34) over the sorted names.
    [cv2.imread] of a file that does not decode gives [None], and
    [model.get(None)] raises [AttributeError]. *)
Fixpoint load_loop (dir : gmap string Blob) (files : list string)
    : result (list embedding * list student) :=
  match files with
  | [] => Ok ([], [])
  | filename :: rest =>
      if is_image_file filename then
        match dir !! filename ≫= imread with
        | None => Err AttributeError
        | Some img =>
            match model_get img with
            | [] => load_loop dir rest
            | face :: _ =>
                st <- unpack2 (name_parts filename) ;;
                acc <- load_loop dir rest ;;
                Ok (face :: acc.1, st :: acc.2)
            end
        end
      else load_loop dir rest
  end.

(** [load_known_faces()]: returns [(known_embeddings, student_details)]. *)
Definition load_known_faces (dir : gmap string Blob) : result (list embedding * list student) :=
  files <- py_sorted roll_key (listdir dir) ;;
  load_loop dir files.
End Load.

(** ** Inversion of one loop step *)

Section LoadLemmas.
Context {Blob Img : Type} `{ImageCodec Blob Img} `{FaceAnalysis Img}.

Lemma load_loop_cons (dir : gmap string Blob) (f : string) (rest : list string)
    (embs : list embedding) (sts : list student) :
  load_loop dir (f :: rest) = Ok (embs, sts) ->
  load_loop dir rest = Ok (embs, sts) \/
  exists img face faces st embs' sts',
    is_image_file f = true /\ dir !! f ≫= imread = Some img /\
    model_get img = face :: faces /\ unpack2 (name_parts f) = Ok st /\
    load_loop dir rest = Ok (embs', sts') /\ embs = face :: embs' /\ sts = st :: sts'.
Proof.
  simpl. destruct (is_image_file f) eqn:Hf; [|by left].
  destruct (dir !! f ≫= imread) as [img|] eqn:Hi; [|discriminate].
  destruct (model_get img) as [|face faces] eqn:Hm; [by left|].
  intros Hr. simpl_result. subst. destruct a0 as [embs' sts']. simpl.
  right. by exists img, face, faces, a, embs', sts'.
Qed.

Lemma unpack2_Ok (parts : list string) (st : student) :
  unpack2 parts = Ok st -> parts = [st.1; st.2].
Proof. destruct parts as [|a [|b [|]]]; simpl; try discriminate. by intros [= <-]. Qed.

(** The students come from a subsequence of the files, each file
    name splitting into exactly its [name] and [roll]. *)
Lemma load_loop_students (dir : gmap string Blob) (files : list string)
    (embs : list embedding) (sts : list student) :
  load_loop dir files = Ok (embs, sts) ->
  length embs = length sts /\
  exists fs, fs `sublist_of` files /\ Forall2 (fun f st => name_parts f = [st.1; st.2]) fs sts.
Proof.
  revert embs sts. induction files as [|f rest IH]; intros embs sts Hr.
  - injection Hr as <- <-. split; [done|]. exists []. split; constructor.
  - apply load_loop_cons in Hr as [Hr | (img & face & faces & st & embs' & sts' &
      _ & _ & _ & Hu & Hr & -> & ->)].
    + destruct (IH _ _ Hr) as [Hl (fs & Hs & Hfs)].
      split; [done|]. exists fs. split; [by apply sublist_cons | done].
    + destruct (IH _ _ Hr) as [Hl (fs & Hs & Hfs)].
      split; [simpl; lia|]. exists (f :: fs). split; [by apply sublist_skip|].
      constructor; [by apply unpack2_Ok | done].
Qed.
(** A listed image file with a face contributes its first face and its
    [(name, roll)] at the same index of the two lists. *)
Lemma load_loop_member (dir : gmap string Blob) (files : list string) (f : string)
    (img : Img) (face : embedding) (faces : list embedding)
    (embs : list embedding) (sts : list student) :
  f ∈ files -> is_image_file f = true -> dir !! f ≫= imread = Some img ->
  model_get img = face :: faces -> load_loop dir files = Ok (embs, sts) ->
  exists i st, unpack2 (name_parts f) = Ok st /\ embs !! i = Some face /\ sts !! i = Some st.
Proof.
  intros Hin Hf Hi Hm. revert embs sts.
  induction files as [|f' rest IH]; intros embs sts Hr; [by apply elem_of_nil in Hin|].
  destruct (decide (f = f')) as [<-|Hne].
  - simpl in Hr. rewrite Hf, Hi, Hm in Hr. simpl_result. subst.
    by exists 0%nat, a.
  - apply elem_of_cons in Hin as [->|Hin]; [done|].
    apply load_loop_cons in Hr as [Hr | (img' & face' & faces' & st' & embs' & sts' &
      _ & _ & _ & _ & Hr & -> & ->)]; [by apply IH|].
    destruct (IH Hin _ _ Hr) as (i & st & Hu & He & Hs).
    by exists (S i), st.
Qed.
End LoadLemmas.

Lemma roll_key_parts (f name roll : string) :
  name_parts f = [name; roll] -> roll_key f = py_int roll.
Proof. unfold roll_key. intros ->. reflexivity. Qed.


(** ** The enrolment file name *)

(** [f"{name}_{roll}.jpg"] is an image file whose name parses back to
    [(name, roll)] and whose sort key is [int(roll)], when neither part
    holds an underscore or a slash. *)
Lemma face_filename_parts (name roll : string) :
  str_mem "_"%char name = false -> str_mem "_"%char roll = false ->
  str_mem "/"%char name = false -> str_mem "/"%char roll = false ->
  is_image_file (face_filename name roll) = true /\
  name_parts (face_filename name roll) = [name; roll] /\
  roll_key (face_filename name roll) = py_int roll.
Proof.
  intros Hn Hr Sn Sr.
  destruct (split_enrolled_name name roll Hn Hr Sn Sr) as (Hsp & Hsl & He).
  assert (name_parts (face_filename name roll) = [name; roll]) as Hp
    by (unfold name_parts, face_filename; by rewrite Hsp).
  split; [|split; [done | by apply (roll_key_parts _ name)]].
  unfold is_image_file, endswith_any, face_filename. simpl. by rewrite He.
Qed.


(** ** Properties of [load_known_faces] *)

Lemma students_rolls (kf : string -> Z) (fs : list string) (sts : list student) :
  Forall (fun f => roll_key f = Ok (kf f)) fs ->
  Forall2 (fun f st => name_parts f = [st.1; st.2]) fs sts ->
  Forall2 (fun st k => py_int st.2 = Ok k) sts (map kf fs).
Proof.
  intros Hk Hfs. induction Hfs as [|f st fs sts Hp _ IH]; simpl; constructor.
  - apply Forall_cons in Hk as [Hk _]. by rewrite <- (roll_key_parts f st.1 st.2 Hp).
  - apply IH. by apply Forall_cons in Hk as [_ Hk].
Qed.

Section LoadTheorems.
Context {Blob Img : Type} `{ImageCodec Blob Img} `{FaceAnalysis Img} `{OsListdir Blob}.

Lemma load_known_faces_shape (dir : gmap string Blob)
    (embs : list embedding) (sts : list student) :
  load_known_faces dir = Ok (embs, sts) ->
  length embs = length sts /\
  exists ks, Forall2 (fun st k => py_int st.2 = Ok k) sts ks /\ StronglySorted Z.le ks.
Proof.
  unfold load_known_faces. intros Hl. simpl_result.
  destruct (py_sorted_Ok_inv _ _ _ Ha) as (kf & Hk & ->).
  destruct (load_loop_students _ _ _ _ Hl) as [Hlen (fs & Hsub & Hfs)].
  split; [done|]. exists (map kf fs). split.
  - apply (students_rolls kf fs sts); [|done].
    rewrite Forall_forall in Hk |- *. intros f Hf. apply Hk.
    rewrite <- (sort_by_perm kf (listdir dir)). by eapply elem_of_sublist.
  - apply StronglySorted_map.
    apply (StronglySorted_sublist _ _ _ Hsub), sort_by_strongly_sorted.
Qed.

(** C5: The roster invariant: [known_embeddings] and [student_details]
    have the same length, every roll parses with [int], and the rolls
    are in ascending numeric order. *)
Theorem load_known_faces_sorted (dir : gmap string Blob)
    (embs : list embedding) (sts : list student) :
  load_known_faces dir = Ok (embs, sts) ->
  length embs = length sts /\
  exists ks, Forall2 (fun st k => py_int st.2 = Ok k) sts ks /\ StronglySorted Z.le ks.
Proof. intros; eapply load_known_faces_shape; eassumption. Qed.

Lemma load_known_faces_unparsed (dir : gmap string Blob) (f : string) :
  f ∈ dom dir -> is_ok (roll_key f) = false -> exists e, load_known_faces dir = Err e.
Proof.
  intros Hf Hk. unfold load_known_faces.
  assert (f ∈ listdir dir) as Hin by (rewrite listdir_perm; by apply elem_of_elements).
  destruct (map_result_Err_elem roll_key _ f Hin Hk) as [e He].
  exists e. by rewrite (proj2 (py_sorted_Err _ _ e) He).
Qed.

(** C9: One file of the directory whose name has no underscore, or whose
    second part is not an integer, makes the load raise, whatever the
    other files and whatever its extension. *)
Theorem load_known_faces_stray_file (dir : gmap string Blob) (f : string) :
  f ∈ dom dir -> is_ok (roll_key f) = false -> exists e, load_known_faces dir = Err e.
Proof. intros; eapply load_known_faces_unparsed; eassumption. Qed.
End LoadTheorems.

Section LoadOrder.
Context {Blob Img : Type} `{ImageCodec Blob Img} `{FaceAnalysis Img}.

(** Enrolment takes effect on the next load: a picture saved under
    [f"{name}_{roll}.jpg"] in which the model finds a face gives the
    student [(name, roll)], paired with that face's embedding. *)
Lemma load_known_faces_member `{OsListdir Blob} (dir : gmap string Blob)
    (name roll : string) (blob : Blob) (img : Img) (face : embedding)
    (faces : list embedding) (embs : list embedding) (sts : list student) :
  str_mem "_"%char name = false -> str_mem "_"%char roll = false ->
  str_mem "/"%char name = false -> str_mem "/"%char roll = false ->
  dir !! face_filename name roll = Some blob -> imread blob = Some img ->
  model_get img = face :: faces ->
  load_known_faces dir = Ok (embs, sts) ->
  exists i, embs !! i = Some face /\ sts !! i = Some (name, roll).
Proof.
  intros Hn Hr Sn Sr Hd Hi Hm Hl.
  destruct (face_filename_parts name roll Hn Hr Sn Sr) as (Himg & Hp & _).
  unfold load_known_faces in Hl. simpl_result.
  destruct (py_sorted_Ok_inv _ _ _ Ha) as (kf & _ & ->).
  assert (face_filename name roll ∈ sort_by kf (listdir dir)) as Hin.
  { rewrite sort_by_perm, listdir_perm. apply elem_of_elements, elem_of_dom. by eexists. }
  destruct (load_loop_member dir _ _ img face faces embs sts Hin Himg) as (i & st & Hu & He & Hs);
    [by rewrite Hd | done | done |].
  rewrite Hp in Hu. injection Hu as <-. by exists i.
Qed.


(** C27: When every name of the directory has an integer roll and no two
    names share one, the roster does not depend on the order in which
    [os.listdir] returns the names. *)
Theorem load_known_faces_listdir_independent (L1 L2 : OsListdir Blob)
    (dir : gmap string Blob) :
  (forall f, f ∈ dom dir -> is_ok (roll_key f) = true) ->
  (forall f g z, f ∈ dom dir -> g ∈ dom dir -> roll_key f = Ok z -> roll_key g = Ok z -> f = g) ->
  @load_known_faces _ _ _ _ L1 dir = @load_known_faces _ _ _ _ L2 dir.
Proof.
  intros Hok Hinj. unfold load_known_faces.
  set (kf f := match roll_key f with Ok z => z | Err _ => 0%Z end).
  assert (forall f, f ∈ dom dir -> roll_key f = Ok (kf f)) as Hk.
  { intros f Hf. specialize (Hok f Hf). unfold kf. by destruct (roll_key f). }
  assert (forall (L : OsListdir Blob), Forall (fun f => roll_key f = Ok (kf f)) (listdir dir))
    as HkL.
  { intros L. apply Forall_forall. intros f Hf. apply Hk.
    rewrite listdir_perm in Hf. by apply elem_of_elements in Hf. }
  rewrite (py_sorted_Ok _ kf _ (HkL L1)), (py_sorted_Ok _ kf _ (HkL L2)). simpl.
  f_equal. apply sort_by_perm_inj.
  - by rewrite !listdir_perm.
  - rewrite listdir_perm. apply NoDup_elements.
  - intros f g Hf Hg Hfg. rewrite listdir_perm, elem_of_elements in Hf, Hg.
    apply (Hinj f g (kf f)); [done | done | by apply Hk | rewrite Hfg; by apply Hk].
Qed.
End LoadOrder.

(** An empty [known_faces] directory loads as the empty roster. *)
Lemma load_known_faces_empty {Blob Img : Type} `{ImageCodec Blob Img} `{FaceAnalysis Img}
    `{OsListdir Blob} : load_known_faces (∅ : gmap string Blob) = Ok ([], []).
Proof.
  unfold load_known_faces.
  assert (listdir (∅ : gmap string Blob) = []) as ->.
  { apply Permutation_nil. by rewrite listdir_perm, dom_empty_L, elements_empty. }
  reflexivity.
Qed.

(** ** The roster is typed by the model's dimension *)

Section LoadDim.
Context {Blob Img : Type} `{ImageCodec Blob Img} `{FaceAnalysis Img} `{OsListdir Blob}.
Context (D : nat) `{!FixedDimension Img D}.

Lemma load_loop_dim (dir : gmap string Blob) (files : list string)
    (embs : list embedding) (sts : list student) :
  load_loop dir files = Ok (embs, sts) -> embeddings_dim D embs.
Proof.
  revert embs sts. induction files as [|f rest IH]; intros embs sts Hr.
  - injection Hr as <- _. constructor.
  - apply load_loop_cons in Hr as [Hr | (img & face & faces & st & embs' & sts' &
      _ & _ & Hm & _ & Hr & -> & ->)]; [by eapply IH|].
    constructor; [|by eapply IH].
    apply (model_get_dim img). rewrite Hm. apply elem_of_cons. by left.
Qed.

Lemma load_known_faces_typed (dir : gmap string Blob) (embs : list embedding) (sts : list student) :
  load_known_faces dir = Ok (embs, sts) -> embeddings_dim D embs.
Proof. unfold load_known_faces. intros Hl. simpl_result. by eapply load_loop_dim. Qed.

End LoadDim.
