(* ===== verification/Format.v ===== *)
(** The text the attendance writer produces (main.py lines 68-78):
    [now.strftime('%Y-%m-%d')], [now.strftime('%H:%M:%S')], the file
    name [f"Attendance_{date_str}.csv"], and the rows of [csv.writer]
    with the default [excel] dialect: delimiter [','], the double quote
    as quote character, doubled inside a quoted field, [QUOTE_MINIMAL] (a field is
    quoted when it holds the delimiter, the quote character, a carriage
    return or a line feed), line terminator ["\r\n"], and a row made of
    one empty field written as two quote characters.  The file is opened
    with [newline=''], so no newline translation happens.

    [%Y] is the year zero-padded to four digits, as the Python
    documentation states for years 1 to 9999. *)

From Stdlib Require Import ZArith Lia Bool Ascii String List DecimalString DecimalN.
From S2P Require Import Prelude PyStr.
Import ListNotations.

Local Open Scope string_scope.
Local Open Scope Z_scope.
Local Open Scope bool_scope.

(** ** [datetime] and [strftime] *)

(** The fields of a [datetime.datetime] that [strftime] reads. *)
Record datetime := mk_datetime {
  year : Z; month : Z; day : Z; hour : Z; minute : Z; second : Z
}.

Definition is_leap (y : Z) : bool :=
  ((y mod 4 =? 0) && negb (y mod 100 =? 0)) || (y mod 400 =? 0).

Definition days_in_month (y m : Z) : Z :=
  if m =? 2 then (if is_leap y then 29 else 28)
  else if (m =? 4) || (m =? 6) || (m =? 9) || (m =? 11) then 30 else 31.

(** The ranges [datetime] enforces on construction. *)
Definition datetime_valid (t : datetime) : Prop :=
  1 <= year t <= 9999 /\ 1 <= month t <= 12 /\ 1 <= day t <= days_in_month (year t) (month t) /\
  0 <= hour t <= 23 /\ 0 <= minute t <= 59 /\ 0 <= second t <= 59.

(** Decimal digits of a non-negative integer, no sign, no padding. *)
Definition str_of_Z (n : Z) : string := NilZero.string_of_uint (N.to_uint (Z.to_N n)).

Fixpoint zeros (k : nat) : string :=
  match k with
  | O => EmptyString
  | S k' => String "0"%char (zeros k')
  end.

(** [n] zero-padded to [w] digits, as [%m], [%d], [%H], [%M], [%S]
    ([w = 2]) and [%Y] ([w = 4]) print it. *)
Definition zpad (w : nat) (n : Z) : string :=
  let s := str_of_Z n in zeros (w - String.length s) ++ s.

(** [now.strftime('%Y-%m-%d')] *)
Definition date_str (t : datetime) : string :=
  zpad 4 (year t) ++ "-" ++ zpad 2 (month t) ++ "-" ++ zpad 2 (day t).

(** [now.strftime('%H:%M:%S')] *)
Definition time_str (t : datetime) : string :=
  zpad 2 (hour t) ++ ":" ++ zpad 2 (minute t) ++ ":" ++ zpad 2 (second t).

(** [f"Attendance_{date_str}.csv"] *)
Definition attendance_filename (t : datetime) : string :=
  "Attendance_" ++ date_str t ++ ".csv".

(** ** [csv.writer(file).writerow(fields)] *)

Definition quote_char : ascii := "034"%char.
Definition cr_char : ascii := "013"%char.
Definition lf_char : ascii := "010"%char.

Definition csv_special (c : ascii) : bool :=
  Ascii.eqb c ","%char || Ascii.eqb c quote_char || Ascii.eqb c cr_char || Ascii.eqb c lf_char.

(** Every quote character doubled ([doublequote=True]). *)
Fixpoint csv_escape (s : string) : string :=
  match s with
  | EmptyString => EmptyString
  | String c r =>
      if Ascii.eqb c quote_char then String quote_char (String quote_char (csv_escape r))
      else String c (csv_escape r)
  end.

(** [QUOTE_MINIMAL]: quote a field only when it needs it. *)
Definition csv_field (s : string) : string :=
  if str_existsb csv_special s
  then String quote_char (csv_escape s ++ String quote_char EmptyString)
  else s.

Fixpoint join_fields (fields : list string) : string :=
  match fields with
  | [] => EmptyString
  | [f] => csv_field f
  | f :: fs => csv_field f ++ "," ++ join_fields fs
  end.

Definition crlf : string := String cr_char (String lf_char EmptyString).

(** One row and its line terminator.  A row that is a single empty
    field would otherwise be an empty line, so [_csv.c] writes it as a
    quoted empty field. *)
Definition csv_row (fields : list string) : string :=
  match fields with
  | [EmptyString] => String quote_char (String quote_char crlf)
  | _ => join_fields fields ++ crlf
  end.

(** The whole file: the rows in order, nothing before or after. *)
Definition csv_file (rows : list (list string)) : string :=
  List.fold_right (fun r acc => csv_row r ++ acc) EmptyString rows.

(** The value of a string of decimal digits, leading zeros allowed
    (how a reader of the file recovers a field of the date). *)
Definition dec_value (s : string) : option Z :=
  option_map (fun u => Z.of_N (N.of_uint u)) (NilZero.uint_of_string s).

(** ** The date in the file name determines the day *)

Lemma digit_neq (c a : ascii) : is_digit c = false -> is_digit a = true -> Ascii.eqb c a = false.
Proof. intros Hc Ha. apply Ascii.eqb_neq. intros ->. congruence. Qed.

Lemma string_of_uint_nomem (c : ascii) (d : Decimal.uint) :
  is_digit c = false -> str_mem c (NilEmpty.string_of_uint d) = false.
Proof.
  intros Hc. induction d; unfold str_mem in *; simpl; [reflexivity|..];
    rewrite IHd, orb_false_r; apply digit_neq; trivial.
Qed.

Lemma str_of_Z_nomem (c : ascii) (n : Z) : is_digit c = false -> str_mem c (str_of_Z n) = false.
Proof.
  intros Hc. unfold str_of_Z, NilZero.string_of_uint.
  destruct (N.to_uint (Z.to_N n)); try (apply string_of_uint_nomem; exact Hc).
  unfold str_mem. simpl. rewrite orb_false_r. apply digit_neq; trivial.
Qed.

Lemma zeros_nomem (c : ascii) (k : nat) : c <> "0"%char -> str_mem c (zeros k) = false.
Proof.
  intros Hc. induction k as [|k IH]; [reflexivity|].
  unfold str_mem in *. simpl. rewrite IH, orb_false_r. now apply Ascii.eqb_neq.
Qed.

Lemma zpad_nomem (c : ascii) (w : nat) (n : Z) : is_digit c = false -> str_mem c (zpad w n) = false.
Proof.
  intros Hc. unfold zpad. rewrite str_mem_app, str_of_Z_nomem, zeros_nomem;
    [reflexivity | intros ->; discriminate | exact Hc].
Qed.

Lemma N_of_uint_D0 (u : Decimal.uint) : N.of_uint (Decimal.D0 u) = N.of_uint u.
Proof.
  rewrite <- (DecimalN.Unsigned.of_uint_norm (Decimal.D0 u)).
  change (Decimal.unorm (Decimal.D0 u)) with (Decimal.unorm u).
  apply DecimalN.Unsigned.of_uint_norm.
Qed.

Lemma dec_value_zeros (k : nat) (s : string) :
  s <> EmptyString -> dec_value (zeros k ++ s) = dec_value s.
Proof.
  intros Hs. induction k as [|k IH]; [reflexivity|].
  unfold dec_value in *. simpl.
  destruct (zeros k ++ s)%string as [|a r] eqn:E;
    [destruct k, s; simpl in E; congruence|].
  simpl in IH. simpl. destruct (uint_of_char a (NilEmpty.uint_of_string r)) as [u|];
    simpl in *; [|exact IH]. first [exact IH | now rewrite N_of_uint_D0].
Qed.

Lemma str_of_Z_nonempty (n : Z) : str_of_Z n <> EmptyString.
Proof.
  unfold str_of_Z, NilZero.string_of_uint.
  destruct (N.to_uint (Z.to_N n)); discriminate.
Qed.

Lemma dec_value_str_of_Z (n : Z) : 0 <= n -> dec_value (str_of_Z n) = Some n.
Proof.
  intros Hn. unfold dec_value, str_of_Z.
  remember (N.to_uint (Z.to_N n)) as d eqn:Ed.
  assert (n = Z.of_N (N.of_uint d)) as Hx
    by (rewrite Ed, DecimalN.Unsigned.of_to; lia).
  destruct (NilZero.usu_gen d) as [E|E]; rewrite E; simpl; [now rewrite Hx|].
  destruct d as [|d|d|d|d|d|d|d|d|d|d]; [simpl in Hx; now rewrite Hx|..];
    rewrite NilZero.usu in E by discriminate; injection E as E'; try discriminate E';
    subst d; simpl in Hx; now rewrite Hx.
Qed.

Lemma dec_value_zpad (w : nat) (n : Z) : 0 <= n -> dec_value (zpad w n) = Some n.
Proof.
  intros Hn. unfold zpad. rewrite dec_value_zeros by apply str_of_Z_nonempty.
  now apply dec_value_str_of_Z.
Qed.

Lemma zpad_inj (w w' : nat) (n m : Z) : 0 <= n -> 0 <= m -> zpad w n = zpad w' m -> n = m.
Proof.
  intros Hn Hm E. apply (f_equal dec_value) in E.
  rewrite !dec_value_zpad in E by assumption. congruence.
Qed.

Lemma str_app_inv_l (s a b : string) : (s ++ a)%string = (s ++ b)%string -> a = b.
Proof. induction s as [|c s IH]; simpl; [trivial|]. intros [= E]. auto. Qed.

Lemma date_str_split (t : datetime) :
  str_split "-"%char (date_str t) = [zpad 4 (year t); zpad 2 (month t); zpad 2 (day t)].
Proof.
  unfold date_str. cbn [String.append].
  rewrite str_split_app_sep, str_split_app_sep, str_split_nosep by (apply zpad_nomem; reflexivity).
  reflexivity.
Qed.

Lemma datetime_valid_nonneg (t : datetime) :
  datetime_valid t -> 0 <= year t /\ 0 <= month t /\ 0 <= day t.
Proof. unfold datetime_valid. lia. Qed.

(** Two valid dates with the same [%Y-%m-%d] text are the same day. *)
Lemma date_str_inj (t1 t2 : datetime) :
  datetime_valid t1 -> datetime_valid t2 -> date_str t1 = date_str t2 ->
  year t1 = year t2 /\ month t1 = month t2 /\ day t1 = day t2.
Proof.
  intros V1%datetime_valid_nonneg V2%datetime_valid_nonneg E.
  apply (f_equal (str_split "-"%char)) in E. rewrite !date_str_split in E.
  injection E as Ey Em Ed.
  repeat split; eapply zpad_inj; try eassumption; lia.
Qed.

Lemma date_str_nomem (c : ascii) (t : datetime) :
  is_digit c = false -> c <> "-"%char -> str_mem c (date_str t) = false.
Proof.
  intros Hc Hm. unfold date_str. rewrite !str_mem_app, !zpad_nomem by exact Hc.
  unfold str_mem. simpl. rewrite (proj2 (Ascii.eqb_neq c "-"%char) Hm). reflexivity.
Qed.

(** The file of a day: two valid dates share the attendance file
    exactly when they are the same calendar day. *)
Lemma attendance_filename_inj (t1 t2 : datetime) :
  datetime_valid t1 -> datetime_valid t2 ->
  attendance_filename t1 = attendance_filename t2 <->
  year t1 = year t2 /\ month t1 = month t2 /\ day t1 = day t2.
Proof.
  intros V1 V2. split.
  - intros E. apply date_str_inj; [exact V1 | exact V2 |].
    unfold attendance_filename in E. apply str_app_inv_l in E.
    apply (f_equal (str_split "."%char)) in E.
    rewrite !str_split_app_sep in E by (apply date_str_nomem; [reflexivity | discriminate]).
    congruence.
  - intros (Hy & Hm & Hd). unfold attendance_filename, date_str. now rewrite Hy, Hm, Hd.
Qed.

Example ex_date : date_str (mk_datetime 2026 11 9 8 5 0) = "2026-11-09". Proof. reflexivity. Qed.
Example ex_time : time_str (mk_datetime 2026 11 9 8 5 0) = "08:05:00". Proof. reflexivity. Qed.
Example ex_row : csv_row ["O'Neil, Jr"; "7"] = String quote_char "O'Neil, Jr" ++ String quote_char ",7" ++ crlf.
Proof. reflexivity. Qed.
