(* ===== verification/CsvRead.v ===== *)
(** Reading the attendance file back.  A reader for the [excel] dialect
    of Python's [csv] module (fields separated by [','], a field that
    starts with a quote runs to the next single quote with doubled
    quotes read as one, rows ended by ["\r\n"]), and the theorem that
    it recovers exactly the rows [csv.writer] wrote: the file is
    unambiguous, whatever commas, quotes or line breaks the names hold.

    The reader is a specification, not code of the program; its fuel is
    the length of the text, enough because every step consumes at least
    one character. *)

From Stdlib Require Import ZArith Lia Bool Ascii String List.
From S2P Require Import Prelude PyStr Format.
Import ListNotations.

Local Open Scope string_scope.

(** The rest of a quoted field after its opening quote: the content up
    to the closing quote, and the text after it. *)
Fixpoint read_quoted (s : string) : option (string * string) :=
  match s with
  | EmptyString => None
  | String c r =>
      if Ascii.eqb c quote_char then
        match r with
        | String c2 r2 =>
            if Ascii.eqb c2 quote_char then
              match read_quoted r2 with
              | Some (f, rest) => Some (String quote_char f, rest)
              | None => None
              end
            else Some (EmptyString, r)
        | EmptyString => Some (EmptyString, EmptyString)
        end
      else
        match read_quoted r with
        | Some (f, rest) => Some (String c f, rest)
        | None => None
        end
  end.

(** An unquoted field runs to the next delimiter or carriage return. *)
Fixpoint read_unquoted (s : string) : string * string :=
  match s with
  | EmptyString => (EmptyString, EmptyString)
  | String c r =>
      if Ascii.eqb c "," || Ascii.eqb c cr_char then (EmptyString, s)
      else let '(f, rest) := read_unquoted r in (String c f, rest)
  end.

Definition read_field (s : string) : option (string * string) :=
  match s with
  | String c r => if Ascii.eqb c quote_char then read_quoted r else Some (read_unquoted s)
  | EmptyString => Some (EmptyString, EmptyString)
  end.

(** The fields of a row and the text after its line terminator. *)
Fixpoint read_fields (fuel : nat) (s : string) : option (list string * string) :=
  match fuel with
  | O => None
  | S fuel' =>
      match read_field s with
      | Some (f, String c r) =>
          if Ascii.eqb c "," then
            match read_fields fuel' r with
            | Some (fs, rest) => Some (f :: fs, rest)
            | None => None
            end
          else if Ascii.eqb c cr_char then
            match r with
            | String c2 r2 => if Ascii.eqb c2 lf_char then Some ([f], r2) else None
            | EmptyString => None
            end
          else None
      | _ => None
      end
  end.

(** A row: an empty line is the row with no field. *)
Definition read_row (fuel : nat) (s : string) : option (list string * string) :=
  match s with
  | String c (String c2 r) =>
      if Ascii.eqb c cr_char && Ascii.eqb c2 lf_char then Some ([], r) else read_fields fuel s
  | _ => read_fields fuel s
  end.

Fixpoint read_rows (fuel : nat) (s : string) : option (list (list string)) :=
  match s with
  | EmptyString => Some []
  | _ =>
      match fuel with
      | O => None
      | S fuel' =>
          match read_row fuel s with
          | Some (row, rest) =>
              match read_rows fuel' rest with
              | Some rows => Some (row :: rows)
              | None => None
              end
          | None => None
          end
      end
  end.

Definition read_csv (s : string) : option (list (list string)) :=
  read_rows (String.length s) s.

(** ** The reader inverts the writer *)

Definition field_end (s : string) : bool :=
  match s with
  | String c _ => Ascii.eqb c "," || Ascii.eqb c cr_char
  | EmptyString => true
  end.

Definition starts_with_cr (s : string) : bool :=
  match s with
  | String c _ => Ascii.eqb c cr_char
  | EmptyString => false
  end.

Lemma csv_special_cons (c : ascii) (s : string) :
  str_existsb csv_special (String c s) = false ->
  Ascii.eqb c "," = false /\ Ascii.eqb c quote_char = false /\ Ascii.eqb c cr_char = false /\
  str_existsb csv_special s = false.
Proof.
  simpl. unfold csv_special. rewrite !orb_false_iff. tauto.
Qed.

Lemma field_end_not_quote (c : ascii) (s : string) :
  field_end (String c s) = true -> Ascii.eqb c quote_char = false.
Proof.
  simpl. intros H. apply Ascii.eqb_neq. intros ->. discriminate H.
Qed.

Lemma read_quoted_escape (f rest : string) :
  field_end rest = true -> read_quoted (csv_escape f ++ String quote_char rest) = Some (f, rest).
Proof.
  intros Hr. induction f as [|c f IH]; simpl.
  - destruct rest as [|c2 r2]; [reflexivity|]. now rewrite (field_end_not_quote c2 r2 Hr).
  - destruct (Ascii.eqb c quote_char) eqn:Hc; simpl; rewrite ?Hc, IH; [|reflexivity].
    apply Ascii.eqb_eq in Hc. now subst c.
Qed.

Lemma read_unquoted_plain (f rest : string) :
  str_existsb csv_special f = false -> field_end rest = true ->
  read_unquoted (f ++ rest) = (f, rest).
Proof.
  intros Hf Hr. induction f as [|c f IH]; simpl.
  - destruct rest as [|c2 r2]; [reflexivity|]. simpl in *. now rewrite Hr.
  - destruct (csv_special_cons c f Hf) as (Hcomma & _ & Hcr & Hf').
    rewrite Hcomma, Hcr, (IH Hf'). reflexivity.
Qed.

Lemma read_field_csv_field (f rest : string) :
  field_end rest = true -> read_field (csv_field f ++ rest) = Some (f, rest).
Proof.
  intros Hr. unfold csv_field. destruct (str_existsb csv_special f) eqn:Hs.
  - simpl. rewrite ?Ascii.eqb_refl, str_app_assoc. simpl. now apply read_quoted_escape.
  - destruct f as [|c f]; unfold read_field; cbn [String.append].
    + destruct rest as [|c2 r2]; [reflexivity|]. rewrite (field_end_not_quote c2 r2 Hr).
      simpl in *. now rewrite Hr.
    + destruct (csv_special_cons c f Hs) as (Hcomma & Hq & Hcr & _). rewrite Hq.
      f_equal. change (String c (f ++ rest)) with (String c f ++ rest).
      now apply read_unquoted_plain.
Qed.

Lemma field_end_crlf (rest : string) : field_end (crlf ++ rest) = true.
Proof. reflexivity. Qed.

Lemma read_fields_join (fs : list string) (rest : string) (fuel : nat) :
  fs <> [] -> length fs <= fuel ->
  read_fields fuel (join_fields fs ++ crlf ++ rest) = Some (fs, rest).
Proof.
  revert fuel. induction fs as [|f fs IH]; intros fuel Hne Hlen; [congruence|].
  destruct fuel as [|fuel]; [simpl in Hlen; lia|].
  destruct fs as [|g fs].
  - cbn [read_fields join_fields].
    rewrite (read_field_csv_field f (crlf ++ rest)) by apply field_end_crlf.
    reflexivity.
  - change (join_fields (f :: g :: fs)) with (csv_field f ++ "," ++ join_fields (g :: fs)).
    rewrite !str_app_assoc. cbn [read_fields String.append].
    rewrite (read_field_csv_field f) by reflexivity. cbn iota beta.
    rewrite IH by (discriminate || (simpl in *; lia)). reflexivity.
Qed.

Lemma csv_field_not_cr (f s : string) :
  f <> EmptyString -> starts_with_cr (csv_field f ++ s) = false.
Proof.
  intros Hf. unfold csv_field. destruct (str_existsb csv_special f) eqn:Hs; [reflexivity|].
  destruct f as [|c f]; [congruence|].
  destruct (csv_special_cons c f Hs) as (_ & _ & Hcr & _). exact Hcr.
Qed.

Lemma join_fields_not_cr (fs : list string) (s : string) :
  fs <> [] -> fs <> [EmptyString] -> starts_with_cr (join_fields fs ++ s) = false.
Proof.
  intros Hne Hne1. destruct fs as [|f [|g fs]]; [congruence| |].
  - apply csv_field_not_cr. intros ->. congruence.
  - change (join_fields (f :: g :: fs)) with (csv_field f ++ "," ++ join_fields (g :: fs)).
    rewrite str_app_assoc. destruct (String.eqb_spec f EmptyString) as [->|Hf]; [reflexivity|].
    now apply csv_field_not_cr.
Qed.

Lemma read_row_not_cr (fuel : nat) (s : string) :
  starts_with_cr s = false -> read_row fuel s = read_fields fuel s.
Proof. destruct s as [|c [|c2 r]]; simpl; try reflexivity. now intros ->. Qed.

Lemma read_row_csv_row (fs : list string) (rest : string) (fuel : nat) :
  length fs <= fuel -> read_row fuel (csv_row fs ++ rest) = Some (fs, rest).
Proof.
  intros Hlen. destruct fs as [|f [|g fs]]; [reflexivity| |].
  - destruct (String.eqb_spec f EmptyString) as [->|Hf].
    + destruct fuel as [|fuel]; [simpl in Hlen; lia|]. reflexivity.
    + assert (csv_row [f] = join_fields [f] ++ crlf) as ->
        by (destruct f; [congruence | reflexivity]).
      rewrite str_app_assoc, read_row_not_cr by (apply join_fields_not_cr; congruence).
      apply read_fields_join; [discriminate | exact Hlen].
  - assert (csv_row (f :: g :: fs) = join_fields (f :: g :: fs) ++ crlf) as -> by (destruct f; reflexivity).
    rewrite str_app_assoc, read_row_not_cr by (apply join_fields_not_cr; discriminate).
    apply read_fields_join; [discriminate | exact Hlen].
Qed.

Lemma join_fields_length (fs : list string) :
  length fs <= S (String.length (join_fields fs)).
Proof.
  induction fs as [|f [|g fs] IH]; simpl; [lia | lia|].
  change (join_fields (g :: fs)) with (join_fields (g :: fs)) in IH.
  rewrite str_length_app. simpl. simpl in IH. lia.
Qed.

(** A row is at least its line terminator long, and longer than its
    number of fields. *)
Lemma csv_row_length (fs : list string) :
  2 <= String.length (csv_row fs) /\ length fs < String.length (csv_row fs).
Proof.
  destruct fs as [|f [|g fs]]; [simpl; lia| |].
  - destruct f as [|c f]; [simpl; lia|].
    change (csv_row [String c f]) with (csv_field (String c f) ++ crlf).
    rewrite str_length_app. simpl. lia.
  - assert (csv_row (f :: g :: fs) = join_fields (f :: g :: fs) ++ crlf) as ->
      by (destruct f; reflexivity).
    pose proof (join_fields_length (f :: g :: fs)).
    rewrite str_length_app. simpl in *. lia.
Qed.

Lemma read_rows_csv_file (rows : list (list string)) (fuel : nat) :
  String.length (csv_file rows) <= fuel -> read_rows fuel (csv_file rows) = Some rows.
Proof.
  revert fuel. induction rows as [|r rows IH]; intros fuel Hlen; [destruct fuel; reflexivity|].
  change (csv_file (r :: rows)) with (csv_row r ++ csv_file rows) in *.
  rewrite str_length_app in Hlen. destruct (csv_row_length r) as [H2 Hr].
  destruct fuel as [|fuel]; [lia|].
  destruct (csv_row r ++ csv_file rows) as [|c s] eqn:E.
  { apply (f_equal String.length) in E. rewrite str_length_app in E. simpl in E. lia. }
  rewrite <- E. cbn [read_rows]. rewrite E, <- E.
  rewrite read_row_csv_row by lia. rewrite IH by lia. reflexivity.
Qed.

(** Reading back a file the writer produced gives exactly the rows
    written: every field, whatever commas, quotes, carriage returns or
    line feeds it holds, comes back unchanged and in its row. *)
Theorem read_csv_csv_file (rows : list (list string)) :
  read_csv (csv_file rows) = Some rows.
Proof. unfold read_csv. apply read_rows_csv_file. lia. Qed.
