(* ===== verification/Writer.v ===== *)
(** The attendance writer: the end of [mark_attendance] (main.py lines
    68-80).  The directory [Attendance] is a finite map from file names
    to file contents.  [open(filepath, 'w')] truncates the file of the
    day, the header row is written, and only then are the recognised
    students sorted by [int(roll)]: a roll that does not parse raises
    [ValueError] after the file has been truncated to its header (a
    path [mark_attendance] never takes: every recognised roll was parsed
    by the same [int()] in the roster load).  The
    [set] of students is iterated in an unspecified order ([SetIter]).

    The theorems: the rows of the file are the header and one row per
    recognised student, sorted by roll, all stamped with the same date
    and time; the file of a day is replaced, never appended to (the last
    run of the day wins) and no other file changes, the file of another
    day included; the rows do not
    depend on the set's iteration order when the rolls are distinct
    integers, and do when two students share an integer roll. *)

From Stdlib Require Import ZArith Lia Ascii String Sorted.
From stdpp Require Import base list gmap sets strings.
From S2P Require Import Prelude PyStr PySorted Provider Roster Format.

Local Open Scope string_scope.

Definition ATTENDANCE_DIR : string := "Attendance".

Definition header_row : list string := ["Name"; "Roll No"; "Date"; "Time"].

(** [writer.writerow([name, roll, date_str, time_str])] *)
Definition student_row (date time : string) (st : student) : list string :=
  [st.1; st.2; date; time].

(** [key=lambda x: int(x[1])] *)
Definition roll_int (st : student) : result Z := py_int st.2.

(** The rows the [with] block writes, and whether it raised: the header
    first, then the sorted students. *)
Definition attendance_rows {SI : SetIter student} (now : datetime) (recognized : gset student)
    : list (list string) * result unit :=
  match py_sorted roll_int (set_iter recognized) with
  | Ok ordered => (header_row :: map (student_row (date_str now) (time_str now)) ordered, Ok tt)
  | Err e => ([header_row], Err e)
  end.

(** Lines 68-78 on the [Attendance] directory: the file of the day is
    replaced by what the [with] block wrote. *)
Definition write_attendance {SI : SetIter student} (now : datetime) (recognized : gset student)
    (attendance : gmap string string) : gmap string string * result unit :=
  let '(rows, r) := attendance_rows now recognized in
  (<[attendance_filename now := csv_file rows]> attendance, r).

(** ** Properties *)

Section WriterProps.
Context {SI : SetIter student}.

Lemma roll_int_total (recognized : gset student) :
  (forall st, st ∈ recognized -> is_ok (roll_int st) = true) ->
  exists rk : student -> Z, forall st, st ∈ recognized -> roll_int st = Ok (rk st).
Proof.
  intros Hok. exists (fun st => match roll_int st with Ok z => z | Err _ => 0%Z end).
  intros st Hst. specialize (Hok st Hst). by destruct (roll_int st).
Qed.

Lemma set_iter_roll_ints (recognized : gset student) (rk : student -> Z) :
  (forall st, st ∈ recognized -> roll_int st = Ok (rk st)) ->
  Forall (fun st => roll_int st = Ok (rk st)) (set_iter recognized).
Proof.
  intros Hk. apply Forall_forall. intros st Hst. apply Hk.
  by rewrite set_iter_perm, elem_of_elements in Hst.
Qed.

Lemma attendance_rows_sorted (now : datetime) (recognized : gset student) :
  (forall st, st ∈ recognized -> is_ok (roll_int st) = true) ->
  exists ordered,
    attendance_rows now recognized =
      (header_row :: map (student_row (date_str now) (time_str now)) ordered, Ok tt) /\
    ordered ≡ₚ elements recognized /\
    exists ks, Forall2 (fun st k => roll_int st = Ok k) ordered ks /\ StronglySorted Z.le ks.
Proof.
  intros Hok. destruct (roll_int_total recognized Hok) as [rk Hk].
  pose proof (set_iter_roll_ints recognized rk Hk) as Hall.
  exists (sort_by rk (set_iter recognized)). unfold attendance_rows.
  rewrite (py_sorted_Ok _ rk _ Hall). split; [done|]. split.
  - by rewrite sort_by_perm, set_iter_perm.
  - exists (map rk (sort_by rk (set_iter recognized))). split.
    + apply Forall2_fmap_r, Forall_Forall2_diag. by rewrite sort_by_perm.
    + apply StronglySorted_map, sort_by_strongly_sorted.
Qed.

(** C6: When every roll parses, the file holds the header and one row per
    recognised student, each with the date and time of [now], in
    ascending order of [int(roll)]. *)
Theorem attendance_rows_correct (now : datetime) (recognized : gset student) :
  (forall st, st ∈ recognized -> is_ok (roll_int st) = true) ->
  exists ordered,
    attendance_rows now recognized =
      (header_row :: map (student_row (date_str now) (time_str now)) ordered, Ok tt) /\
    ordered ≡ₚ elements recognized /\
    exists ks, Forall2 (fun st k => roll_int st = Ok k) ordered ks /\ StronglySorted Z.le ks.
Proof. intros; eapply attendance_rows_sorted; eassumption. Qed.

(** C18: The file of the day is replaced, not appended to: after two runs on
    the same date only the second run's rows are in it, and no other
    file of the directory changes. *)
Theorem write_attendance_last_wins (now1 now2 : datetime) (s1 s2 : gset student)
    (attendance : gmap string string) :
  date_str now1 = date_str now2 ->
  (write_attendance now2 s2 (write_attendance now1 s1 attendance).1).1 =
  (write_attendance now2 s2 attendance).1.
Proof.
  intros Hd. unfold write_attendance, attendance_filename.
  destruct (attendance_rows now1 s1), (attendance_rows now2 s2). simpl.
  rewrite Hd. apply insert_insert_eq.
Qed.

Lemma write_attendance_other (now : datetime) (s : gset student)
    (attendance : gmap string string) (f : string) :
  f <> attendance_filename now ->
  (write_attendance now s attendance).1 !! f = attendance !! f.
Proof.
  intros Hf. unfold write_attendance. destruct (attendance_rows now s). simpl.
  by rewrite lookup_insert_ne.
Qed.
(** C30: One file per calendar day: a run never touches the attendance file
    of another day. *)
Theorem write_attendance_other_day (now t : datetime) (s : gset student)
    (attendance : gmap string string) :
  datetime_valid now -> datetime_valid t ->
  (year t, month t, day t) <> (year now, month now, day now) ->
  (write_attendance now s attendance).1 !! attendance_filename t = attendance !! attendance_filename t.
Proof.
  intros Vn Vt Hd. apply write_attendance_other.
  intros (Hy & Hm & Hdd)%attendance_filename_inj; [|exact Vt|exact Vn].
  apply Hd. by rewrite Hy, Hm, Hdd.
Qed.
End WriterProps.

(** C25: When the recognised students have distinct integer rolls, the file
    does not depend on the order in which the [set] is iterated. *)
Theorem attendance_rows_iter_independent (I1 I2 : SetIter student) (now : datetime)
    (recognized : gset student) :
  (forall st, st ∈ recognized -> is_ok (roll_int st) = true) ->
  (forall a b z, a ∈ recognized -> b ∈ recognized -> roll_int a = Ok z -> roll_int b = Ok z -> a = b) ->
  @attendance_rows I1 now recognized = @attendance_rows I2 now recognized.
Proof.
  intros Hok Hinj. destruct (roll_int_total recognized Hok) as [rk Hk].
  unfold attendance_rows.
  rewrite (py_sorted_Ok _ rk _ (@set_iter_roll_ints I1 recognized rk Hk)).
  rewrite (py_sorted_Ok _ rk _ (@set_iter_roll_ints I2 recognized rk Hk)).
  do 3 f_equal. apply sort_by_perm_inj.
  - by rewrite !set_iter_perm.
  - rewrite set_iter_perm. apply NoDup_elements.
  - intros a b Ha Hb Hab. rewrite set_iter_perm, elem_of_elements in Ha, Hb.
    apply (Hinj a b (rk a)); [done | done | by apply Hk | rewrite Hab; by apply Hk].
Qed.
