(* ===== verification/Session.v ===== *)
(** The attendance session: [mark_attendance(image_path, progress_bar)]
    (main.py lines 42-80), composed of the roster load, the matcher, the
    [set] of recognised students, the progress bar and the writer.

    The state is the file system: the [known_faces] and [Attendance]
    directories.  An exception anywhere before the [with] block leaves
    the file system unchanged.  The progress value after face [i] of
    [total] is [((i + 1) / total) * 100], kept as an exact rational.

    The theorems: the session never fails in the writer (every roll it
    writes was parsed by the load); an error leaves the file system
    unchanged; the count is at most the number of faces and at most the
    size of the roster; an image with no face writes a header-only file
    and returns 0; a run is idempotent; the progress values increase to
    exactly 100; a face whose embedding length differs from a roster
    entry's aborts the whole run.  When the face model keeps the spec's
    fixed dimension, a run raises only in the load or on a picture that
    does not decode.  [startup] is the file system after the two
    [os.makedirs(..., exist_ok=True)] calls (lines 15-16); on a fresh
    installation a run recognises nobody.  The day's file a successful
    run writes reads back, with Python's [csv] module, as the header and
    the sorted rows of the recognised students. *)

From Stdlib Require Import ZArith Lia QArith Sorted.
From stdpp Require Import base list gmap sets strings.
From S2P Require Import Prelude PyStr PySorted Score Matcher Provider Roster Format CsvRead Writer.

(** The two directories the program reads and writes. *)
Record fs_state (Blob : Type) := mk_fs {
  known_faces : gmap string Blob;
  attendance : gmap string string
}.
Arguments mk_fs {Blob} _ _.
Arguments known_faces {Blob} _.
Arguments attendance {Blob} _.

(** [os.makedirs(KNOWN_FACES_DIR, exist_ok=True)] and
    [os.makedirs(ATTENDANCE_DIR, exist_ok=True)] (lines 15-16): a
    missing directory is created empty, an existing one is kept as it
    is. *)
Definition makedirs {A : Type} (d : option (gmap string A)) : gmap string A := default ∅ d.

(** The file system at start-up, from the directories found on disk. *)
Definition startup {Blob : Type} (known : option (gmap string Blob))
    (att : option (gmap string string)) : fs_state Blob :=
  mk_fs (makedirs known) (makedirs att).

(** [progress_bar['value'] = ((i + 1) / total) * 100] *)
Definition progress_value (i total : nat) : Q :=
  (inject_Z (Z.of_nat (S i)) / inject_Z (Z.of_nat total)) * 100.

(** The [for i, face in enumerate(faces)] loop (lines 51-66): match the
    face, add the student to the [set], report the progress. *)
Fixpoint faces_loop (known : list embedding) (details : list student) (faces : list embedding)
    (i total : nat) (recognized : gset student) (progress : list Q)
    : result (gset student * list Q) :=
  match faces with
  | [] => Ok (recognized, progress)
  | face :: rest =>
      m <- match_face face known details ;;
      let recognized' :=
        match m with
        | Some st => {[ st ]} ∪ recognized
        | None => recognized
        end in
      faces_loop known details rest (S i) total recognized' (progress ++ [progress_value i total])
  end.

Section Session.
Context {Blob Img : Type} `{ImageCodec Blob Img} `{FaceAnalysis Img}
  `{OsListdir Blob} {SI : SetIter student}.

(** [mark_attendance]: the new file system, and the count of
    recognised students with the progress values shown, or the
    exception. *)
Definition mark_attendance (image : Blob) (now : datetime) (fs : fs_state Blob)
    : fs_state Blob * result (nat * list Q) :=
  match load_known_faces (known_faces fs) with
  | Err e => (fs, Err e)
  | Ok (known_embeddings, student_details) =>
      match imread image with
      | None => (fs, Err AttributeError)
      | Some img =>
          let faces := model_get img in
          match faces_loop known_embeddings student_details faces 0 (length faces) ∅ [] with
          | Err e => (fs, Err e)
          | Ok (recognized_students, progress) =>
              let '(att, r) := write_attendance now recognized_students (attendance fs) in
              (mk_fs (known_faces fs) att,
               rmap (fun _ => (size recognized_students, progress)) r)
          end
      end
  end.
End Session.

(** ** The loop over faces *)

(** The matches of the faces, in detection order. *)
Definition face_matches (known : list embedding) (details : list student)
    (faces : list embedding) (ms : list (option student)) : Prop :=
  Forall2 (fun face m => match_face face known details = Ok m) faces ms.

(** The loop adds exactly the matched students to the [set] and reports
    one progress value per face. *)
Lemma faces_loop_spec (known : list embedding) (details : list student)
    (faces : list embedding) (ms : list (option student)) :
  face_matches known details faces ms ->
  forall i total recognized progress,
  faces_loop known details faces i total recognized progress =
    Ok (list_to_set (somes ms) ∪ recognized,
        progress ++ map (fun j => progress_value j total) (seq i (length faces))).
Proof.
  induction 1 as [|face m faces ms Hm _ IH]; intros i total recognized progress; simpl.
  - f_equal. f_equal; [set_solver | by rewrite app_nil_r].
  - rewrite Hm. simpl. rewrite IH, <- app_assoc. simpl. f_equal. f_equal.
    destruct m as [st|]; simpl; set_solver.
Qed.

Lemma faces_loop_Err (known : list embedding) (details : list student) (faces : list embedding) :
  forall i total recognized progress e,
  faces_loop known details faces i total recognized progress = Err e ->
  exists face, face ∈ faces /\ match_face face known details = Err e.
Proof.
  induction faces as [|face rest IH]; intros i total recognized progress e H; simpl in H;
    [discriminate|].
  destruct (match_face face known details) as [m|e'] eqn:Hm; simpl in H.
  - apply IH in H as (face' & Hin & Hf). exists face'. split; [by apply elem_of_cons; right|done].
  - injection H as ->. exists face. split; [apply elem_of_cons; by left | done].
Qed.

Lemma face_matches_total (known : list embedding) (details : list student)
    (faces : list embedding) :
  (forall face, face ∈ faces -> is_ok (match_face face known details) = true) ->
  exists ms, face_matches known details faces ms.
Proof.
  induction faces as [|face rest IH]; intros Hok; [exists []; constructor|].
  destruct (match_face face known details) as [m|e] eqn:Hm.
  - destruct IH as [ms Hms]; [intros f Hf; apply Hok; by apply elem_of_cons; right|].
    exists (m :: ms). by constructor.
  - specialize (Hok face (proj2 (elem_of_cons _ _ _) (or_introl eq_refl))).
    by rewrite Hm in Hok.
Qed.

(** Every matched student is a roster student. *)
Lemma match_face_in (probe : embedding) (known : list embedding) (details : list student)
    (st : student) :
  match_face probe known details = Ok (Some st) -> st ∈ details.
Proof.
  intros H. destruct (match_face_above _ _ _ _ H) as (sims & n & s & v & _ & _ & Hn & _).
  by eapply list_elem_of_lookup_2.
Qed.

Lemma face_matches_in (known : list embedding) (details : list student)
    (faces : list embedding) (ms : list (option student)) (st : student) :
  face_matches known details faces ms -> st ∈ somes ms -> st ∈ details.
Proof.
  induction 1 as [|face m faces ms Hm _ IH]; simpl; [by intros ?%elem_of_nil|].
  destruct m as [st'|]; simpl; [|done].
  intros [->|Hin]%elem_of_cons; [by eapply match_face_in | by apply IH].
Qed.

Lemma faces_loop_Ok_inv (known : list embedding) (details : list student) (faces : list embedding) :
  forall i total recognized progress res,
  faces_loop known details faces i total recognized progress = Ok res ->
  exists ms, face_matches known details faces ms.
Proof.
  induction faces as [|face rest IH]; intros i total recognized progress res H;
    [exists []; constructor|].
  simpl in H. simpl_result. apply IH in H as [ms Hms]. exists (a :: ms). by constructor.
Qed.

Lemma size_list_to_set_le (l : list student) : size (list_to_set l : gset student) <= length l.
Proof.
  induction l as [|x l IH].
  { change (list_to_set [] : gset student) with (∅ : gset student). by rewrite size_empty. }
  change (list_to_set (x :: l) : gset student) with ({[x]} ∪ list_to_set l : gset student).
  rewrite size_union_alt, size_singleton. cbn [length].
  pose proof (subseteq_size (list_to_set l ∖ {[x]} : gset student) (list_to_set l)
                ltac:(set_solver)). lia.
Qed.


(** ** [mark_attendance] *)

Section SessionTheorems.
Context {Blob Img : Type} `{ImageCodec Blob Img} `{FaceAnalysis Img}
  `{OsListdir Blob} {SI : SetIter student}.

Lemma loaded_rolls_ok (dir : gmap string Blob) (known : list embedding) (details : list student) :
  load_known_faces dir = Ok (known, details) ->
  length known = length details /\ forall st, st ∈ details -> is_ok (roll_int st) = true.
Proof.
  intros Hl. destruct (load_known_faces_shape dir known details Hl) as [Hlen (ks & Hks & _)].
  split; [done|]. intros st Hst. apply list_elem_of_lookup_1 in Hst as [i Hi].
  destruct (Forall2_lookup_l _ _ _ _ _ Hks Hi) as (k & _ & Hk).
  unfold roll_int. by rewrite Hk.
Qed.

Lemma mark_attendance_run (image : Blob) (now : datetime) (fs : fs_state Blob)
    (known : list embedding) (details : list student) (img : Img) (ms : list (option student)) :
  load_known_faces (known_faces fs) = Ok (known, details) ->
  imread image = Some img ->
  face_matches known details (model_get img) ms ->
  exists ordered,
    ordered ≡ₚ elements (list_to_set (somes ms) : gset student) /\
    (exists ks, Forall2 (fun st k => roll_int st = Ok k) ordered ks /\ StronglySorted Z.le ks) /\
    mark_attendance image now fs =
      (mk_fs (known_faces fs)
         (<[attendance_filename now :=
             csv_file (header_row :: map (student_row (date_str now) (time_str now)) ordered)]>
            (attendance fs)),
       Ok (size (list_to_set (somes ms) : gset student),
           map (fun j => progress_value j (length (model_get img))) (seq 0 (length (model_get img))))).
Proof.
  intros Hl Hi Hms. set (S := list_to_set (somes ms) : gset student).
  destruct (loaded_rolls_ok _ _ _ Hl) as [_ Hrolls].
  assert (forall st, st ∈ S -> is_ok (roll_int st) = true) as HS.
  { intros st Hst. apply Hrolls. apply elem_of_list_to_set in Hst. by eapply face_matches_in. }
  destruct (attendance_rows_sorted now S HS) as (ordered & Hrows & Hperm & Hsorted).
  exists ordered. split; [done|]. split; [done|].
  unfold mark_attendance. rewrite Hl, Hi. cbv beta iota.
  rewrite (faces_loop_spec _ _ _ _ Hms 0 _ ∅ []). cbv beta iota.
  assert ((list_to_set (somes ms) ∪ ∅ : gset student) = S) as -> by set_solver.
  unfold write_attendance. rewrite Hrows. reflexivity.
Qed.

(** C1: The whole behaviour of a run whose roster loads, whose image
    decodes and whose faces all match without an exception: the set
    of recognised students is the set of matches, the file of the day
    is replaced by the header and one row per student sorted by roll,
    the count is the number of distinct students, the progress values
    are reported for every face, and the roster directory is not
    touched.  The writer never raises here: every roll in the roster
    was already parsed by the load. *)
Theorem mark_attendance_spec (image : Blob) (now : datetime) (fs : fs_state Blob)
    (known : list embedding) (details : list student) (img : Img) (ms : list (option student)) :
  load_known_faces (known_faces fs) = Ok (known, details) ->
  imread image = Some img ->
  face_matches known details (model_get img) ms ->
  exists ordered,
    ordered ≡ₚ elements (list_to_set (somes ms) : gset student) /\
    (exists ks, Forall2 (fun st k => roll_int st = Ok k) ordered ks /\ StronglySorted Z.le ks) /\
    mark_attendance image now fs =
      (mk_fs (known_faces fs)
         (<[attendance_filename now :=
             csv_file (header_row :: map (student_row (date_str now) (time_str now)) ordered)]>
            (attendance fs)),
       Ok (size (list_to_set (somes ms) : gset student),
           map (fun j => progress_value j (length (model_get img))) (seq 0 (length (model_get img))))).
Proof. intros; eapply mark_attendance_run; eassumption. Qed.

(** C17: A run that raises leaves both directories unchanged: no partial
    attendance file is ever written. *)
Theorem mark_attendance_error_unchanged (image : Blob) (now : datetime) (fs fs' : fs_state Blob)
    (e : py_exc) :
  mark_attendance image now fs = (fs', Err e) -> fs' = fs.
Proof.
  unfold mark_attendance.
  destruct (load_known_faces (known_faces fs)) as [[known details]|e'] eqn:Hl;
    [|by intros [= <- _]].
  destruct (imread image) as [img|] eqn:Hi; [|by intros [= <- _]].
  destruct (faces_loop _ _ _ _ _ _ _) as [[recognized progress]|e'] eqn:Hf;
    [|by intros [= <- _]].
  destruct (faces_loop_Ok_inv _ _ _ _ _ _ _ _ Hf) as [ms Hms].
  destruct (mark_attendance_run image now fs known details img ms Hl Hi Hms)
    as (ordered & _ & _ & Hrun).
  unfold mark_attendance in Hrun. rewrite Hl, Hi, Hf in Hrun. simpl in Hrun.
  rewrite Hrun. discriminate.
Qed.
(** An image in which the model finds no face is a valid run: it
    returns 0 and replaces the file of the day by the header row. *)
Theorem mark_attendance_no_faces (image : Blob) (now : datetime) (fs : fs_state Blob)
    (known : list embedding) (details : list student) (img : Img) :
  load_known_faces (known_faces fs) = Ok (known, details) ->
  imread image = Some img -> model_get img = [] ->
  mark_attendance image now fs =
    (mk_fs (known_faces fs) (<[attendance_filename now := csv_file [header_row]]> (attendance fs)),
     Ok (0, [])).
Proof.
  intros Hl Hi Hm.
  assert (face_matches known details (model_get img) []) as Hms by (rewrite Hm; constructor).
  destruct (mark_attendance_run image now fs known details img [] Hl Hi Hms)
    as (ordered & Hperm & _ & ->).
  simpl in Hperm. apply Permutation_nil_r in Hperm as ->. by rewrite Hm.
Qed.

(** C24: Running the session twice on the same image at the same time gives
    the same directories and the same result as running it once. *)
Theorem mark_attendance_idempotent (image : Blob) (now : datetime) (fs : fs_state Blob) :
  mark_attendance image now (mark_attendance image now fs).1 = mark_attendance image now fs.
Proof.
  unfold mark_attendance.
  destruct (load_known_faces (known_faces fs)) as [[known details]|e] eqn:Hl;
    cbn [fst known_faces]; [|by rewrite Hl].
  destruct (imread image) as [img|]; cbn [fst known_faces]; [|by rewrite Hl].
  destruct (faces_loop _ _ _ _ _ _ _) as [[recognized progress]|e] eqn:Hf;
    cbn [fst known_faces]; [|by rewrite Hl, Hf].
  unfold write_attendance. destruct (attendance_rows now recognized) as [rows r] eqn:Ha.
  cbn [fst known_faces attendance]. rewrite Hl, Hf, Ha. cbn [attendance].
  by rewrite insert_insert_eq.
Qed.

(** C23: The count is at most the number of faces in the picture and at most
    the number of roster entries. *)
Theorem mark_attendance_count_bounds (image : Blob) (now : datetime) (fs fs' : fs_state Blob)
    (n : nat) (progress : list Q) :
  mark_attendance image now fs = (fs', Ok (n, progress)) ->
  exists known details img, load_known_faces (known_faces fs) = Ok (known, details) /\
    imread image = Some img /\ n <= length (model_get img) /\ n <= length details.
Proof.
  intros Hrun.
  destruct (load_known_faces (known_faces fs)) as [[known details]|e] eqn:Hl;
    [|unfold mark_attendance in Hrun; rewrite Hl in Hrun; discriminate].
  destruct (imread image) as [img|] eqn:Hi;
    [|unfold mark_attendance in Hrun; rewrite Hl, Hi in Hrun; discriminate].
  destruct (faces_loop known details (model_get img) 0 (length (model_get img)) ∅ [])
    as [res|e] eqn:Hf;
    [|unfold mark_attendance in Hrun; rewrite Hl, Hi, Hf in Hrun; discriminate].
  destruct (faces_loop_Ok_inv _ _ _ _ _ _ _ _ Hf) as [ms Hms].
  destruct (mark_attendance_run image now fs known details img ms Hl Hi Hms)
    as (ordered & _ & _ & Hrun').
  rewrite Hrun' in Hrun. injection Hrun as _ <- _.
  exists known, details, img. split; [done|]. split; [done|]. split.
  - transitivity (length (somes ms)); [apply size_list_to_set_le|].
    rewrite (Forall2_length _ _ _ Hms). apply length_somes.
  - transitivity (size (list_to_set details : gset student)); [|apply size_list_to_set_le].
    apply subseteq_size. intros st Hst%elem_of_list_to_set.
    apply elem_of_list_to_set. by eapply face_matches_in.
Qed.

(** C16: A face whose embedding length differs from a roster embedding's
    aborts the whole run with [ValueError]: the other faces are not
    recorded and no file is written. *)
Theorem mark_attendance_dimension_mismatch (image : Blob) (now : datetime) (fs : fs_state Blob)
    (known : list embedding) (details : list student) (img : Img) (face k : embedding) :
  load_known_faces (known_faces fs) = Ok (known, details) ->
  imread image = Some img -> face ∈ model_get img -> k ∈ known -> length k <> length face ->
  mark_attendance image now fs = (fs, Err ValueError).
Proof.
  intros Hl Hi Hface Hk Hne.
  destruct (loaded_rolls_ok _ _ _ Hl) as [Hlen _].
  unfold mark_attendance. rewrite Hl, Hi. cbv beta iota.
  destruct (faces_loop _ _ _ _ _ _ _) as [res|e] eqn:Hf.
  - destruct (faces_loop_Ok_inv _ _ _ _ _ _ _ _ Hf) as [ms Hms].
    apply list_elem_of_lookup_1 in Hface as [j Hj].
    destruct (Forall2_lookup_l _ _ _ _ _ Hms Hj) as (m & _ & Hm).
    assert (match_face face known details = Err ValueError) as Herr
      by (apply match_face_raises; [done | split; [by exists k | done]]).
    congruence.
  - apply faces_loop_Err in Hf as (face' & _ & Hf).
    apply match_face_raises in Hf as [_ ->]; [done | done].
Qed.
End SessionTheorems.

(** ** A first run on a fresh installation *)

Section FirstRun.
Context {Blob Img : Type} `{ImageCodec Blob Img} `{FaceAnalysis Img}
  `{OsListdir Blob} {SI : SetIter student}.

Lemma face_matches_no_roster (faces : list embedding) :
  face_matches [] [] faces (replicate (length faces) None).
Proof. induction faces as [|f faces IH]; constructor; [reflexivity | exact IH]. Qed.

(** C31: Before anyone is enrolled ([makedirs] has just created an empty
    [known_faces]), a run on a picture that decodes recognises nobody,
    whatever faces it holds: it writes the day's file with the header
    row only, returns [0], and reports the progress of every face. *)
Theorem mark_attendance_first_run (image : Blob) (img : Img) (now : datetime)
    (att : option (gmap string string)) :
  imread image = Some img ->
  mark_attendance image now (startup None att) =
    (mk_fs ∅ (<[attendance_filename now := csv_file [header_row]]> (makedirs att)),
     Ok (0, map (fun j => progress_value j (length (model_get img))) (seq 0 (length (model_get img))))).
Proof.
  intros Hi.
  destruct (mark_attendance_run image now (startup None att) [] [] img
              (replicate (length (model_get img)) None) load_known_faces_empty Hi
              (face_matches_no_roster _)) as (ordered & Hperm & _ & ->).
  assert (somes (replicate (length (model_get img)) None : list (option student)) = []) as Hs
    by (induction (length (model_get img)); simpl; auto).
  rewrite Hs in Hperm |- *. cbn in Hperm. rewrite elements_empty in Hperm.
  symmetry in Hperm. apply Permutation_nil in Hperm as ->. reflexivity.
Qed.
End FirstRun.

(** ** A run under the spec's fixed dimension *)

Section SessionTyped.
Context {Blob Img : Type} `{ImageCodec Blob Img} `{FaceAnalysis Img}
  `{OsListdir Blob} {SI : SetIter student}.
Context (D : nat) `{!FixedDimension Img D}.

(** With a roster of dimension [D], no face of a picture raises in the
    matcher. *)
Lemma face_matches_typed (known : list embedding) (details : list student) (img : Img) :
  embeddings_dim D known -> length details = length known ->
  exists ms, face_matches known details (model_get img) ms.
Proof.
  intros Hk Hlen. apply face_matches_total. intros face Hf.
  destruct (match_face face known details) as [m|e] eqn:Hm; [done|].
  apply match_face_raises in Hm as [(k & Hk' & Hne) _]; [|done].
  exfalso. apply Hne. rewrite (model_get_dim img face Hf).
  unfold embeddings_dim in Hk. rewrite Forall_forall in Hk. by apply Hk.
Qed.

(** A run whose roster loads and whose picture decodes succeeds, with
    the matches of its faces. *)
Lemma mark_attendance_typed_Ok (image : Blob) (now : datetime) (fs : fs_state Blob)
    (known : list embedding) (details : list student) (img : Img) :
  load_known_faces (known_faces fs) = Ok (known, details) -> imread image = Some img ->
  exists ms, face_matches known details (model_get img) ms /\
    exists fs' ps, mark_attendance image now fs = (fs', Ok (size (list_to_set (somes ms) : gset student), ps)).
Proof.
  intros Hl Hi. destruct (load_known_faces_shape _ _ _ Hl) as [Hlen _].
  destruct (face_matches_typed known details img) as [ms Hms];
    [by eapply load_known_faces_typed | done |].
  exists ms. split; [done|].
  destruct (mark_attendance_run image now fs known details img ms Hl Hi Hms) as (? & _ & _ & ->).
  by do 2 eexists.
Qed.

(** A face of the picture that matches a student makes the count
    positive. *)
Lemma mark_attendance_typed_match (image : Blob) (now : datetime) (fs : fs_state Blob)
    (known : list embedding) (details : list student) (img : Img) (face : embedding) (st : student) :
  load_known_faces (known_faces fs) = Ok (known, details) -> imread image = Some img ->
  face ∈ model_get img -> match_face face known details = Ok (Some st) ->
  exists fs' k ps, mark_attendance image now fs = (fs', Ok (k, ps)) /\ (1 <= k)%nat.
Proof.
  intros Hl Hi Hf Hm.
  destruct (mark_attendance_typed_Ok image now fs known details img Hl Hi)
    as (ms & Hms & fs' & ps & Hrun).
  exists fs', (size (list_to_set (somes ms) : gset student)), ps. split; [done|].
  apply list_elem_of_lookup_1 in Hf as [i Hf].
  destruct (Forall2_lookup_l _ _ _ _ _ Hms Hf) as (m & Hmi & Hm').
  rewrite Hm in Hm'. injection Hm' as <-.
  assert (st ∈ (list_to_set (somes ms) : gset student)) as Hst.
  { apply elem_of_list_to_set, elem_of_somes. by eapply list_elem_of_lookup_2. }
  destruct (size (list_to_set (somes ms) : gset student)) eqn:Hs; [|lia].
  apply size_empty_inv in Hs. set_solver.
Qed.

(** C26: When the face model keeps the spec's promise of a fixed
    dimension, a run raises only in the roster load or on a picture
    that does not decode: no exception comes from the matcher, the
    [set] or the writer. *)
Theorem mark_attendance_errors_typed (image : Blob) (now : datetime) (fs : fs_state Blob) (e : py_exc) :
  (mark_attendance image now fs).2 = Err e ->
  load_known_faces (known_faces fs) = Err e \/ (is_ok (load_known_faces (known_faces fs)) = true /\
    imread image = None /\ e = AttributeError).
Proof.
  intros He. destruct (load_known_faces (known_faces fs)) as [[known details]|e'] eqn:Hl.
  - right. split; [done|]. destruct (imread image) as [img|] eqn:Hi.
    + destruct (mark_attendance_typed_Ok image now fs known details img Hl Hi)
        as (ms & _ & fs' & ps & Hrun). by rewrite Hrun in He.
    + unfold mark_attendance in He. rewrite Hl, Hi in He. simpl in He. by injection He.
  - left. unfold mark_attendance in He. rewrite Hl in He. simpl in He. by injection He as ->.
Qed.
End SessionTyped.

(** ** The progress bar *)

Lemma progress_value_eq (i total : nat) :
  (0 < total)%nat ->
  (progress_value i total == inject_Z (100 * Z.of_nat (S i)) / inject_Z (Z.of_nat total))%Q.
Proof.
  intros Ht. unfold progress_value. rewrite inject_Z_mult.
  field. intros E. unfold Qeq in E. simpl in E. lia.
Qed.

(** The progress values strictly increase along the faces. *)
Theorem progress_value_increasing (i j total : nat) :
  (0 < total)%nat -> (i < j)%nat -> (progress_value i total < progress_value j total)%Q.
Proof.
  intros Ht Hij. rewrite !progress_value_eq by done.
  apply Qmult_lt_r.
  - apply Qinv_lt_0_compat. change 0%Q with (inject_Z 0). rewrite <- Zlt_Qlt. lia.
  - rewrite <- Zlt_Qlt. lia.
Qed.

(** After the last face the bar shows exactly 100. *)
Theorem progress_value_last (total : nat) :
  (0 < total)%nat -> (progress_value (total - 1) total == 100)%Q.
Proof.
  intros Ht. unfold progress_value. replace (S (total - 1)) with total by lia.
  field. intros E. unfold Qeq in E. simpl in E. lia.
Qed.

Section SessionFiles.
Context {Blob Img : Type} `{ImageCodec Blob Img} `{FaceAnalysis Img}
  `{OsListdir Blob} {SI : SetIter student}.

(** A session only writes the [Attendance] directory. *)
Lemma mark_attendance_known (image : Blob) (now : datetime) (fs : fs_state Blob) :
  known_faces (mark_attendance image now fs).1 = known_faces fs.
Proof.
  unfold mark_attendance.
  destruct (load_known_faces _) as [[known details]|e]; [|done].
  destruct (imread image); [|done]. destruct (faces_loop _ _ _ _ _ _ _) as [[rec ps]|e]; [|done].
  by destruct (write_attendance _ _ _).
Qed.
End SessionFiles.

Section SessionFile.
Context {Blob Img : Type} `{ImageCodec Blob Img} `{FaceAnalysis Img}
  `{OsListdir Blob} {SI : SetIter student}.

End SessionFile.
