(* ===== verification/Enroll.v ===== *)
(** Enrolment: the file-system effect of [add_face] (main.py lines
    113-117).  The picture chosen by the user is decoded with
    [cv2.imread] and written with [cv2.imwrite] to
    [known_faces/{name}_{roll}.jpg]; [cv2.imwrite] of an image that did
    not decode ([None]) raises, and [cv2.imwrite] to a path with a
    ['/'] in the file name writes nothing and returns [False], which
    the code ignores.  Nothing checks the name, the roll or the number
    of faces in the picture.

    The theorems: a save touches no other file and never removes one; a
    well-formed enrolment (no underscore or slash in the name and roll)
    is seen by the next roster load.  The consequences for the window
    (the success box shown for a save that wrote nothing, or for a file
    name that breaks every later load) are in [Gui]. *)

From Stdlib Require Import ZArith Lia Ascii.
From stdpp Require Import base list gmap sets strings.
From S2P Require Import Prelude PyStr PySorted Score Provider Roster.

Section Enroll.
Context {Blob Img : Type} `{ImageCodec Blob Img}.

(** [img_cv = cv2.imread(file_path); cv2.imwrite(save_path, img_cv)]
    with [save_path = os.path.join(KNOWN_FACES_DIR, f"{name}_{roll}.jpg")].
    When the file name holds a ['/'], [save_path] names a file in a
    subdirectory of [known_faces], which holds only pictures, or (for a
    name starting with ['/']) a file outside it: [cv2.imwrite] returns
    [False] without raising, and nothing is added to [known_faces]. *)
Definition save_face (name roll : string) (source : Blob) (dir : gmap string Blob)
    : result (gmap string Blob) :=
  match imread source with
  | None => Err CvError
  | Some img_cv =>
      if str_mem "/"%char (face_filename name roll) then Ok dir
      else Ok (<[face_filename name roll := imwrite_jpg img_cv]> dir)
  end.

(** Only the name and the roll can bring a ['/'] into the file name. *)
Lemma face_filename_slash (name roll : string) :
  str_mem "/"%char (face_filename name roll) = str_mem "/"%char name || str_mem "/"%char roll.
Proof.
  unfold face_filename. rewrite !str_mem_app. simpl.
  destruct (str_mem _ name), (str_mem _ roll); reflexivity.
Qed.

Lemma save_face_Ok (name roll : string) (source : Blob) (dir dir' : gmap string Blob) :
  str_mem "/"%char name = false -> str_mem "/"%char roll = false ->
  save_face name roll source dir = Ok dir' ->
  exists img, imread source = Some img /\
    dir' = <[face_filename name roll := imwrite_jpg img]> dir.
Proof.
  intros Sn Sr. unfold save_face. rewrite face_filename_slash, Sn, Sr.
  destruct (imread source) as [img|]; [|discriminate].
  intros [= <-]. by exists img.
Qed.

Lemma save_face_decoded (name roll : string) (source : Blob) (dir : gmap string Blob) (img : Img) :
  str_mem "/"%char name = false -> str_mem "/"%char roll = false -> imread source = Some img ->
  save_face name roll source dir = Ok (<[face_filename name roll := imwrite_jpg img]> dir).
Proof. intros Sn Sr Hi. unfold save_face. by rewrite Hi, face_filename_slash, Sn, Sr. Qed.

(** A name or roll holding ['/']: [cv2.imwrite] fails silently and the
    directory is unchanged. *)
Lemma save_face_slash (name roll : string) (source : Blob) (dir dir' : gmap string Blob) :
  str_mem "/"%char name || str_mem "/"%char roll = true ->
  save_face name roll source dir = Ok dir' -> dir' = dir.
Proof.
  intros Hs. unfold save_face. rewrite face_filename_slash, Hs.
  destruct (imread source); [by intros [= <-] | discriminate].
Qed.

Lemma save_face_other (name roll f : string) (source : Blob) (dir dir' : gmap string Blob) :
  save_face name roll source dir = Ok dir' -> f <> face_filename name roll ->
  dir' !! f = dir !! f.
Proof.
  unfold save_face. intros Hs Hf. destruct (imread source); [|discriminate].
  destruct (str_mem _ _); injection Hs as <-; [done|]. by rewrite lookup_insert_ne.
Qed.

(** A save never removes a file. *)
Lemma save_face_dom (name roll : string) (source : Blob) (dir dir' : gmap string Blob) :
  save_face name roll source dir = Ok dir' -> dom dir ⊆ dom dir'.
Proof.
  unfold save_face. intros Hs. destruct (imread source); [|discriminate].
  destruct (str_mem _ _); injection Hs as <-; [done|]. rewrite dom_insert_L. set_solver.
Qed.
End Enroll.

Section EnrollLoad.
Context {Blob Img : Type} `{ImageCodec Blob Img} `{FaceAnalysis Img} `{OsListdir Blob}.

(** C22: A well-formed enrolment takes effect on the next load: when the
    saved JPEG decodes to a picture with a face and the load succeeds,
    the roster holds [(name, roll)] with that face's embedding. *)
Theorem save_face_then_load (name roll : string) (source : Blob) (dir dir' : gmap string Blob)
    (img img' : Img) (face : embedding) (faces : list embedding)
    (embs : list embedding) (sts : list student) :
  str_mem "_"%char name = false -> str_mem "_"%char roll = false ->
  str_mem "/"%char name = false -> str_mem "/"%char roll = false ->
  save_face name roll source dir = Ok dir' ->
  imread source = Some img -> imread (imwrite_jpg img) = Some img' ->
  model_get img' = face :: faces ->
  load_known_faces dir' = Ok (embs, sts) ->
  exists i, embs !! i = Some face /\ sts !! i = Some (name, roll).
Proof.
  intros Hn Hr Sn Sr Hs Hi Hi' Hm Hl.
  destruct (save_face_Ok _ _ _ _ _ Sn Sr Hs) as (img0 & Hi0 & ->).
  rewrite Hi in Hi0. injection Hi0 as <-.
  eapply load_known_faces_member; [done..| |done|done|done].
  apply lookup_insert_eq.
Qed.

End EnrollLoad.
