(* ===== verification/Gui.v ===== *)
(** The Tkinter front end as a state machine (main.py lines 83-199):
    the handlers [browse_image] (Upload Photo), [add_face] (Add New
    Face) and [reset_gui].  The state is the file system and the widget
    state that the handlers read and write: whether a picture is shown,
    the progress bar, the label, the [state] of the two buttons, and the
    message boxes shown so far.  Dialog answers and the clock are the
    inputs of an event.  A click on a disabled button does nothing.
    Here each command runs to its end before the next click; the
    [update()] calls inside the commands, at which Tk may run another
    command nested, are modelled in [Reentrant].

    The theorems: the two buttons always have the same state; a run of
    [browse_image] with a file always ends with both buttons enabled and
    the bar at 0 ([finally: reset_gui()]); but [browse_image] disables
    both buttons before the file dialog and does not enable them again
    when the dialog is cancelled, and from that state no event changes
    anything any more: the application is stuck.  [add_face] with a
    missing name or roll only shows an error; a name or roll with a
    ['/'] shows the success box and saves nothing; a roll that is not an
    integer shows the success box and makes every later upload fail.
    The handlers compose
    with the rest of the program: enrolling a student and then uploading
    a photo with that face reports a count of at least one. *)

From Stdlib Require Import ZArith Lia QArith Ascii.
From stdpp Require Import base list gmap sets strings.
From S2P Require Import Prelude PyStr Score Matcher Provider Roster Format Writer Session Enroll.



(** The message boxes the handlers show. *)
Inductive message : Type :=
  | AttendanceMarked (count : nat)        (** "Attendance marked for {count} student(s)." *)
  | ProcessingFailed (e : py_exc)         (** "Failed to process image: {e}" *)
  | FaceAdded (name roll : string)        (** "Face of {name} (Roll No: {roll}) added successfully." *)
  | MissingInput.                         (** "Please provide both name and roll number." *)

Record gui := mk_gui {
  image_shown : bool;
  progress : Q;
  label_text : string;
  upload_enabled : bool;
  add_face_enabled : bool;
  shown : list message
}.

Record world (Blob : Type) := mk_world { files : fs_state Blob; ui : gui }.
Arguments mk_world {Blob} _ _.
Arguments files {Blob} _.
Arguments ui {Blob} _.

Definition LABEL_TEXT : string := "Upload class photo for attendance"%string.

(** The widgets as lines 137-219 create them. *)
Definition initial_gui : gui := mk_gui false 0 LABEL_TEXT true true [].

(** [reset_gui()] (lines 128-134). *)
Definition reset_gui (g : gui) : gui := mk_gui false 0 LABEL_TEXT true true (shown g).

Definition set_buttons (enabled : bool) (g : gui) : gui :=
  mk_gui (image_shown g) (progress g) (label_text g) enabled enabled (shown g).

Definition set_image (b : bool) (g : gui) : gui :=
  mk_gui b (progress g) (label_text g) (upload_enabled g) (add_face_enabled g) (shown g).

Definition set_progress (p : Q) (g : gui) : gui :=
  mk_gui (image_shown g) p (label_text g) (upload_enabled g) (add_face_enabled g) (shown g).

Definition show (m : message) (g : gui) : gui :=
  mk_gui (image_shown g) (progress g) (label_text g) (upload_enabled g) (add_face_enabled g)
    (shown g ++ [m]).

Definition last_progress (p : Q) (ps : list Q) : Q := default p (last ps).

Section Handlers.
Context {Blob Img : Type} `{ImageCodec Blob Img} `{FaceAnalysis Img}
  `{OsListdir Blob} {SI : SetIter student}.

(** [browse_image()] (lines 170-199): both buttons disabled, then the
    file dialog; with a file, the [try] block (PIL opens the picture,
    [mark_attendance] runs) and [finally: reset_gui()].  An exception
    of [Image.open] is an [OSError]. *)
Definition browse_image (file : option Blob) (now : datetime) (w : world Blob) : world Blob :=
  let g1 := set_buttons false (ui w) in
  match file with
  | None => mk_world (files w) g1
  | Some b =>
      let g2 := set_image false g1 in
      if pil_open b then
        let g3 := set_progress 0 (set_image true g2) in
        let '(fs', r) := mark_attendance b now (files w) in
        match r with
        | Ok (count, ps) =>
            mk_world fs' (reset_gui (show (AttendanceMarked count) (set_progress (last_progress 0 ps) g3)))
        | Err e => mk_world fs' (reset_gui (show (ProcessingFailed e) g3))
        end
      else mk_world (files w) (reset_gui (show (ProcessingFailed OSError) g2))
  end.

(** [add_face(progress_bar)] (lines 83-125): [if name and roll] (a
    cancelled dialog gives [None], an empty answer is false), the file
    dialog, then the [try] block: PIL opens the picture, the bar goes
    to 100 in steps of 10, the picture is saved, and [reset_gui()] in
    both the success and the [except] branch. *)
Definition add_face (name roll : option string) (file : option Blob) (w : world Blob) : world Blob :=
  match name, roll with
  | Some n, Some r =>
      if bool_decide (n <> EmptyString) && bool_decide (r <> EmptyString) then
        match file with
        | None => w
        | Some b =>
            let g1 := set_image false (ui w) in
            if pil_open b then
              let g2 := set_progress 100 (set_image true g1) in
              match save_face n r b (known_faces (files w)) with
              | Ok dir' =>
                  mk_world (mk_fs dir' (attendance (files w))) (reset_gui (show (FaceAdded n r) g2))
              | Err e => mk_world (files w) (reset_gui (show (ProcessingFailed e) g2))
              end
            else mk_world (files w) (reset_gui (show (ProcessingFailed OSError) g1))
        end
      else mk_world (files w) (show MissingInput (ui w))
  | _, _ => mk_world (files w) (show MissingInput (ui w))
  end.

(** A click with the answers of the dialogs it opens. *)
Inductive event : Type :=
  | ClickUpload (file : option Blob) (now : datetime)
  | ClickAddFace (name roll : option string) (file : option Blob).

(** A disabled button ignores clicks. *)
Definition handle (ev : event) (w : world Blob) : world Blob :=
  match ev with
  | ClickUpload file now => if upload_enabled (ui w) then browse_image file now w else w
  | ClickAddFace n r file => if add_face_enabled (ui w) then add_face n r file w else w
  end.

Inductive step : world Blob -> world Blob -> Prop :=
  | step_event ev w : step w (handle ev w).

Inductive steps : world Blob -> world Blob -> Prop :=
  | steps_refl w : steps w w
  | steps_trans w1 w2 w3 : step w1 w2 -> steps w2 w3 -> steps w1 w3.
End Handlers.

(** ** Properties *)

Definition buttons_agree {Blob : Type} (w : world Blob) : Prop :=
  upload_enabled (ui w) = add_face_enabled (ui w).

Definition initial_world {Blob : Type} (fs : fs_state Blob) : world Blob := mk_world fs initial_gui.

Create HintDb gui.

Lemma reset_gui_agree (g : gui) : upload_enabled (reset_gui g) = add_face_enabled (reset_gui g).
Proof. reflexivity. Qed.

Lemma show_agree (m : message) (g : gui) :
  upload_enabled g = add_face_enabled g -> upload_enabled (show m g) = add_face_enabled (show m g).
Proof. done. Qed.

#[export] Hint Resolve reset_gui_agree show_agree : gui.

Section GuiTheorems.
Context {Blob Img : Type} `{ImageCodec Blob Img} `{FaceAnalysis Img}
  `{OsListdir Blob} {SI : SetIter student}.

Lemma browse_image_agree (file : option Blob) (now : datetime) (w : world Blob) :
  buttons_agree (browse_image file now w).
Proof.
  unfold buttons_agree, browse_image.
  destruct file as [b|]; [|done]. destruct (pil_open b); [|done].
  destruct (mark_attendance b now (files w)) as [fs' [[c ps]|e]]; done.
Qed.

Lemma add_face_agree (name roll : option string) (file : option Blob) (w : world Blob) :
  buttons_agree w -> buttons_agree (add_face name roll file w).
Proof.
  unfold buttons_agree, add_face. intros Hw.
  destruct name as [n|], roll as [r|]; simpl; auto with gui.
  destruct (_ && _); simpl; [|auto with gui].
  destruct file as [b|]; [|done]. destruct (pil_open b); [|done].
  destruct (save_face n r b _); done.
Qed.

Lemma handle_agree (ev : event) (w : world Blob) :
  buttons_agree w -> buttons_agree (handle ev w).
Proof.
  intros Hw. destruct ev; simpl.
  - destruct (upload_enabled (ui w)); [apply browse_image_agree | done].
  - destruct (add_face_enabled (ui w)); [by apply add_face_agree | done].
Qed.

Lemma steps_ind_inv (P : world Blob -> Prop) (w w' : world Blob) :
  (forall ev w, P w -> P (handle ev w)) -> steps w w' -> P w -> P w'.
Proof. intros Hp Hs. induction Hs as [|w1 w2 w3 [ev]]; auto. Qed.

(** With both buttons disabled no click does anything. *)
Lemma disabled_handle (ev : event) (w : world Blob) :
  upload_enabled (ui w) = false -> add_face_enabled (ui w) = false -> handle ev w = w.
Proof. intros Hu Ha. destruct ev; simpl; by rewrite ?Hu, ?Ha. Qed.

Lemma disabled_steps (w w' : world Blob) :
  upload_enabled (ui w) = false -> add_face_enabled (ui w) = false -> steps w w' -> w' = w.
Proof.
  intros Hu Ha Hs. revert Hu Ha. induction Hs as [|w1 w2 w3 [ev]]; [done|].
  intros Hu Ha. rewrite disabled_handle in IHHs by done. auto.
Qed.

Lemma browse_image_some_ui (b : Blob) (now : datetime) (w : world Blob) :
  exists g, ui (browse_image (Some b) now w) = reset_gui g.
Proof.
  unfold browse_image. destruct (pil_open b); [|by eexists].
  destruct (mark_attendance b now (files w)) as [fs' [[c ps]|e]]; by eexists.
Qed.

(** In every state reachable from the start-up window
    by clicks, the two buttons are both enabled or both disabled. *)
Theorem reachable_buttons_agree (fs : fs_state Blob) (w : world Blob) :
  steps (initial_world fs) w -> buttons_agree w.
Proof.
  intros Hs. apply (steps_ind_inv buttons_agree _ _ handle_agree Hs). done.
Qed.

(** C8: Cancelling the file dialog of Upload Photo leaves both buttons
    disabled, and from there no sequence of clicks changes the state:
    the window is stuck until it is closed. *)
Theorem browse_image_cancel_stuck (now : datetime) (w : world Blob) :
  upload_enabled (ui w) = true ->
  let w' := handle (ClickUpload None now) w in
  upload_enabled (ui w') = false /\ add_face_enabled (ui w') = false /\
  forall w'', steps w' w'' -> w'' = w'.
Proof.
  intros Hu w'. subst w'. simpl. rewrite Hu. simpl.
  split; [done|]. split; [done|]. intros w''. by apply disabled_steps.
Qed.

(** C20: Upload Photo with a chosen file: whatever happens in the [try]
    block, [finally: reset_gui()] enables both buttons, clears the
    picture and sets the bar to 0; exactly one message box is shown,
    reporting the count of [mark_attendance] or its exception (an
    [OSError] when PIL does not open the file), and the file system is
    the one [mark_attendance] leaves. *)
Theorem browse_image_spec (b : Blob) (now : datetime) (w : world Blob) :
  let w' := browse_image (Some b) now w in
  upload_enabled (ui w') = true /\ add_face_enabled (ui w') = true /\
  image_shown (ui w') = false /\ progress (ui w') = 0%Q /\
  (files w', shown (ui w')) =
    if pil_open b then
      let '(fs', r) := mark_attendance b now (files w) in
      (fs', shown (ui w) ++ [match r with
                             | Ok (count, _) => AttendanceMarked count
                             | Err e => ProcessingFailed e
                             end])
    else (files w, shown (ui w) ++ [ProcessingFailed OSError]).
Proof.
  intros w'. subst w'. unfold browse_image.
  destruct (pil_open b); [|done].
  destruct (mark_attendance b now (files w)) as [fs' [[c ps]|e]]; done.
Qed.

(** Add New Face without a name or a roll (a cancelled or empty
    answer) only shows the error box. *)
Theorem add_face_missing (name roll : option string) (file : option Blob) (w : world Blob) :
  (forall n r, name = Some n -> roll = Some r -> n = EmptyString \/ r = EmptyString) ->
  add_face name roll file w = mk_world (files w) (show MissingInput (ui w)).
Proof.
  intros Hm. unfold add_face.
  destruct name as [n|], roll as [r|]; try done.
  destruct (Hm n r eq_refl eq_refl) as [->| ->]; simpl;
    rewrite ?andb_false_r; done.
Qed.

(** Add New Face with a name, a roll and a picture PIL opens: the
    picture is saved by [save_face] when it decodes (as
    [known_faces/{name}_{roll}.jpg], or nowhere when the name or roll
    holds a ['/']), the success box is shown and the window is reset;
    when it does not decode nothing is saved and the error box is
    shown. *)
Theorem add_face_saves (n r : string) (b : Blob) (w : world Blob) :
  n <> EmptyString -> r <> EmptyString -> pil_open b = true ->
  let w' := add_face (Some n) (Some r) (Some b) w in
  ui w' = reset_gui (ui w') /\
  match save_face n r b (known_faces (files w)) with
  | Ok dir' => files w' = mk_fs dir' (attendance (files w)) /\
               shown (ui w') = shown (ui w) ++ [FaceAdded n r]
  | Err e => files w' = files w /\ shown (ui w') = shown (ui w) ++ [ProcessingFailed e]
  end.
Proof.
  intros Hn Hr Hp w'. subst w'. unfold add_face.
  rewrite (bool_decide_eq_true_2 _ Hn), (bool_decide_eq_true_2 _ Hr), Hp. simpl.
  destruct (save_face n r b _); done.
Qed.
(** An Add New Face that gets past the name check. *)
Lemma add_face_valid (n r : string) (b : Blob) (w : world Blob) :
  n <> EmptyString -> r <> EmptyString -> pil_open b = true ->
  add_face (Some n) (Some r) (Some b) w =
    match save_face n r b (known_faces (files w)) with
    | Ok dir' => mk_world (mk_fs dir' (attendance (files w)))
                   (reset_gui (show (FaceAdded n r) (set_progress 100 (set_image true (set_image false (ui w))))))
    | Err e => mk_world (files w)
                 (reset_gui (show (ProcessingFailed e) (set_progress 100 (set_image true (set_image false (ui w))))))
    end.
Proof.
  intros Hn Hr Hp. unfold add_face.
  by rewrite (bool_decide_eq_true_2 _ Hn), (bool_decide_eq_true_2 _ Hr), Hp.
Qed.

(** No click removes a picture from [known_faces]. *)
Lemma handle_known_grows (ev : event) (w : world Blob) :
  dom (known_faces (files w)) ⊆ dom (known_faces (files (handle ev w))).
Proof.
  destruct ev as [file now|name roll file]; simpl.
  - destruct (upload_enabled _); [|done]. unfold browse_image.
    destruct file as [b|]; [|done]. destruct (pil_open b); [|done].
    pose proof (mark_attendance_known b now (files w)) as Hk.
    destruct (mark_attendance b now (files w)) as [fs' [[c ps]|e]]; simpl in *; by rewrite Hk.
  - destruct (add_face_enabled _); [|done]. unfold add_face.
    destruct name as [n|], roll as [r|]; try done. destruct (_ && _); [|done].
    destruct file as [b|]; [|done]. destruct (pil_open b); [|done].
    destruct (save_face n r b _) as [dir'|e] eqn:Hs; [|done]. simpl. by eapply save_face_dom.
Qed.

(** C14: Add New Face checks neither the roll nor the name: enrolling a
    student whose file name has no integer after its first underscore
    (a roll such as "A12", or a name holding an underscore) shows the
    success box, and from then on, whatever is clicked, every Upload
    Photo with a picture PIL opens shows the load's exception and
    writes nothing. *)
Theorem enrol_breaks_attendance (n r : string) (b : Blob) (img : Img) (w : world Blob) :
  add_face_enabled (ui w) = true -> n <> EmptyString -> r <> EmptyString ->
  str_mem "/"%char n = false -> str_mem "/"%char r = false ->
  pil_open b = true -> imread b = Some img -> is_ok (roll_key (face_filename n r)) = false ->
  let w1 := handle (ClickAddFace (Some n) (Some r) (Some b)) w in
  shown (ui w1) = shown (ui w) ++ [FaceAdded n r] /\
  forall (w2 : world Blob) (photo : Blob) (now : datetime), steps w1 w2 -> pil_open photo = true ->
  exists e, browse_image (Some photo) now w2 =
    mk_world (files w2) (reset_gui (show (ProcessingFailed e) (set_progress 0 (set_image true
      (set_image false (set_buttons false (ui w2))))))).
Proof.
  intros Ha Hn Hr Sn Sr Hp Hi Hk w1.
  assert (files w1 = mk_fs (<[face_filename n r := imwrite_jpg img]> (known_faces (files w)))
                           (attendance (files w)) /\
          shown (ui w1) = shown (ui w) ++ [FaceAdded n r]) as [Hf1 Hs1].
  { subst w1. unfold handle. rewrite Ha, add_face_valid, (save_face_decoded _ _ _ _ img) by done. done. }
  split; [exact Hs1|]. intros w2 photo now Hsteps Hpp.
  assert (face_filename n r ∈ dom (known_faces (files w2))) as Hin.
  { apply (steps_ind_inv (fun w => face_filename n r ∈ dom (known_faces (files w))) w1 w2);
      [intros ev w' Hw'; by apply handle_known_grows | exact Hsteps |].
    rewrite Hf1. simpl. rewrite dom_insert_L. set_solver. }
  destruct (load_known_faces_unparsed _ _ Hin Hk) as [e He].
  exists e. unfold browse_image. rewrite Hpp. unfold mark_attendance. by rewrite He.
Qed.

End GuiTheorems.

(** ** Enrolment followed by attendance *)

Section EnrolThenUpload.
Context {Blob Img : Type} `{ImageCodec Blob Img} `{FaceAnalysis Img}
  `{OsListdir Blob} {SI : SetIter student}.
Context (D : nat) `{!FixedDimension Img D}.

(** C28: The two handlers compose: Add New Face with a well-formed name
    and roll and a picture with a face, then Upload Photo with a class
    photo in which that face appears, shows the enrolment message and
    then an attendance count of at least one (when the roster loads and
    the face model keeps the spec's fixed dimension). *)
Theorem enrol_then_upload (n r : string) (b photo : Blob) (now : datetime) (w : world Blob)
    (img img' pimg : Img) (face : embedding) (faces known : list embedding)
    (details : list student) :
  add_face_enabled (ui w) = true -> n <> EmptyString -> r <> EmptyString ->
  str_mem "_"%char n = false -> str_mem "_"%char r = false ->
  str_mem "/"%char n = false -> str_mem "/"%char r = false ->
  pil_open b = true -> imread b = Some img -> imread (imwrite_jpg img) = Some img' ->
  model_get img' = face :: faces -> norm2 face <> 0%Z ->
  load_known_faces (<[face_filename n r := imwrite_jpg img]> (known_faces (files w))) =
    Ok (known, details) ->
  pil_open photo = true -> imread photo = Some pimg -> face ∈ model_get pimg ->
  let w1 := handle (ClickAddFace (Some n) (Some r) (Some b)) w in
  let w2 := handle (ClickUpload (Some photo) now) w1 in
  exists k, shown (ui w2) = shown (ui w) ++ [FaceAdded n r; AttendanceMarked k] /\ (1 <= k)%nat.
Proof.
  intros Hen Hn Hr Un Ur Sn Sr Hpb Hib Hij Hm Hnz Hl Hpp Hip Hf w1 w2.
  assert (w1 = mk_world (mk_fs (<[face_filename n r := imwrite_jpg img]> (known_faces (files w)))
                               (attendance (files w)))
             (reset_gui (show (FaceAdded n r) (set_progress 100 (set_image true (set_image false (ui w)))))))
    as Hw1.
  { subst w1. simpl. rewrite Hen. unfold add_face.
    rewrite (bool_decide_eq_true_2 _ Hn), (bool_decide_eq_true_2 _ Hr), Hpb.
    by rewrite (save_face_decoded n r b _ img Sn Sr Hib). }
  (* the enrolled face is in the loaded roster, and it matches *)
  destruct (load_known_faces_member _ n r _ img' face faces known details Un Ur Sn Sr
              (lookup_insert_eq _ _ _) Hij Hm Hl) as (j & Hj & _).
  destruct (load_known_faces_shape _ _ _ Hl) as [Hlen _].
  assert (Forall (fun k => length k = length face) known) as Hdim.
  { pose proof (load_known_faces_typed D _ _ _ Hl) as Hk. unfold embeddings_dim in Hk.
    rewrite (model_get_dim img' face) by (rewrite Hm; apply elem_of_cons; by left).
    exact Hk. }
  destruct (match_face_equal_probe face known details j Hj Hnz Hdim (eq_sym Hlen))
    as (i & st & ? & ? & Hmf & _).
  destruct (mark_attendance_typed_match D photo now (files w1) known details pimg face st)
    as (fs' & k & ps & Hrun & Hk); [by rewrite Hw1 | done | done | done |].
  exists k. split; [|done].
  subst w2. rewrite Hw1 in Hrun |- *. simpl. unfold browse_image. rewrite Hpp. simpl in Hrun.
  rewrite Hrun. simpl. by rewrite <- app_assoc.
Qed.
End EnrolThenUpload.
