(* ===== verification/Reentrant.v ===== *)
(** Tk's event loop and the re-entrant handlers (main.py lines 42-80,
    83-125, 170-221).

    A Tk command runs inside [root.mainloop()]; when it calls
    [root.update()] (line 110) or [progress_bar.update()] (line 66), Tk
    processes the pending events there, and a click on an enabled
    button runs that button's whole command, nested, before [update()]
    returns.  [update_idletasks()] (lines 93, 105, 134, 173, 180, 192)
    only redraws, [root.after(50)] (line 111) only sleeps, and the
    message boxes and dialogs are modal: none of them runs a command.

    A handler is a resumption ([proc]): it ends with a value and the
    window and file system, or it yields inside [update()] and
    continues with the state Tk gives back ([yield w k]).  The event
    loop ([tk_step]) keeps the stack of handlers suspended in
    [update()]: at any point a click runs a new handler on top, or the
    innermost [update()] returns.

    The theorems: run without nested clicks, the re-entrant handlers are
    the atomic ones of [Gui] (so every atomic run is a run of the event
    loop); the two buttons agree in every state of the event loop;
    [browse_image] disables both buttons before it yields, so a click
    during attendance has no effect and every run passes through the
    state the atomic model computes; [add_face] leaves them enabled
    through its ten [root.update()] calls, so an upload clicked there is
    marked against the roster that does not yet hold the new face, and
    its [reset_gui] clears the enrolment's picture while the enrolment
    is still running; an upload dialog cancelled there freezes the
    window only until the enrolment ends, whose [reset_gui] enables the
    buttons again (at the top level, the freeze of [Gui] is for ever). *)

From Stdlib Require Import ZArith Lia QArith.
From stdpp Require Import base list gmap sets strings relations.
From S2P Require Import Prelude PyStr Score Matcher Provider Roster Format Writer Session Enroll Gui.

(** ** Resumptions *)

(** A run of a handler from a state of type [W]: finished with a value,
    or suspended in [update()] with its continuation. *)
Inductive proc (W A : Type) : Type :=
  | done (x : A) (w : W)
  | yield (w : W) (k : W -> proc W A).
Arguments done {W A} _ _.
Arguments yield {W A} _ _.

(** Handler code: a state-passing function into resumptions. *)
Definition M (W A : Type) : Type := W -> proc W A.

Fixpoint pbind {W A B : Type} (p : proc W A) (f : A -> M W B) : proc W B :=
  match p with
  | done x w => f x w
  | yield w k => yield w (fun w' => pbind (k w') f)
  end.

Definition mret {W A : Type} (x : A) : M W A := done x.
Definition mbind {W A B : Type} (m : M W A) (f : A -> M W B) : M W B := fun w => pbind (m w) f.
Definition get {W : Type} : M W W := fun w => done w w.
Definition put {W : Type} (w : W) : M W unit := fun _ => done tt w.

(** [root.update()] / [progress_bar.update()]: hand control to Tk. *)
Definition update {W : Type} : M W unit := fun w => yield w (done tt).

Declare Scope tk_scope.
Delimit Scope tk_scope with tk.
Notation "'do' x <- c1 ; c2" := (mbind c1 (fun x => c2))
  (at level 60, x name, c1 at next level, right associativity) : tk_scope.

(** The run of a handler when no event arrives during its [update()]
    calls: each continuation is resumed with the state it yielded. *)
Fixpoint run_alone {W A : Type} (p : proc W A) : A * W :=
  match p with
  | done x w => (x, w)
  | yield w k => run_alone (k w)
  end.

(** [sat Y G Q p]: every state in which [p] yields satisfies [Y], [p]
    goes on from every state that the rest of the program may leave
    there ([G], the rely), and it ends in a state satisfying [Q]. *)
Inductive sat {W A : Type} (Y : W -> Prop) (G : W -> W -> Prop) (Q : A -> W -> Prop)
    : proc W A -> Prop :=
  | sat_done x w : Q x w -> sat Y G Q (done x w)
  | sat_yield w k : Y w -> (forall w', G w w' -> sat Y G Q (k w')) -> sat Y G Q (yield w k).

(** [p'] is [p] resumed, each time, with the state it yielded. *)
Inductive ptail {W A : Type} : proc W A -> proc W A -> Prop :=
  | ptail_refl p : ptail p p
  | ptail_yield p w k : ptail p (k w) -> ptail p (yield w k).

Create HintDb tk.
#[export] Hint Constructors sat ptail : tk.

Section ResumptionLemmas.
Context {W : Type}.

Lemma run_alone_pbind {A B : Type} (p : proc W A) (f : A -> M W B) :
  run_alone (pbind p f) = run_alone (f (run_alone p).1 (run_alone p).2).
Proof. induction p as [x w|w k IH]; simpl; auto. Qed.

Lemma sat_pbind {A B : Type} (Y : W -> Prop) (G : W -> W -> Prop) (Q : A -> W -> Prop)
    (R : B -> W -> Prop) (p : proc W A) (f : A -> M W B) :
  sat Y G Q p -> (forall x w, Q x w -> sat Y G R (f x w)) -> sat Y G R (pbind p f).
Proof. intros Hp Hf. induction Hp; simpl; eauto with tk. Qed.

Lemma sat_mono {A : Type} (Y : W -> Prop) (G : W -> W -> Prop) (Q Q' : A -> W -> Prop)
    (p : proc W A) :
  (forall x w, Q x w -> Q' x w) -> sat Y G Q p -> sat Y G Q' p.
Proof. intros HQ Hp. induction Hp; eauto with tk. Qed.

(** Under the rely [w' = w], the end of the run is the end of the run
    alone. *)
Lemma sat_run_alone {A : Type} (Y : W -> Prop) (Q : A -> W -> Prop) (p : proc W A) :
  sat Y (fun w w' => w' = w) Q p -> Q (run_alone p).1 (run_alone p).2.
Proof. induction 1; simpl; eauto. Qed.

Lemma ptail_run_alone {A : Type} (p' p : proc W A) :
  ptail p' p -> run_alone p = run_alone p'.
Proof. induction 1; simpl; auto. Qed.

Lemma ptail_sat {A : Type} (Y : W -> Prop) (Q : A -> W -> Prop) (p' p : proc W A) :
  ptail p' p -> sat Y (fun w w' => w' = w) Q p -> sat Y (fun w w' => w' = w) Q p'.
Proof. induction 1; [done|]. inversion 1; subst. eauto. Qed.

(** Hoare triples for handler code: from a state satisfying [P], every
    yield satisfies [Y], the rely is [G], the end satisfies [Q]. *)
Definition triple {A : Type} (Y : W -> Prop) (G : W -> W -> Prop) (P Q : W -> Prop)
    (m : M W A) : Prop :=
  forall w, P w -> sat Y G (fun _ w' => Q w') (m w).

Section Triples.
Context (Y : W -> Prop) (G : W -> W -> Prop).

Lemma triple_ret {A : Type} (P : W -> Prop) (x : A) : triple Y G P P (mret x).
Proof. intros w Hw. by constructor. Qed.

Lemma triple_bind {A B : Type} (P R Q : W -> Prop) (m : M W A) (f : A -> M W B) :
  triple Y G P R m -> (forall x, triple Y G R Q (f x)) -> triple Y G P Q (mbind m f).
Proof. intros Hm Hf w Hw. eapply sat_pbind; [by apply Hm|]. intros x w' Hw'. by apply Hf. Qed.

Lemma triple_get {A : Type} (P Q : W -> Prop) (f : W -> M W A) :
  (forall w0, P w0 -> triple Y G (fun w => w = w0) Q (f w0)) -> triple Y G P Q (mbind get f).
Proof. intros Hf w Hw. by apply (Hf w Hw). Qed.

Lemma triple_put (P Q : W -> Prop) (w' : W) :
  (forall w, P w -> Q w') -> triple Y G P Q (put w').
Proof. intros HQ w Hw. constructor. eauto. Qed.

Lemma triple_update (P : W -> Prop) :
  (forall w, P w -> Y w) -> (forall w w', P w -> G w w' -> P w') -> triple Y G P P update.
Proof. intros HY HG w Hw. constructor; [auto|]. intros w' Hw'. constructor. eauto. Qed.

Lemma triple_conseq {A : Type} (P P' Q Q' : W -> Prop) (m : M W A) :
  (forall w, P' w -> P w) -> (forall w, Q w -> Q' w) -> triple Y G P Q m -> triple Y G P' Q' m.
Proof. intros HP HQ Hm w Hw. eapply sat_mono; [|apply Hm; auto]. simpl. auto. Qed.
End Triples.
End ResumptionLemmas.

(** ** The event loop *)

Section EventLoop.
Context {W E : Type} (handler : E -> M W unit).

(** The window and file system, and the handlers suspended in
    [update()], innermost first. *)
Record tk := mk_tk { cur : W; frames : list (W -> proc W unit) }.

Definition push (p : proc W unit) (ks : list (W -> proc W unit)) : tk :=
  match p with
  | done _ w => mk_tk w ks
  | yield w k => mk_tk w (k :: ks)
  end.

(** Tk delivers a click (its command runs until it finishes or yields),
    or the innermost [update()] returns. *)
Inductive tk_step : tk -> tk -> Prop :=
  | tk_click (ev : E) (c : tk) : tk_step c (push (handler ev (cur c)) (frames c))
  | tk_return (w : W) (k : W -> proc W unit) (ks : list (W -> proc W unit)) :
      tk_step (mk_tk w (k :: ks)) (push (k w) ks).

Definition tk_steps : tk -> tk -> Prop := rtc tk_step.

(** With no further click, a suspended handler runs to its end. *)
Lemma tk_drain (p : proc W unit) (ks : list (W -> proc W unit)) :
  tk_steps (push p ks) (mk_tk (run_alone p).2 ks).
Proof.
  induction p as [x w|w k IH]; simpl; [apply rtc_refl|].
  eapply rtc_l; [apply (tk_return w k ks)|apply IH].
Qed.

(** A run that yields only in states where no click runs a command
    cannot be interrupted: until it ends, the event loop is at one of
    its own [update()] calls with the state it left there. *)
Lemma sat_isolated (Y : W -> Prop) (p : proc W unit) (ks : list (W -> proc W unit)) (c : tk) :
  (forall ev w, Y w -> handler ev w = done tt w) ->
  sat Y (fun w w' => w' = w) (fun _ _ => True) p ->
  tk_steps (push p ks) c ->
  (exists p', ptail p' p /\ c = push p' ks) \/ tk_steps (mk_tk (run_alone p).2 ks) c.
Proof.
  intros Hidle Hp Hs. remember (push p ks) as c0 eqn:Hc0.
  revert p Hp Hc0. induction Hs as [c0|c0 c1 c2 Hstep Hrest IH]; intros p Hp ->.
  { left. exists p. split; [constructor | done]. }
  destruct p as [x w|w k].
  { right. simpl. eapply rtc_l; [exact Hstep | assumption]. }
  inversion Hp as [|w0 k0 Hy Hk]; subst.
  inversion Hstep as [ev c Hc1|w' k' ks' Hc0 Hc1]; subst.
  - simpl in IH. rewrite (Hidle ev w Hy) in IH.
    destruct (IH (yield w k) Hp eq_refl) as [(p' & ? & ?)|?]; eauto with tk.
  - destruct (IH (k w) (Hk w eq_refl) eq_refl) as [(p' & ? & ?)|?]; eauto with tk.
Qed.

(** An invariant of every state that every handler keeps, also when
    it is resumed in any state satisfying the invariant, holds in every
    state of the event loop. *)
Definition frame_inv (I : W -> Prop) (k : W -> proc W unit) : Prop :=
  forall w, I w -> sat I (fun _ w' => I w') (fun _ w' => I w') (k w).

Lemma push_inv (I : W -> Prop) (p : proc W unit) (ks : list (W -> proc W unit)) :
  sat I (fun _ w' => I w') (fun _ w' => I w') p -> Forall (frame_inv I) ks ->
  I (cur (push p ks)) /\ Forall (frame_inv I) (frames (push p ks)).
Proof. destruct 1; simpl; eauto using Forall_cons_2. Qed.

Lemma tk_steps_inv (I : W -> Prop) (c c' : tk) :
  (forall ev w, I w -> sat I (fun _ w' => I w') (fun _ w' => I w') (handler ev w)) ->
  tk_steps c c' -> I (cur c) -> Forall (frame_inv I) (frames c) ->
  I (cur c') /\ Forall (frame_inv I) (frames c').
Proof.
  intros Hh Hs. induction Hs as [c|c1 c2 c3 Hstep _ IH]; [done|]. intros Hi Hf.
  assert (I (cur c2) /\ Forall (frame_inv I) (frames c2)) as [? ?]; [|by apply IH].
  destruct Hstep as [ev c|w k ks]; simpl in *; [apply push_inv; [apply Hh|]; done|].
  apply Forall_cons in Hf as [Hk Hf]. apply push_inv; [apply Hk|]; done.
Qed.
End EventLoop.

(** ** The handlers, with their [update()] calls *)

Section Handlers.
Context {Blob Img : Type} `{ImageCodec Blob Img} `{FaceAnalysis Img}
  `{OsListdir Blob} {SI : SetIter student}.

Local Open Scope tk_scope.

(** A change of the widgets ([widget.config(...)], [progress_bar['value']]). *)
Definition with_ui (f : gui -> gui) : M (world Blob) unit :=
  fun w => done tt (mk_world (files w) (f (ui w))).

(** The loop of lines 51-66: match the face, add the student, set the
    bar, then [progress_bar.update()].  An exception of the matcher
    leaves the loop and [mark_attendance]. *)
Fixpoint faces_loop_r (known : list embedding) (details : list student)
    (faces : list embedding) (i total : nat) (recognized : gset student)
    : M (world Blob) (result (gset student)) :=
  match faces with
  | [] => mret (Ok recognized)
  | face :: rest =>
      match match_face face known details with
      | Err e => mret (Err e)
      | Ok m =>
          let recognized' :=
            match m with
            | Some st => {[ st ]} ∪ recognized
            | None => recognized
            end in
          do _ <- with_ui (set_progress (progress_value i total));
          do _ <- update;
          faces_loop_r known details rest (S i) total recognized'
      end
  end.

(** [mark_attendance(image_path, progress_bar)] (lines 42-80): the
    roster is read before the loop, the day's file is written after it,
    in the file system as it is then. *)
Definition mark_attendance_r (image : Blob) (now : datetime) : M (world Blob) (result nat) :=
  do w <- get;
  match load_known_faces (known_faces (files w)) with
  | Err e => mret (Err e)
  | Ok (known_embeddings, student_details) =>
      match imread image with
      | None => mret (Err AttributeError)
      | Some img =>
          let faces := model_get img in
          do r <- faces_loop_r known_embeddings student_details faces 0 (length faces) ∅;
          match r with
          | Err e => mret (Err e)
          | Ok recognized_students =>
              do w' <- get;
              let '(att, r) := write_attendance now recognized_students (attendance (files w')) in
              do _ <- put (mk_world (mk_fs (known_faces (files w')) att) (ui w'));
              mret (rmap (fun _ => size recognized_students) r)
          end
      end
  end.

(** [browse_image()] (lines 170-199). *)
Definition browse_image_r (file : option Blob) (now : datetime) : M (world Blob) unit :=
  do _ <- with_ui (set_buttons false);
  match file with
  | None => mret tt
  | Some b =>
      do _ <- with_ui (set_image false);
      if pil_open b then
        do _ <- with_ui (fun g => set_progress 0 (set_image true g));
        do r <- mark_attendance_r b now;
        match r with
        | Ok count => with_ui (fun g => reset_gui (show (AttendanceMarked count) g))
        | Err e => with_ui (fun g => reset_gui (show (ProcessingFailed e) g))
        end
      else with_ui (fun g => reset_gui (show (ProcessingFailed OSError) g))
  end.

(** [for i in range(1, 11): progress_bar['value'] = i * 10;
    root.update(); root.after(50)] (lines 108-111). *)
Fixpoint progress_loop (ns : list nat) : M (world Blob) unit :=
  match ns with
  | [] => mret tt
  | i :: ns' =>
      do _ <- with_ui (set_progress (inject_Z (Z.of_nat i) * 10));
      do _ <- update;
      progress_loop ns'
  end.

(** Lines 113-120 and the [except] branch: save the picture into
    [known_faces] as it is now, show the box, [reset_gui()]. *)
Definition add_face_save (n r : string) (b : Blob) : M (world Blob) unit :=
  do w <- get;
  match save_face n r b (known_faces (files w)) with
  | Ok dir' =>
      put (mk_world (mk_fs dir' (attendance (files w))) (reset_gui (show (FaceAdded n r) (ui w))))
  | Err e => with_ui (fun g => reset_gui (show (ProcessingFailed e) g))
  end.

(** [add_face(progress_bar)] (lines 83-125): the buttons are left as
    they are. *)
Definition add_face_r (name roll : option string) (file : option Blob) : M (world Blob) unit :=
  match name, roll with
  | Some n, Some r =>
      if bool_decide (n <> EmptyString) && bool_decide (r <> EmptyString) then
        match file with
        | None => mret tt
        | Some b =>
            do _ <- with_ui (set_image false);
            if pil_open b then
              do _ <- with_ui (fun g => set_progress 0 (set_image true g));
              do _ <- progress_loop (seq 1 10);
              add_face_save n r b
            else with_ui (fun g => reset_gui (show (ProcessingFailed OSError) g))
        end
      else with_ui (show MissingInput)
  | _, _ => with_ui (show MissingInput)
  end.

(** The button commands (lines 201-219); a disabled button ignores the
    click. *)
Definition handle_r (ev : event) : M (world Blob) unit :=
  do w <- get;
  match ev with
  | ClickUpload file now => if upload_enabled (ui w) then browse_image_r file now else mret tt
  | ClickAddFace n r file => if add_face_enabled (ui w) then add_face_r n r file else mret tt
  end.

(** The application under [root.mainloop()] (line 221). *)
Definition app_steps : tk -> tk -> Prop := tk_steps handle_r.
End Handlers.

(** ** Run alone, the handlers are the atomic ones *)

Lemma reset_show (m : message) (g : gui) :
  reset_gui (show m g) = mk_gui false 0 LABEL_TEXT true true (shown g ++ [m]).
Proof. reflexivity. Qed.

Section Alone.
Context {Blob Img : Type} `{ImageCodec Blob Img} `{FaceAnalysis Img}
  `{OsListdir Blob} {SI : SetIter student}.

(** The window after the run differs from [w] only in what [reset_gui]
    resets: same files, same message boxes. *)
Definition same_record (w w' : world Blob) : Prop :=
  files w' = files w /\ shown (ui w') = shown (ui w).

Lemma faces_loop_r_alone (known : list embedding) (details : list student)
    (faces : list embedding) :
  forall i total recognized progress w,
  (run_alone (faces_loop_r known details faces i total recognized w)).1 =
    rmap fst (faces_loop known details faces i total recognized progress) /\
  same_record w (run_alone (faces_loop_r known details faces i total recognized w)).2.
Proof.
  induction faces as [|face rest IH]; intros i total recognized progress w; simpl; [done|].
  destruct (match_face face known details) as [m|e]; simpl; [|done].
  edestruct IH as [Hr [Hf Hs]]. split; [exact Hr|]. split; [exact Hf|]. by rewrite Hs.
Qed.

Lemma mark_attendance_r_alone (image : Blob) (now : datetime) (w : world Blob) :
  let '(r, w') := run_alone (mark_attendance_r image now w) in
  (let '(fs', r') := mark_attendance image now (files w) in (fs', rmap fst r')) = (files w', r) /\
  shown (ui w') = shown (ui w).
Proof.
  unfold mark_attendance_r, mark_attendance, mbind, get. simpl.
  destruct (load_known_faces _) as [[known details]|e]; simpl; [|done].
  destruct (imread image) as [img|]; simpl; [|done].
  rewrite run_alone_pbind.
  destruct (faces_loop_r_alone known details (model_get img) 0 (length (model_get img)) ∅ [] w)
    as (Hr & Hf & Hs).
  destruct (run_alone (faces_loop_r _ _ _ _ _ _ w)) as [r w1]. simpl in *. subst r.
  destruct (faces_loop _ _ _ _ _ _ _) as [[recognized ps]|e]; simpl;
    rewrite Hf; [|split; [done | exact Hs]].
  destruct (write_attendance _ _ _) as [att [u|e]]; simpl; split; [done | exact Hs | done | exact Hs].
Qed.

Lemma browse_image_r_alone (file : option Blob) (now : datetime) (w : world Blob) :
  (run_alone (browse_image_r file now w)).2 = browse_image file now w.
Proof.
  unfold browse_image_r, browse_image, mbind, with_ui, mret. simpl.
  destruct file as [b|]; simpl; [|done]. destruct (pil_open b); simpl; [|done].
  rewrite run_alone_pbind.
  match goal with |- context [run_alone (mark_attendance_r b now ?w3)] =>
    pose proof (mark_attendance_r_alone b now w3) as Hm end.
  destruct (run_alone (mark_attendance_r _ _ _)) as [r w']. simpl in Hm.
  destruct (mark_attendance b now (files w)) as [fs' r'].
  destruct Hm as [[= Hf <-] Hs]. simpl.
  destruct r' as [[c ps]|e]; simpl; rewrite !reset_show, Hs, Hf; done.
Qed.

Lemma progress_loop_alone (ns : list nat) :
  forall w, same_record w (run_alone (progress_loop ns w)).2.
Proof.
  induction ns as [|i ns IH]; intros w; simpl; [done|].
  edestruct IH as [Hf Hs]. split; [exact Hf|]. by rewrite Hs.
Qed.

Lemma add_face_r_alone (name roll : option string) (file : option Blob) (w : world Blob) :
  (run_alone (add_face_r name roll file w)).2 = add_face name roll file w.
Proof.
  unfold add_face_r, add_face, mbind, with_ui, mret.
  destruct name as [n|], roll as [r|]; simpl; try done.
  destruct (_ && _); simpl; [|done].
  destruct file as [b|]; simpl; [|by destruct w]. destruct (pil_open b); simpl; [|done].
  unfold add_face_save, mbind, get, put, with_ui. simpl.
  destruct (save_face n r b _); simpl; rewrite !reset_show; done.
Qed.

Lemma run_alone_handle_r (ev : event) (w : world Blob) :
  (run_alone (handle_r ev w)).2 = handle ev w.
Proof.
  destruct ev as [file now|n r file]; unfold handle_r, mbind, get; simpl.
  - destruct (upload_enabled (ui w)); [apply browse_image_r_alone | done].
  - destruct (add_face_enabled (ui w)); [apply add_face_r_alone | done].
Qed.

End Alone.

(** ** Interleavings *)

Definition buttons_disabled {Blob : Type} (w : world Blob) : Prop :=
  upload_enabled (ui w) = false /\ add_face_enabled (ui w) = false.

Section Interleaving.
Context {Blob Img : Type} `{ImageCodec Blob Img} `{FaceAnalysis Img}
  `{OsListdir Blob} {SI : SetIter student}.

Lemma triple_with_ui (Y : world Blob -> Prop) (G : world Blob -> world Blob -> Prop)
    (P Q : world Blob -> Prop) (f : gui -> gui) :
  (forall w, P w -> Q (mk_world (files w) (f (ui w)))) -> triple Y G P Q (with_ui f).
Proof. intros HQ w Hw. constructor. auto. Qed.

(** A click on the application's window, with its command run alone. *)
Lemma app_steps_handle (ev : event) (w : world Blob) (ks : list (world Blob -> proc (world Blob) unit)) :
  app_steps (mk_tk w ks) (mk_tk (handle ev w) ks).
Proof.
  eapply rtc_l; [apply (tk_click handle_r ev (mk_tk w ks))|]. simpl.
  rewrite <- run_alone_handle_r. apply tk_drain.
Qed.

(** Every run of the atomic model of [Gui] is a run of the
    application under Tk's event loop: the atomic model describes
    behaviours the program really has. *)
Theorem atomic_runs_are_app_runs (w w' : world Blob) :
  steps w w' -> app_steps (mk_tk w []) (mk_tk w' []).
Proof.
  induction 1 as [w|w1 w2 w3 [ev] _ IH]; [apply rtc_refl|].
  eapply rtc_trans; [apply app_steps_handle | exact IH].
Qed.

(** *** [browse_image] is never interrupted *)

Lemma handle_r_disabled (ev : event) (w : world Blob) :
  buttons_disabled w -> handle_r ev w = done tt w.
Proof. intros [Hu Ha]. destruct ev; unfold handle_r, mbind, get; simpl; by rewrite ?Hu, ?Ha. Qed.

(** Yields only with both buttons disabled (so the rely is: nothing
    changes). *)
Definition quiet {A : Type} (P Q : world Blob -> Prop) (m : M (world Blob) A) : Prop :=
  triple buttons_disabled (fun w w' => w' = w) P Q m.

Lemma faces_loop_r_quiet (known : list embedding) (details : list student) (faces : list embedding) :
  forall i total recognized, quiet buttons_disabled buttons_disabled
    (faces_loop_r known details faces i total recognized).
Proof.
  unfold quiet.
  induction faces as [|face rest IH]; intros i total recognized; simpl; [apply triple_ret|].
  destruct (match_face face known details); [|apply triple_ret].
  eapply triple_bind; [apply triple_with_ui with (Q := buttons_disabled); done|]. intros _.
  eapply triple_bind; [apply triple_update; [done | by intros ? ? ? ->]|]. intros _. apply IH.
Qed.

Lemma mark_attendance_r_quiet (image : Blob) (now : datetime) :
  quiet buttons_disabled buttons_disabled (mark_attendance_r image now).
Proof.
  unfold quiet.
  apply triple_get. intros w0 Hw0.
  apply (triple_conseq _ _ buttons_disabled _ buttons_disabled); [by intros ? -> | done |].
  destruct (load_known_faces _) as [[known details]|e]; [|apply triple_ret].
  destruct (imread image); [|apply triple_ret].
  eapply triple_bind; [apply faces_loop_r_quiet|]. intros [recognized|e]; [|apply triple_ret].
  apply triple_get. intros w1 Hw1. destruct (write_attendance _ _ _) as [att r].
  apply (triple_bind _ _ _ buttons_disabled); [apply triple_put; intros; exact Hw1|].
  intros _. apply triple_ret.
Qed.

Lemma browse_image_r_quiet (file : option Blob) (now : datetime) :
  quiet (fun _ => True) (fun _ => True) (browse_image_r file now).
Proof.
  unfold quiet.
  eapply triple_bind; [apply triple_with_ui with (Q := buttons_disabled); done|]. intros _.
  destruct file as [b|]; [|eapply triple_conseq; [| |apply triple_ret]; done].
  eapply triple_bind; [apply triple_with_ui with (Q := buttons_disabled); done|]. intros _.
  destruct (pil_open b); [|by apply triple_with_ui].
  eapply triple_bind; [apply triple_with_ui with (Q := buttons_disabled); done|]. intros _.
  eapply triple_bind; [apply mark_attendance_r_quiet|].
  intros [c|e]; by apply triple_with_ui.
Qed.

(** C11: [browse_image] disables both buttons before it first
    hands control to Tk, so no click delivered during attendance runs a
    command: from the click on Upload Photo on, the event loop is at
    one of [browse_image]'s own [progress_bar.update()] calls, in the
    state [browse_image] itself left there, until it has passed through
    exactly the state that the atomic handler computes. *)
Theorem upload_uninterruptible (file : option Blob) (now : datetime) (w : world Blob)
    (ks : list (world Blob -> proc (world Blob) unit)) (c : tk) :
  app_steps (push (handle_r (ClickUpload file now) w) ks) c ->
  (exists p, ptail p (handle_r (ClickUpload file now) w) /\ c = push p ks) \/
  app_steps (mk_tk (handle (ClickUpload file now) w) ks) c.
Proof.
  intros Hs. rewrite <- run_alone_handle_r.
  apply (sat_isolated handle_r buttons_disabled); [apply handle_r_disabled| |exact Hs].
  unfold handle_r, mbind, get. simpl. destruct (upload_enabled (ui w)); [|by constructor].
  eapply sat_mono; [|by apply browse_image_r_quiet]. done.
Qed.

(** *** The buttons agree in every state of the event loop *)

Definition agree_triple {A : Type} (m : M (world Blob) A) : Prop :=
  triple buttons_agree (fun _ w' => buttons_agree w') buttons_agree buttons_agree m.

Lemma agree_with_ui (f : gui -> gui) :
  (forall g, upload_enabled g = add_face_enabled g -> upload_enabled (f g) = add_face_enabled (f g)) ->
  agree_triple (with_ui f).
Proof. intros Hf. apply triple_with_ui. intros w. apply Hf. Qed.

Lemma agree_update : agree_triple update.
Proof. by apply triple_update. Qed.

Lemma agree_bind {A B : Type} (m : M (world Blob) A) (f : A -> M (world Blob) B) :
  agree_triple m -> (forall x, agree_triple (f x)) -> agree_triple (mbind m f).
Proof. apply triple_bind. Qed.

Lemma agree_get {A : Type} (f : world Blob -> M (world Blob) A) :
  (forall w, buttons_agree w -> agree_triple (f w)) -> agree_triple (mbind get f).
Proof.
  intros Hf. apply triple_get. intros w0 Hw0.
  eapply triple_conseq; [| |apply (Hf w0 Hw0)]; [by intros ? -> | done].
Qed.

#[local] Hint Resolve agree_update agree_bind agree_get : tk.
#[local] Hint Extern 1 (agree_triple (mret _)) => apply triple_ret : tk.
#[local] Hint Extern 1 (agree_triple (with_ui _)) => apply agree_with_ui; intros; done : tk.

Lemma faces_loop_r_agree (known : list embedding) (details : list student) (faces : list embedding) :
  forall i total recognized, agree_triple (faces_loop_r known details faces i total recognized).
Proof.
  induction faces as [|face rest IH]; intros i total recognized; simpl; [auto with tk|].
  destruct (match_face face known details); auto with tk.
Qed.

Lemma mark_attendance_r_agree (image : Blob) (now : datetime) :
  agree_triple (mark_attendance_r image now).
Proof.
  apply agree_get. intros w0 _.
  destruct (load_known_faces _) as [[known details]|e]; [|auto with tk].
  destruct (imread image); [|auto with tk].
  apply agree_bind; [apply faces_loop_r_agree|]. intros [recognized|e]; [|auto with tk].
  apply agree_get. intros w1 Hw1. destruct (write_attendance _ _ _) as [att r].
  apply agree_bind; [|auto with tk]. intros w _. constructor. exact Hw1.
Qed.

Lemma progress_loop_agree (ns : list nat) : agree_triple (progress_loop ns).
Proof. induction ns; simpl; auto with tk. Qed.

Lemma browse_image_r_agree (file : option Blob) (now : datetime) :
  agree_triple (browse_image_r file now).
Proof.
  unfold browse_image_r. apply agree_bind; [auto with tk|]. intros _.
  destruct file as [b|]; [|auto with tk].
  apply agree_bind; [auto with tk|]. intros _. destruct (pil_open b); [|auto with tk].
  apply agree_bind; [auto with tk|]. intros _.
  apply agree_bind; [apply mark_attendance_r_agree|]. intros []; auto with tk.
Qed.

Lemma add_face_r_agree (name roll : option string) (file : option Blob) :
  agree_triple (add_face_r name roll file).
Proof.
  unfold add_face_r. destruct name as [n|], roll as [r|]; try auto with tk.
  destruct (_ && _); [|auto with tk]. destruct file as [b|]; [|auto with tk].
  apply agree_bind; [auto with tk|]. intros _. destruct (pil_open b); [|auto with tk].
  apply agree_bind; [auto with tk|]. intros _.
  apply agree_bind; [apply progress_loop_agree|]. intros _.
  unfold add_face_save. apply agree_get. intros w1 _.
  destruct (save_face _ _ _ _); [|auto with tk]. intros w _. constructor. done.
Qed.

Lemma handle_r_agree (ev : event) : agree_triple (handle_r ev).
Proof.
  apply agree_get. intros w0 _. destruct ev; cbv beta iota.
  - destruct (upload_enabled _); [apply browse_image_r_agree | auto with tk].
  - destruct (add_face_enabled _); [apply add_face_r_agree | auto with tk].
Qed.

(** C12: In every state of the application under Tk's event loop,
    reached from the start-up window by any clicks delivered at any of
    the [update()] calls, the two buttons are both enabled or both
    disabled. *)
Theorem app_buttons_agree (fs : fs_state Blob) (c : tk) :
  app_steps (mk_tk (initial_world fs) []) c -> buttons_agree (cur c).
Proof.
  intros Hs. apply (tk_steps_inv handle_r buttons_agree _ _ handle_r_agree Hs); done.
Qed.

(** *** An upload clicked during enrolment *)

(** The window when Add New Face first calls [root.update()]. *)
Definition enrol_first_ui (g : gui) : gui :=
  set_progress (inject_Z (Z.of_nat 1) * 10) (set_progress 0 (set_image true (set_image false g))).

(** Add New Face runs to its first [root.update()] and suspends there,
    with the buttons as they were. *)
Lemma add_face_r_first_update (n r : string) (b : Blob) (w : world Blob) :
  add_face_enabled (ui w) = true -> n <> EmptyString -> r <> EmptyString -> pil_open b = true ->
  handle_r (ClickAddFace (Some n) (Some r) (Some b)) w =
    yield (mk_world (files w) (enrol_first_ui (ui w)))
      (mbind (progress_loop (seq 2 9)) (fun _ => add_face_save n r b)).
Proof.
  intros Ha Hn Hr Hb. unfold handle_r, mbind, get. simpl. rewrite Ha. unfold add_face_r.
  rewrite (bool_decide_eq_true_2 _ Hn), (bool_decide_eq_true_2 _ Hr). simpl. by rewrite Hb.
Qed.

(** The enrolment suspended in its first [root.update()], resumed in
    any state: it finishes the progress loop, saves the picture into the
    roster as it is then, shows its box and resets the window. *)
Lemma enrol_resume (n r : string) (b : Blob) (w2 : world Blob) (dir' : gmap string Blob) :
  save_face n r b (known_faces (files w2)) = Ok dir' ->
  exists w', app_steps (mk_tk w2 [mbind (progress_loop (seq 2 9)) (fun _ => add_face_save n r b)])
                       (mk_tk w' []) /\
    files w' = mk_fs dir' (attendance (files w2)) /\
    ui w' = mk_gui false 0 LABEL_TEXT true true (shown (ui w2) ++ [FaceAdded n r]).
Proof.
  intros Hsave. set (k1 := mbind (progress_loop (seq 2 9)) (fun _ => add_face_save n r b)).
  exists (run_alone (k1 w2)).2. split; [apply (tk_drain handle_r (yield w2 k1) [])|].
  subst k1. unfold mbind. rewrite run_alone_pbind.
  destruct (progress_loop_alone (seq 2 9) w2) as [Hf3 Hs3].
  destruct (run_alone (progress_loop _ _)) as [[] w3]. simpl in *.
  unfold add_face_save, mbind, get, put. simpl. rewrite Hf3, Hsave. simpl.
  rewrite reset_show, Hs3. done.
Qed.

(** C10: Add New Face leaves both buttons enabled through its ten
    [root.update()] calls: after the click it is suspended in the first
    one, showing its picture, with Upload Photo enabled.  An upload
    clicked there runs the whole attendance pass, nested, before the
    picture is saved, and its [reset_gui] clears the enrolment's
    picture while the enrolment is still running.  The pass counts
    against the roster without the new student, its box comes before
    the enrolment's, and the enrolment then saves into the roster as
    it was. *)
Theorem upload_during_enrol (n r : string) (b photo : Blob) (now : datetime) (w : world Blob)
    (dir' : gmap string Blob) (fs1 : fs_state Blob) (k : nat) (ps : list Q) :
  upload_enabled (ui w) = true -> add_face_enabled (ui w) = true ->
  n <> EmptyString -> r <> EmptyString -> pil_open b = true ->
  save_face n r b (known_faces (files w)) = Ok dir' ->
  pil_open photo = true -> mark_attendance photo now (files w) = (fs1, Ok (k, ps)) ->
  exists w1 k1 w2 w',
    push (handle_r (ClickAddFace (Some n) (Some r) (Some b)) w) [] = mk_tk w1 [k1] /\
    upload_enabled (ui w1) = true /\ image_shown (ui w1) = true /\
    app_steps (push (handle_r (ClickUpload (Some photo) now) w1) [k1]) (mk_tk w2 [k1]) /\
    image_shown (ui w2) = false /\
    app_steps (mk_tk w2 [k1]) (mk_tk w' []) /\
    files w' = mk_fs dir' (attendance fs1) /\
    shown (ui w') = shown (ui w) ++ [AttendanceMarked k; FaceAdded n r].
Proof.
  intros Hu Ha Hn Hr Hb Hsave Hp Hm.
  set (w1 := mk_world (files w) (enrol_first_ui (ui w))).
  set (w2 := handle (ClickUpload (Some photo) now) w1).
  assert (files w2 = fs1 /\ ui w2 = mk_gui false 0 LABEL_TEXT true true
                                      (shown (ui w) ++ [AttendanceMarked k])) as [Hf2 Hu2].
  { subst w2 w1. simpl. rewrite Hu. unfold browse_image. simpl. rewrite Hp, Hm. done. }
  assert (known_faces fs1 = known_faces (files w)) as Hk1
    by (rewrite <- (mark_attendance_known photo now (files w)), Hm; reflexivity).
  destruct (enrol_resume n r b w2 dir') as (w' & Hrun & Hf' & Hu'); [by rewrite Hf2, Hk1|].
  exists w1, (mbind (progress_loop (seq 2 9)) (fun _ => add_face_save n r b)), w2, w'.
  split; [by rewrite add_face_r_first_update|]. split; [done|]. split; [done|]. split.
  { eapply rtc_trans; [apply tk_drain|]. rewrite run_alone_handle_r. apply rtc_refl. }
  split; [by rewrite Hu2|]. split; [exact Hrun|]. split; [by rewrite Hf', Hf2|].
  rewrite Hu', Hu2. simpl. by rewrite <- app_assoc.
Qed.

(** C13: A cancelled Upload Photo dialog freezes the window only at the
    top level of the event loop.  Clicked while Add New Face is in its
    progress loop, the cancelled upload disables both buttons, but the
    enrolment, when its [root.update()] returns, finishes, saves its
    picture and its [reset_gui] enables both buttons again. *)
Theorem cancel_during_enrol_recovers (n r : string) (b : Blob) (now : datetime) (w : world Blob)
    (dir' : gmap string Blob) :
  upload_enabled (ui w) = true -> add_face_enabled (ui w) = true ->
  n <> EmptyString -> r <> EmptyString -> pil_open b = true ->
  save_face n r b (known_faces (files w)) = Ok dir' ->
  exists w1 k1 w2 w',
    push (handle_r (ClickAddFace (Some n) (Some r) (Some b)) w) [] = mk_tk w1 [k1] /\
    push (handle_r (ClickUpload None now) w1) [k1] = mk_tk w2 [k1] /\
    buttons_disabled w2 /\
    app_steps (mk_tk w2 [k1]) (mk_tk w' []) /\
    upload_enabled (ui w') = true /\ add_face_enabled (ui w') = true /\
    files w' = mk_fs dir' (attendance (files w)) /\
    shown (ui w') = shown (ui w) ++ [FaceAdded n r].
Proof.
  intros Hu Ha Hn Hr Hb Hsave.
  set (w1 := mk_world (files w) (enrol_first_ui (ui w))).
  set (w2 := mk_world (files w) (set_buttons false (enrol_first_ui (ui w)))).
  destruct (enrol_resume n r b w2 dir') as (w' & Hrun & Hf' & Hu'); [done|].
  exists w1, (mbind (progress_loop (seq 2 9)) (fun _ => add_face_save n r b)), w2, w'.
  split; [by rewrite add_face_r_first_update|].
  split; [unfold handle_r, mbind, get; simpl; by rewrite Hu|].
  split; [done|]. split; [exact Hrun|]. rewrite Hu', Hf'. done.
Qed.
End Interleaving.
