(* ===== verification/Examples.v ===== *)
(** Concrete runs of the model and the witnesses of the theorems: each
    theorem with a hypothesis is applied here to a concrete input on
    which its hypotheses hold, evaluated with the concrete providers of
    [Provider] (an image is the list of its faces' embeddings; the
    directory is listed in sorted order; a [set] is iterated in the
    order of its elements).

    The fixture: the roster directory holds [Alice_1.jpg] (embedding
    [(1, 0)]) and [Bob_2.jpg] (embedding [(0, 1)]); the class photo
    holds one face [(2, 1)], whose similarity with Alice is
    [2 / sqrt 5 > 0.5].  The examples also show the behaviours the
    findings are about: a roll shared by two names ("1" and "01") makes
    the roster and the CSV rows follow the listing and iteration order,
    a cancelled upload dialog freezes the window, and an upload clicked
    while Dave is being enrolled does not count him. *)

From Stdlib Require Import ZArith Lia QArith Sorted Reals.
From stdpp Require Import base list gmap sets strings.
From S2P Require Import Prelude PyStr PySorted Score Matcher Provider Roster Format CsvRead Writer Session Enroll Gui Reentrant.

(** ** Fixtures *)

Definition ex_known : list embedding := [[1; 0]; [0; 1]]%Z.
Definition ex_details : list nat := [10; 20].

Definition ex_dir : gmap string (option faces_image) :=
  <["Bob_2.jpg" := Some [[0; 1]%Z]]> (<["Alice_1.jpg" := Some [[1; 0]%Z]]> ∅).

Definition ex_now : datetime := mk_datetime 2026 11 9 8 5 0.

Definition ex_present : gset student := {[ ("Bob", "2"); ("Alice", "1") ]}.

Definition ex_fs : fs_state (option faces_image) := mk_fs ex_dir ∅.
Definition ex_img : faces_image := [[2; 1]%Z].
Definition ex_photo : option faces_image := Some ex_img.

Definition ex_world : world (option faces_image) := initial_world ex_fs.
Definition ex_carol : option faces_image := Some [[1; 1]%Z].

(** A roster for the fixed-dimension model of [Provider]. *)
Definition px_dir : gmap string (option pairs_image) :=
  <["Bob_2.jpg" := Some [(0, 1)%Z]]> (<["Alice_1.jpg" := Some [(1, 0)%Z]]> ∅).

(** A sequence of clicks, handled in order. *)
Definition run (evs : list (event (Blob := option faces_image))) (w : world (option faces_image))
    : world (option faces_image) :=
  foldl (fun w ev => handle ev w) w evs.

(** ** Checking a property on a concrete set *)

(** A property of every element of a concrete set, checked on the list
    of its elements. *)
Lemma gset_Forall_elements {A : Type} `{Countable A} (P : A -> Prop) (s : gset A) :
  Forall P (elements s) -> forall x, x ∈ s -> P x.
Proof. intros HP x Hx. rewrite <- elem_of_elements in Hx. by eapply Forall_forall. Qed.

(** ** [Score] *)

Module ScoreWitnesses.
Local Open Scope Z_scope.


Lemma cosine_similarity_refines_witness :
  exists s, cosine_similarity [2; 1] [1; 0] = Ok s /\ score_wf s /\
            score_R s = Some (cosine_R [2; 1] [1; 0]).
Proof. apply cosine_similarity_refines; unfold norm2; simpl; lia. Defined.


End ScoreWitnesses.

(** ** [Matcher] *)

Module MatcherWitnesses.
Local Open Scope Z_scope.

Lemma ex_is_best : is_best [Cos 2 5; Cos 1 5] 0 (Cos 2 5).
Proof.
  right. exists 0%nat. split; [reflexivity|]. split; [reflexivity|].
  split; [reflexivity|]. split; [repeat constructor|]. intros m x Hm; lia.
Qed.

Lemma best_match_spec_witness :
  exists sims, similarities [2; 1] ex_known = Ok sims /\ is_best sims 0 (Cos 2 5).
Proof. apply best_match_spec. vm_compute. reflexivity. Defined.

Lemma match_face_correct_witness :
  match_face [2; 1] ex_known ex_details =
    Ok (if score_gt (Cos 2 5) threshold then ex_details !! Z.to_nat 0 else None).
Proof.
  apply (match_face_correct _ _ _ [Cos 2 5; Cos 1 5]);
    [reflexivity | vm_compute; reflexivity | apply ex_is_best].
Defined.

Lemma match_face_threshold_witness :
  exists sims (n : nat) s v, similarities [2; 1] ex_known = Ok sims /\ is_best sims (Z.of_nat n) s /\
    ex_details !! n = Some 10%nat /\ score_R s = Some v /\ (1 / 2 < v)%R.
Proof. apply (match_face_threshold [2; 1] ex_known ex_details 10%nat). vm_compute. reflexivity. Defined.

Lemma best_match_total_witness :
  exists sims i s, similarities [2; 1] ex_known = Ok sims /\ is_best sims i s /\
                   best_match [2; 1] ex_known = Ok (i, s).
Proof. apply best_match_total. repeat constructor. Defined.


Lemma match_face_Err_witness :
  match_face [1; 0; 0] ex_known ex_details = Err ValueError <->
  (exists k, k ∈ ex_known /\ length k <> length [1; 0; 0]) /\ ValueError = ValueError.
Proof. apply match_face_Err. reflexivity. Defined.

End MatcherWitnesses.

(** ** [Roster] *)

Module RosterWitnesses.
Local Open Scope string_scope.
Local Open Scope Z_scope.


Lemma load_known_faces_sorted_witness :
  length [[1; 0]; [0; 1]] = length [("Alice", "1"); ("Bob", "2")] /\
  exists ks, Forall2 (fun st k => py_int st.2 = Ok k) [("Alice", "1"); ("Bob", "2")] ks /\
             StronglySorted Z.le ks.
Proof. apply (load_known_faces_sorted ex_dir). vm_compute. reflexivity. Defined.

Lemma load_known_faces_stray_file_witness :
  exists e, load_known_faces (<["Thumbs.db" := None]> ex_dir) = Err e.
Proof.
  apply (load_known_faces_stray_file _ "Thumbs.db");
    [apply (bool_decide_unpack _); vm_compute; exact I | reflexivity].
Defined.

Lemma load_known_faces_listdir_independent_witness :
  @load_known_faces _ _ _ _ sorted_listdir ex_dir = @load_known_faces _ _ _ _ rev_listdir ex_dir.
Proof.
  apply load_known_faces_listdir_independent.
  - apply gset_Forall_elements. vm_compute. repeat constructor.
  - intros f g z Hf Hg. rewrite <- elem_of_elements in Hf, Hg. vm_compute in Hf, Hg.
    apply list_elem_of_In in Hf, Hg. simpl in Hf, Hg.
    destruct Hf as [<-|[<-|[]]], Hg as [<-|[<-|[]]]; vm_compute; congruence.
Defined.

(** Two names with the same integer roll: the roster order follows the
    order of [os.listdir]. *)
Example load_known_faces_tied_rolls :
  let d : gmap string (option faces_image) :=
    <["Bob_01.jpg" := Some [[0; 1]]]> (<["Ann_1.jpg" := Some [[1; 0]]]> ∅) in
  @load_known_faces _ _ _ _ sorted_listdir d = Ok ([[1; 0]; [0; 1]], [("Ann", "1"); ("Bob", "01")]) /\
  @load_known_faces _ _ _ _ rev_listdir d = Ok ([[0; 1]; [1; 0]], [("Bob", "01"); ("Ann", "1")]).
Proof. vm_compute. split; reflexivity. Qed.
End RosterWitnesses.

(** ** [Writer] *)

Module WriterWitnesses.
Local Open Scope string_scope.

Lemma attendance_rows_correct_witness :
  exists ordered,
    @attendance_rows elements_set_iter ex_now ex_present =
      (header_row :: map (student_row (date_str ex_now) (time_str ex_now)) ordered, Ok tt) /\
    ordered ≡ₚ elements ex_present /\
    exists ks, Forall2 (fun st k => roll_int st = Ok k) ordered ks /\ StronglySorted Z.le ks.
Proof. apply attendance_rows_correct. apply gset_Forall_elements. vm_compute. repeat constructor. Defined.


Lemma write_attendance_last_wins_witness :
  (@write_attendance elements_set_iter (mk_datetime 2026 11 9 15 0 0) ∅
     (@write_attendance elements_set_iter ex_now ex_present ∅).1).1 =
  (@write_attendance elements_set_iter (mk_datetime 2026 11 9 15 0 0) ∅ ∅).1.
Proof. apply write_attendance_last_wins. reflexivity. Defined.

Lemma attendance_rows_iter_independent_witness :
  @attendance_rows elements_set_iter ex_now ex_present = @attendance_rows rev_set_iter ex_now ex_present.
Proof.
  apply attendance_rows_iter_independent.
  - apply gset_Forall_elements. vm_compute. repeat constructor.
  - intros a b z Ha Hb. rewrite <- elem_of_elements in Ha, Hb. vm_compute in Ha, Hb.
    apply list_elem_of_In in Ha, Hb. simpl in Ha, Hb.
    destruct Ha as [<-|[<-|[]]], Hb as [<-|[<-|[]]]; vm_compute; congruence.
Defined.

Lemma write_attendance_other_day_witness :
  (@write_attendance elements_set_iter ex_now ex_present
     {[ attendance_filename (mk_datetime 2026 11 8 9 0 0) := "old" ]}).1
    !! attendance_filename (mk_datetime 2026 11 8 9 0 0) =
  ({[ attendance_filename (mk_datetime 2026 11 8 9 0 0) := "old" ]} : gmap string string)
    !! attendance_filename (mk_datetime 2026 11 8 9 0 0).
Proof.
  apply write_attendance_other_day;
    [vm_compute; repeat split; discriminate | vm_compute; repeat split; discriminate
    | simpl; congruence].
Defined.

(** Two students with the same integer roll: the order of their rows
    follows the iteration order of the [set]. *)
Example attendance_rows_tied_rolls :
  let s : gset student := {[ ("Ann", "1"); ("Bob", "01") ]} in
  @attendance_rows elements_set_iter ex_now s <> @attendance_rows rev_set_iter ex_now s.
Proof. vm_compute. congruence. Qed.
End WriterWitnesses.

(** ** [Session] *)

Module SessionWitnesses.
Lemma mark_attendance_spec_witness :
  exists ordered,
    ordered ≡ₚ elements (list_to_set (somes [Some ("Alice", "1")]) : gset student) /\
    (exists ks, Forall2 (fun st k => roll_int st = Ok k) ordered ks /\ StronglySorted Z.le ks) /\
    mark_attendance ex_photo ex_now ex_fs =
      (mk_fs (known_faces ex_fs)
         (<[attendance_filename ex_now :=
             csv_file (header_row :: map (student_row (date_str ex_now) (time_str ex_now)) ordered)]>
            (attendance ex_fs)),
       Ok (size (list_to_set (somes [Some ("Alice", "1")]) : gset student),
           map (fun j => progress_value j (length (model_get ex_img)))
             (seq 0 (length (model_get ex_img))))).
Proof.
  apply (mark_attendance_spec _ _ _ [[1; 0]%Z; [0; 1]%Z] [("Alice", "1"); ("Bob", "2")] ex_img);
    [vm_compute; reflexivity | reflexivity | unfold face_matches; repeat constructor].
Defined.

Lemma mark_attendance_dimension_mismatch_witness :
  mark_attendance (Some [[1; 0; 0]%Z]) ex_now ex_fs = (ex_fs, Err ValueError).
Proof.
  apply (mark_attendance_dimension_mismatch _ _ _ [[1; 0]%Z; [0; 1]%Z] [("Alice", "1"); ("Bob", "2")]
           [[1; 0; 0]%Z] [1; 0; 0]%Z [1; 0]%Z);
    [vm_compute; reflexivity | reflexivity | left | left | simpl; lia].
Defined.

Lemma mark_attendance_error_unchanged_witness :
  mk_fs (<["Thumbs.db" := None]> ex_dir) ∅ = mk_fs (<["Thumbs.db" := None]> ex_dir) ∅.
Proof.
  apply (mark_attendance_error_unchanged ex_photo ex_now _ _ IndexError).
  vm_compute. reflexivity.
Defined.

Lemma mark_attendance_count_bounds_witness :
  exists known details img, load_known_faces (known_faces ex_fs) = Ok (known, details) /\
    imread ex_photo = Some img /\ 1 <= length (model_get img) /\ 1 <= length details.
Proof.
  apply (mark_attendance_count_bounds ex_photo ex_now ex_fs (mark_attendance ex_photo ex_now ex_fs).1 1 [100%Q]).
  vm_compute. reflexivity.
Defined.


End SessionWitnesses.

(** ** [Enroll] *)

Module EnrollWitnesses.
Local Open Scope Z_scope.


Lemma save_face_then_load_witness :
  exists i, [[1; 0]; [0; 1]; [1; 1]] !! i = Some [1; 1] /\
            [("Alice", "1"); ("Bob", "2"); ("Carol", "3")] !! i = Some ("Carol", "3").
Proof.
  apply (save_face_then_load "Carol" "3" (Some [[1; 1]]) ex_dir
           (<["Carol_3.jpg" := Some [[1; 1]]]> ex_dir) [[1; 1]] [[1; 1]] [1; 1] []);
    try reflexivity; vm_compute; reflexivity.
Defined.

End EnrollWitnesses.

(** ** [Gui] *)

Module GuiWitnesses.

Lemma browse_image_cancel_stuck_witness :
  let w' := handle (ClickUpload None ex_now) ex_world in
  upload_enabled (ui w') = false /\ add_face_enabled (ui w') = false /\
  forall w'', steps w' w'' -> w'' = w'.
Proof. apply browse_image_cancel_stuck. reflexivity. Defined.



(** A session: Carol is enrolled, then a photo of her is uploaded. *)
Example run_enrol_then_upload :
  shown (ui (run [ClickAddFace (Some "Carol"%string) (Some "3"%string) (Some ex_carol);
                  ClickUpload (Some ex_carol) ex_now] ex_world))
  = [FaceAdded "Carol" "3"; AttendanceMarked 1].
Proof. vm_compute. reflexivity. Qed.

(** A cancelled upload dialog, then a real upload: the second click is
    ignored and the roster photo is never processed. *)
Example run_cancel_then_upload :
  run [ClickUpload None ex_now; ClickUpload (Some ex_carol) ex_now;
       ClickAddFace (Some "Dan"%string) (Some "4"%string) (Some ex_carol)] ex_world
  = run [ClickUpload None ex_now] ex_world.
Proof. vm_compute. reflexivity. Qed.
(** Eve enrols with roll "A12": the success box, then no attendance. *)
Lemma enrol_breaks_attendance_witness :
  let w1 := handle (ClickAddFace (Some "Eve"%string) (Some "A12"%string) (Some ex_carol)) ex_world in
  shown (ui w1) = shown (ui ex_world) ++ [FaceAdded "Eve" "A12"] /\
  forall (w2 : world (option faces_image)) (photo : option faces_image) (now : datetime),
    steps w1 w2 -> pil_open photo = true ->
  exists e, browse_image (Some photo) now w2 =
    mk_world (files w2) (reset_gui (show (ProcessingFailed e) (set_progress 0 (set_image true
      (set_image false (set_buttons false (ui w2))))))).
Proof.
  apply (enrol_breaks_attendance "Eve" "A12" ex_carol [[1; 1]%Z] ex_world);
    first [reflexivity | discriminate | vm_compute; reflexivity].
Defined.

End GuiWitnesses.

(** ** Theorems under the spec's fixed dimension *)

Module TypedWitnesses.
Local Existing Instances pairs_codec pairs_analysis pairs_dim.
Local Open Scope Z_scope.


Lemma mark_attendance_errors_typed_witness :
  load_known_faces (known_faces (mk_fs (<["Thumbs.db"%string := None]> px_dir) ∅)) = Err IndexError \/
  (is_ok (load_known_faces (known_faces (mk_fs (<["Thumbs.db"%string := None]> px_dir) ∅))) = true /\
   imread (Some [(1, 1)]) = None /\ IndexError = AttributeError).
Proof.
  apply (mark_attendance_errors_typed 2 (Some [(1, 1)]) ex_now). vm_compute. reflexivity.
Defined.

Lemma enrol_then_upload_witness :
  let w := initial_world (mk_fs px_dir ∅) in
  let w1 := handle (ClickAddFace (Some "Carol"%string) (Some "3"%string) (Some (Some [(1, 1)]))) w in
  let w2 := handle (ClickUpload (Some (Some [(2, -1); (1, 1)])) ex_now) w1 in
  exists k, shown (ui w2) = shown (ui w) ++ [FaceAdded "Carol" "3"; AttendanceMarked k] /\ (1 <= k)%nat.
Proof.
  apply (enrol_then_upload 2 "Carol" "3" (Some [(1, 1)]) (Some [(2, -1); (1, 1)]) ex_now _
           [(1, 1)] [(1, 1)] [(2, -1); (1, 1)] [1; 1] [] [[1; 0]; [0; 1]; [1; 1]]
           [("Alice", "1"); ("Bob", "2"); ("Carol", "3")]%string);
    try reflexivity; try discriminate.
  all: first [ unfold norm2; simpl; lia | vm_compute; reflexivity
             | simpl; apply elem_of_cons; right; apply elem_of_cons; by left ].
Defined.
End TypedWitnesses.

Module FirstRunWitness.
Lemma mark_attendance_first_run_witness :
  mark_attendance ex_photo ex_now (startup None None) =
    (mk_fs ∅ (<[attendance_filename ex_now := csv_file [header_row]]> (makedirs None)),
     Ok (0%nat, map (fun j => progress_value j (length (model_get ex_img))) (seq 0 (length (model_get ex_img))))).
Proof. apply mark_attendance_first_run. reflexivity. Defined.
End FirstRunWitness.

(** ** [Reentrant] *)

Module ReentrantWitnesses.
(** Dave's face, far from Alice's and Bob's. *)
Definition ex_dave : option faces_image := Some [[-1; -1]%Z].


(** The upload run to its end, through its [progress_bar.update()]. *)
Lemma upload_uninterruptible_witness :
  let p := handle_r (ClickUpload (Some ex_photo) ex_now) ex_world in
  (exists p', ptail p' p /\ mk_tk (run_alone p).2 [] = push p' []) \/
  app_steps (mk_tk (handle (ClickUpload (Some ex_photo) ex_now) ex_world) []) (mk_tk (run_alone p).2 []).
Proof. apply upload_uninterruptible. apply tk_drain. Defined.

Lemma app_buttons_agree_witness :
  buttons_agree (cur (push (handle_r (ClickAddFace (Some "Dave"%string) (Some "4"%string) (Some ex_dave))
                            ex_world) [])).
Proof.
  apply (app_buttons_agree ex_fs). eapply rtc_l; [|apply rtc_refl].
  apply (tk_click handle_r (ClickAddFace (Some "Dave"%string) (Some "4"%string) (Some ex_dave))
           (mk_tk (initial_world ex_fs) [])).
Defined.

(** Dave is enrolled while a photo of him is uploaded: the upload runs
    first, against the roster without him, and counts nobody. *)
Lemma upload_during_enrol_witness :
  exists w1 k1 w2 w',
    push (handle_r (ClickAddFace (Some "Dave"%string) (Some "4"%string) (Some ex_dave)) ex_world) [] =
      mk_tk w1 [k1] /\
    upload_enabled (ui w1) = true /\ image_shown (ui w1) = true /\
    app_steps (push (handle_r (ClickUpload (Some ex_dave) ex_now) w1) [k1]) (mk_tk w2 [k1]) /\
    image_shown (ui w2) = false /\
    app_steps (mk_tk w2 [k1]) (mk_tk w' []) /\
    files w' = mk_fs (<["Dave_4.jpg"%string := ex_dave]> ex_dir)
                     (attendance (mark_attendance ex_dave ex_now ex_fs).1) /\
    shown (ui w') = shown (ui ex_world) ++ [AttendanceMarked 0; FaceAdded "Dave" "4"].
Proof.
  apply (upload_during_enrol "Dave" "4" ex_dave ex_dave ex_now ex_world _
           (mark_attendance ex_dave ex_now ex_fs).1 0 [100%Q]);
    first [reflexivity | discriminate | vm_compute; reflexivity].
Defined.

(** Dave's enrolment, with an upload dialog cancelled during it. *)
Lemma cancel_during_enrol_recovers_witness :
  exists w1 k1 w2 w',
    push (handle_r (ClickAddFace (Some "Dave"%string) (Some "4"%string) (Some ex_dave)) ex_world) [] =
      mk_tk w1 [k1] /\
    push (handle_r (ClickUpload None ex_now) w1) [k1] = mk_tk w2 [k1] /\
    buttons_disabled w2 /\
    app_steps (mk_tk w2 [k1]) (mk_tk w' []) /\
    upload_enabled (ui w') = true /\ add_face_enabled (ui w') = true /\
    files w' = mk_fs (<["Dave_4.jpg"%string := ex_dave]> ex_dir) (attendance (files ex_world)) /\
    shown (ui w') = shown (ui ex_world) ++ [FaceAdded "Dave" "4"].
Proof.
  apply (cancel_during_enrol_recovers "Dave" "4" ex_dave ex_now ex_world);
    first [reflexivity | discriminate | vm_compute; reflexivity].
Defined.

(** Clicked one after the other, the same two commands count Dave. *)
Example run_enrol_then_upload_dave :
  shown (ui (run [ClickAddFace (Some "Dave"%string) (Some "4"%string) (Some ex_dave);
                  ClickUpload (Some ex_dave) ex_now] ex_world))
  = [FaceAdded "Dave" "4"; AttendanceMarked 1].
Proof. vm_compute. reflexivity. Qed.
End ReentrantWitnesses.
